(** * SanctSim: a shallow embedding of the round engine

    The simulation is a repeated public-goods game with two institutions
    (sanctioning, SI, and sanction-free, SFI).  This development embeds
    [code/parameters.py], [code/agent.py], [code/institution.py] and
    [code/environment.py] and proves properties of the parsing of oracle
    responses, of the two-phase sanctioning stage, of the payoffs, of the
    ranks and of the anonymized feed.

    Conventions of the embedding:
    - Python [int] is [Z]; Python [float] is a primitive binary64 [float];
    - a Python [dict] is an association list in insertion order ([dict_set]
      overwrites in place, as Python does, or appends a new key);
    - agent objects live in a heap ([Heap], from references to agents);
      the population list of the environment and the member lists of the
      institutions hold references, so that an assignment to an agent is
      seen through all of them;
    - an exception that is not caught aborts the computation ([None]);
    - the language model, [json.loads] and the f-string formatting of
      values are parameters of the model. *)

From Stdlib Require Import ZArith List String Ascii Bool Lia Permutation.
From Stdlib Require Import Floats.PrimFloat Floats.FloatOps Floats.SpecFloat.
From Stdlib Require Import Numbers.DecimalString Numbers.DecimalZ.
Import ListNotations.
Open Scope string_scope.
Open Scope Z_scope.
Set Warnings "-register-all".

(* ===================================================================== *)
(** * Python values and builtins *)
(* ===================================================================== *)

Module Py.

(** ** Strings *)

(** [s.find(c)] for a one-character needle: first index, or -1. *)
Fixpoint str_find (c : ascii) (s : string) : Z :=
  match s with
  | EmptyString => -1
  | String d s' =>
      if Ascii.eqb d c then 0
      else let r := str_find c s' in if r <? 0 then -1 else r + 1
  end.

(** [s.rfind(c)] for a one-character needle: last index, or -1. *)
Fixpoint str_rfind (c : ascii) (s : string) : Z :=
  match s with
  | EmptyString => -1
  | String d s' =>
      let r := str_rfind c s' in
      if 0 <=? r then r + 1 else if Ascii.eqb d c then 0 else -1
  end.

(** Normalisation of one slice bound: negative bounds count from the end,
    and the result is clipped to [0, len]. *)
Definition slice_bound (len i : Z) : Z :=
  let j := if i <? 0 then i + len else i in
  Z.max 0 (Z.min len j).

(** [s[a:b]]. *)
Definition str_slice (s : string) (a b : Z) : string :=
  let len := Z.of_nat (String.length s) in
  let lo := slice_bound len a in
  let hi := slice_bound len b in
  if lo <? hi then substring (Z.to_nat lo) (Z.to_nat (hi - lo)) s else "".

(** The ASCII characters for which [str.isspace] holds. *)
Definition is_space (c : ascii) : bool :=
  let n := nat_of_ascii c in
  (Nat.eqb n 32 || (Nat.leb 9 n && Nat.leb n 13) || (Nat.leb 28 n && Nat.leb n 31))%bool.

Fixpoint lstrip (s : string) : string :=
  match s with
  | EmptyString => EmptyString
  | String c s' => if is_space c then lstrip s' else s
  end.

Fixpoint rstrip (s : string) : string :=
  match s with
  | EmptyString => EmptyString
  | String c s' =>
      match rstrip s' with
      | EmptyString => if is_space c then EmptyString else String c EmptyString
      | r => String c r
      end
  end.

(** [s.strip()]. *)
Definition str_strip (s : string) : string := rstrip (lstrip s).

Definition double_quote : ascii := ascii_of_nat 34.
Definition dq : string := String double_quote EmptyString.
Definition nl : string := String (ascii_of_nat 10) EmptyString.

Definition startswith_char (c : ascii) (s : string) : bool :=
  match s with
  | EmptyString => false
  | String d _ => Ascii.eqb d c
  end.

Fixpoint endswith_char (c : ascii) (s : string) : bool :=
  match s with
  | EmptyString => false
  | String d EmptyString => Ascii.eqb d c
  | String _ s' => endswith_char c s'
  end.

(** [s.upper()] on ASCII letters. *)
Definition upper_char (c : ascii) : ascii :=
  let n := nat_of_ascii c in
  if (Nat.leb 97 n && Nat.leb n 122)%bool then ascii_of_nat (n - 32) else c.

Fixpoint str_upper (s : string) : string :=
  match s with
  | EmptyString => EmptyString
  | String c s' => String (upper_char c) (str_upper s')
  end.

(** [sep.join(l)]. *)
Fixpoint str_join (sep : string) (l : list string) : string :=
  match l with
  | [] => ""
  | [x] => x
  | x :: rest => x ++ sep ++ str_join sep rest
  end.

(** [l[-n:]] for a list. *)
Definition last_n {A : Type} (n : nat) (l : list A) : list A :=
  skipn (List.length l - n) l.

(** ** [int] applied to a string

    Base-10 grammar of [int(str)]: surrounding whitespace is dropped, then
    an optional sign, then decimal digits in which single underscores may
    separate two digits.  Anything else raises [ValueError] ([None]).  The
    strings of the model are ASCII text; Python also accepts the decimal
    digits and the whitespace of other scripts. *)

Definition is_digit (c : ascii) : bool :=
  let n := nat_of_ascii c in (Nat.leb 48 n && Nat.leb n 57)%bool.

Definition digit_value (c : ascii) : Z := Z.of_nat (nat_of_ascii c - 48).

Fixpoint digits_value (acc : Z) (after_digit : bool) (s : string) : option Z :=
  match s with
  | EmptyString => if after_digit then Some acc else None
  | String c s' =>
      if is_digit c then digits_value (10 * acc + digit_value c) true s'
      else if (Ascii.eqb c "_" && after_digit)%bool then digits_value acc false s'
      else None
  end.

Definition int_of_str (s : string) : option Z :=
  match str_strip s with
  | String "-" s' => option_map Z.opp (digits_value 0 false s')
  | String "+" s' => digits_value 0 false s'
  | s' => digits_value 0 false s'
  end.

(** ** Numbers *)

(** [float(z)] : the binary64 float nearest to the integer [z]. *)
Definition float_of_Z (z : Z) : float :=
  SF2Prim (binary_normalize prec emax z 0 false).

(** [int(f)] : truncation towards zero; infinities and NaN raise. *)
Definition int_of_float (f : float) : option Z :=
  match Prim2SF f with
  | S754_zero _ => Some 0
  | S754_finite s m e =>
      let a := Z.shiftl (Zpos m) e in Some (if s then - a else a)
  | S754_infinity _ => None
  | S754_nan => None
  end.

(** A Python number: [int] or [float]. *)
Inductive pynum : Type :=
| NInt (z : Z)
| NFloat (f : float).

Definition num_to_float (x : pynum) : float :=
  match x with
  | NInt z => float_of_Z z
  | NFloat f => f
  end.

(** [x + y]: integer addition on two ints, float addition otherwise. *)
Definition num_add (x y : pynum) : pynum :=
  match x, y with
  | NInt a, NInt b => NInt (a + b)
  | _, _ => NFloat (PrimFloat.add (num_to_float x) (num_to_float y))
  end.

Definition num_mul (x y : pynum) : pynum :=
  match x, y with
  | NInt a, NInt b => NInt (a * b)
  | _, _ => NFloat (PrimFloat.mul (num_to_float x) (num_to_float y))
  end.

(** [x / y] (true division) for a non-zero divisor: always a float.  On
    two ints Python rounds the exact quotient; that is the quotient of the
    two floats as long as both ints are below 2^53 in magnitude, as the
    token counts of the game are. *)
Definition num_truediv (x y : pynum) : pynum :=
  NFloat (PrimFloat.div (num_to_float x) (num_to_float y)).

(** [x < y]. *)
Definition num_ltb (x y : pynum) : bool :=
  match x, y with
  | NInt a, NInt b => a <? b
  | _, _ => PrimFloat.ltb (num_to_float x) (num_to_float y)
  end.

(** [sum(l)] over numbers, starting from the int 0. *)
Definition num_sum (l : list pynum) : pynum := fold_left num_add l (NInt 0).

(** ** Dictionaries *)

Section Dict.
Context {K V : Type} (keq : K -> K -> bool).

Fixpoint dict_get (k : K) (d : list (K * V)) : option V :=
  match d with
  | [] => None
  | (k', v) :: d' => if keq k k' then Some v else dict_get k d'
  end.

(** [d[k] = v]: the value of an existing key is replaced where it is,
    a new key goes to the end. *)
Fixpoint dict_set (k : K) (v : V) (d : list (K * V)) : list (K * V) :=
  match d with
  | [] => [(k, v)]
  | (k', v') :: d' =>
      if keq k k' then (k', v) :: d' else (k', v') :: dict_set k v d'
  end.

Definition dict_get_default (k : K) (dflt : V) (d : list (K * V)) : V :=
  match dict_get k d with Some v => v | None => dflt end.

Definition dict_mem (k : K) (d : list (K * V)) : bool :=
  match dict_get k d with Some _ => true | None => false end.
End Dict.

Definition dict_keys {K V : Type} (d : list (K * V)) : list K := map fst d.
Definition dict_values {K V : Type} (d : list (K * V)) : list V := map snd d.

(** [sum(d.values())] for integer values. *)
Definition sum_values {K : Type} (d : list (K * Z)) : Z :=
  fold_right Z.add 0 (dict_values d).

(** ** Dynamically typed values *)

(** What [json.loads] returns. *)
Inductive json : Type :=
| JNull
| JBool (b : bool)
| JInt (z : Z)
| JFloat (f : float)
| JStr (s : string)
| JList (l : list json)
| JDict (d : list (string * json)).

(** A value stored in the dict literals of the round record: a JSON-like
    value, or a dict from agent identities to tokens. *)
Inductive pyval : Type :=
| VJson (j : json)
| VAlloc (d : list (Z * Z)).

Definition of_num (x : pynum) : pyval :=
  match x with
  | NInt z => VJson (JInt z)
  | NFloat f => VJson (JFloat f)
  end.

(** The number held by a value, for the arithmetic operators; [None] is
    the [TypeError] of an operand that is no number. *)
Definition to_num (v : pyval) : option pynum :=
  match v with
  | VJson (JInt z) => Some (NInt z)
  | VJson (JFloat f) => Some (NFloat f)
  | VJson (JBool b) => Some (NInt (if b then 1 else 0))
  | _ => None
  end.

(** [int(v)]: [None] stands for the [ValueError], [TypeError] or
    [OverflowError] that Python raises. *)
Definition py_int (v : json) : option Z :=
  match v with
  | JInt z => Some z
  | JBool b => Some (if b then 1 else 0)
  | JFloat f => int_of_float f
  | JStr s => int_of_str s
  | _ => None
  end.

(** [data.get(key, default)]; [None] is the [AttributeError] raised when
    [data] is no dict. *)
Definition py_get (key : string) (dflt : json) (data : json) : option json :=
  match data with
  | JDict d => Some (dict_get_default String.eqb key dflt d)
  | _ => None
  end.

(** [data.items()], in insertion order. *)
Definition py_items (data : json) : option (list (string * json)) :=
  match data with
  | JDict d => Some d
  | _ => None
  end.

(** [str(z)] for an int: its decimal notation. *)
Definition str_of_Z (z : Z) : string := NilZero.string_of_int (Z.to_int z).

(** [enumerate(l)] with the index shifted by [start]. *)
Fixpoint enumerate_from {A : Type} (start : Z) (l : list A) : list (Z * A) :=
  match l with
  | [] => []
  | x :: rest => (start, x) :: enumerate_from (start + 1) rest
  end.

End Py.
Import Py.

(* ===================================================================== *)
(** * parameters.py *)
(* ===================================================================== *)

Module Parameters.
Definition NUM_AGENTS : Z := 7.
Definition NUM_ROUNDS : Z := 15.
Definition INITIAL_TOKENS : Z := 1000.
Definition ENDOWMENT_STAGE_1 : Z := 20.
Definition ENDOWMENT_STAGE_2 : Z := 20.
(** The binary64 value of the literal [1.6]. *)
Definition PUBLIC_GOOD_MULTIPLIER : float := 0x1.999999999999ap+0%float.
Definition MIN_CONTRIBUTION : Z := 0.
Definition MAX_CONTRIBUTION : Z := ENDOWMENT_STAGE_1.
Definition MAX_PUNISHMENT_TOKENS : Z := 20.
Definition PUNISHMENT_EFFECT : Z := 3.
Definition PUNISHMENT_COST : Z := 1.
Definition REWARD_EFFECT : Z := 1.
Definition REWARD_COST : Z := 1.
Definition DISPLAY_PAST_ACTIONS : Z := 5.
End Parameters.
Import Parameters.

(* ===================================================================== *)
(** * Data model *)
(* ===================================================================== *)

Inductive InstitutionType : Type := SI | SFI.

Definition institution_name (t : InstitutionType) : string :=
  match t with SI => "SI" | SFI => "SFI" end.

Definition InstitutionType_eqb (a b : InstitutionType) : bool :=
  match a, b with
  | SI, SI => true
  | SFI, SFI => true
  | _, _ => false
  end.

(** A dict literal with string keys: agent data, feedback, anonymized
    entry. *)
Definition StrDict : Type := list (string * pyval).

(** One element of [anonymous_data_history]:
    [{'round_number': ..., 'anonymous_data': ...}]. *)
Record AnonymousRound : Type := mkAnonymousRound {
  ar_round_number : Z;
  ar_anonymous_data : list StrDict
}.

(** The attributes of an [Agent] object.  The API clients and the output
    directory are part of the outside world.  [current_group] records which
    of the two institutions the agent points to. *)
Record Agent : Type := mkAgent {
  agent_id : Z;
  institution_choice : option InstitutionType;
  contribution : Z;
  cumulative_payoff : pynum;
  round_payoff : pynum;
  history : list StrDict;
  current_group : option InstitutionType;
  received_punishments : Z;
  received_rewards : Z;
  assigned_punishments : list (Z * Z);
  assigned_rewards : list (Z * Z);
  round_number : Z;
  strategy : string;
  institution_reasoning : json;
  contribution_reasoning : json;
  punishment_reasoning : json;
  anonymous_data_history : list AnonymousRound;
  current_round_anonymous_data : option (list StrDict);
  anonymized_id_mapping : list (Z * Z);
  deanonymized_punishment_reasoning : json
}.

(** Attribute assignment [self.f = v], one function per assigned attribute. *)
Definition set_institution_choice (v : option InstitutionType) (a : Agent) : Agent :=
  mkAgent (agent_id a) v (contribution a) (cumulative_payoff a) (round_payoff a) (history a) (current_group a) (received_punishments a) (received_rewards a) (assigned_punishments a) (assigned_rewards a) (round_number a) (strategy a) (institution_reasoning a) (contribution_reasoning a) (punishment_reasoning a) (anonymous_data_history a) (current_round_anonymous_data a) (anonymized_id_mapping a) (deanonymized_punishment_reasoning a).
Definition set_contribution (v : Z) (a : Agent) : Agent :=
  mkAgent (agent_id a) (institution_choice a) v (cumulative_payoff a) (round_payoff a) (history a) (current_group a) (received_punishments a) (received_rewards a) (assigned_punishments a) (assigned_rewards a) (round_number a) (strategy a) (institution_reasoning a) (contribution_reasoning a) (punishment_reasoning a) (anonymous_data_history a) (current_round_anonymous_data a) (anonymized_id_mapping a) (deanonymized_punishment_reasoning a).
Definition set_cumulative_payoff (v : pynum) (a : Agent) : Agent :=
  mkAgent (agent_id a) (institution_choice a) (contribution a) v (round_payoff a) (history a) (current_group a) (received_punishments a) (received_rewards a) (assigned_punishments a) (assigned_rewards a) (round_number a) (strategy a) (institution_reasoning a) (contribution_reasoning a) (punishment_reasoning a) (anonymous_data_history a) (current_round_anonymous_data a) (anonymized_id_mapping a) (deanonymized_punishment_reasoning a).
Definition set_round_payoff (v : pynum) (a : Agent) : Agent :=
  mkAgent (agent_id a) (institution_choice a) (contribution a) (cumulative_payoff a) v (history a) (current_group a) (received_punishments a) (received_rewards a) (assigned_punishments a) (assigned_rewards a) (round_number a) (strategy a) (institution_reasoning a) (contribution_reasoning a) (punishment_reasoning a) (anonymous_data_history a) (current_round_anonymous_data a) (anonymized_id_mapping a) (deanonymized_punishment_reasoning a).
Definition set_history (v : list StrDict) (a : Agent) : Agent :=
  mkAgent (agent_id a) (institution_choice a) (contribution a) (cumulative_payoff a) (round_payoff a) v (current_group a) (received_punishments a) (received_rewards a) (assigned_punishments a) (assigned_rewards a) (round_number a) (strategy a) (institution_reasoning a) (contribution_reasoning a) (punishment_reasoning a) (anonymous_data_history a) (current_round_anonymous_data a) (anonymized_id_mapping a) (deanonymized_punishment_reasoning a).
Definition set_current_group (v : option InstitutionType) (a : Agent) : Agent :=
  mkAgent (agent_id a) (institution_choice a) (contribution a) (cumulative_payoff a) (round_payoff a) (history a) v (received_punishments a) (received_rewards a) (assigned_punishments a) (assigned_rewards a) (round_number a) (strategy a) (institution_reasoning a) (contribution_reasoning a) (punishment_reasoning a) (anonymous_data_history a) (current_round_anonymous_data a) (anonymized_id_mapping a) (deanonymized_punishment_reasoning a).
Definition set_received_punishments (v : Z) (a : Agent) : Agent :=
  mkAgent (agent_id a) (institution_choice a) (contribution a) (cumulative_payoff a) (round_payoff a) (history a) (current_group a) v (received_rewards a) (assigned_punishments a) (assigned_rewards a) (round_number a) (strategy a) (institution_reasoning a) (contribution_reasoning a) (punishment_reasoning a) (anonymous_data_history a) (current_round_anonymous_data a) (anonymized_id_mapping a) (deanonymized_punishment_reasoning a).
Definition set_received_rewards (v : Z) (a : Agent) : Agent :=
  mkAgent (agent_id a) (institution_choice a) (contribution a) (cumulative_payoff a) (round_payoff a) (history a) (current_group a) (received_punishments a) v (assigned_punishments a) (assigned_rewards a) (round_number a) (strategy a) (institution_reasoning a) (contribution_reasoning a) (punishment_reasoning a) (anonymous_data_history a) (current_round_anonymous_data a) (anonymized_id_mapping a) (deanonymized_punishment_reasoning a).
Definition set_assigned_punishments (v : list (Z * Z)) (a : Agent) : Agent :=
  mkAgent (agent_id a) (institution_choice a) (contribution a) (cumulative_payoff a) (round_payoff a) (history a) (current_group a) (received_punishments a) (received_rewards a) v (assigned_rewards a) (round_number a) (strategy a) (institution_reasoning a) (contribution_reasoning a) (punishment_reasoning a) (anonymous_data_history a) (current_round_anonymous_data a) (anonymized_id_mapping a) (deanonymized_punishment_reasoning a).
Definition set_assigned_rewards (v : list (Z * Z)) (a : Agent) : Agent :=
  mkAgent (agent_id a) (institution_choice a) (contribution a) (cumulative_payoff a) (round_payoff a) (history a) (current_group a) (received_punishments a) (received_rewards a) (assigned_punishments a) v (round_number a) (strategy a) (institution_reasoning a) (contribution_reasoning a) (punishment_reasoning a) (anonymous_data_history a) (current_round_anonymous_data a) (anonymized_id_mapping a) (deanonymized_punishment_reasoning a).
Definition set_round_number (v : Z) (a : Agent) : Agent :=
  mkAgent (agent_id a) (institution_choice a) (contribution a) (cumulative_payoff a) (round_payoff a) (history a) (current_group a) (received_punishments a) (received_rewards a) (assigned_punishments a) (assigned_rewards a) v (strategy a) (institution_reasoning a) (contribution_reasoning a) (punishment_reasoning a) (anonymous_data_history a) (current_round_anonymous_data a) (anonymized_id_mapping a) (deanonymized_punishment_reasoning a).
Definition set_institution_reasoning (v : json) (a : Agent) : Agent :=
  mkAgent (agent_id a) (institution_choice a) (contribution a) (cumulative_payoff a) (round_payoff a) (history a) (current_group a) (received_punishments a) (received_rewards a) (assigned_punishments a) (assigned_rewards a) (round_number a) (strategy a) v (contribution_reasoning a) (punishment_reasoning a) (anonymous_data_history a) (current_round_anonymous_data a) (anonymized_id_mapping a) (deanonymized_punishment_reasoning a).
Definition set_contribution_reasoning (v : json) (a : Agent) : Agent :=
  mkAgent (agent_id a) (institution_choice a) (contribution a) (cumulative_payoff a) (round_payoff a) (history a) (current_group a) (received_punishments a) (received_rewards a) (assigned_punishments a) (assigned_rewards a) (round_number a) (strategy a) (institution_reasoning a) v (punishment_reasoning a) (anonymous_data_history a) (current_round_anonymous_data a) (anonymized_id_mapping a) (deanonymized_punishment_reasoning a).
Definition set_punishment_reasoning (v : json) (a : Agent) : Agent :=
  mkAgent (agent_id a) (institution_choice a) (contribution a) (cumulative_payoff a) (round_payoff a) (history a) (current_group a) (received_punishments a) (received_rewards a) (assigned_punishments a) (assigned_rewards a) (round_number a) (strategy a) (institution_reasoning a) (contribution_reasoning a) v (anonymous_data_history a) (current_round_anonymous_data a) (anonymized_id_mapping a) (deanonymized_punishment_reasoning a).
Definition set_anonymous_data_history (v : list AnonymousRound) (a : Agent) : Agent :=
  mkAgent (agent_id a) (institution_choice a) (contribution a) (cumulative_payoff a) (round_payoff a) (history a) (current_group a) (received_punishments a) (received_rewards a) (assigned_punishments a) (assigned_rewards a) (round_number a) (strategy a) (institution_reasoning a) (contribution_reasoning a) (punishment_reasoning a) v (current_round_anonymous_data a) (anonymized_id_mapping a) (deanonymized_punishment_reasoning a).
Definition set_current_round_anonymous_data (v : option (list StrDict)) (a : Agent) : Agent :=
  mkAgent (agent_id a) (institution_choice a) (contribution a) (cumulative_payoff a) (round_payoff a) (history a) (current_group a) (received_punishments a) (received_rewards a) (assigned_punishments a) (assigned_rewards a) (round_number a) (strategy a) (institution_reasoning a) (contribution_reasoning a) (punishment_reasoning a) (anonymous_data_history a) v (anonymized_id_mapping a) (deanonymized_punishment_reasoning a).
Definition set_anonymized_id_mapping (v : list (Z * Z)) (a : Agent) : Agent :=
  mkAgent (agent_id a) (institution_choice a) (contribution a) (cumulative_payoff a) (round_payoff a) (history a) (current_group a) (received_punishments a) (received_rewards a) (assigned_punishments a) (assigned_rewards a) (round_number a) (strategy a) (institution_reasoning a) (contribution_reasoning a) (punishment_reasoning a) (anonymous_data_history a) (current_round_anonymous_data a) v (deanonymized_punishment_reasoning a).
Definition set_deanonymized_punishment_reasoning (v : json) (a : Agent) : Agent :=
  mkAgent (agent_id a) (institution_choice a) (contribution a) (cumulative_payoff a) (round_payoff a) (history a) (current_group a) (received_punishments a) (received_rewards a) (assigned_punishments a) (assigned_rewards a) (round_number a) (strategy a) (institution_reasoning a) (contribution_reasoning a) (punishment_reasoning a) (anonymous_data_history a) (current_round_anonymous_data a) (anonymized_id_mapping a) v.

(** The dict [group_state] built by [get_group_state].  [gs_members] holds
    the member objects as they are when the snapshot is taken: a snapshot
    is built for one decision, and no member is read through it after an
    assignment to that member. *)
Record GroupState : Type := mkGroupState {
  gs_members : list Agent;
  gs_anonymized_contributions : list Z;
  gs_group_size : Z;
  gs_round_number : Z
}.

(** An [Institution] object; [kind] tells the subclass.  [members] holds
    references to agent objects.  The two matrices exist in the
    sanctioning subclass only; they map a target identity to a dict from
    the acting identity to tokens. *)
Record Institution : Type := mkInstitution {
  kind : InstitutionType;
  members : list nat;
  total_contribution : Z;
  group_size : Z;
  inst_round_number : Z;
  public_good_share : list (Z * pynum);
  stage1_payoffs : list (Z * pynum);
  anonymized_contributions : list Z;
  punishment_matrix : list (Z * list (Z * Z));
  reward_matrix : list (Z * list (Z * Z))
}.

(** The dict [round_data] of [record_round_history]. *)
Record RoundData : Type := mkRoundData {
  rd_round_number : Z;
  rd_si_members : list Z;
  rd_sfi_members : list Z;
  rd_si_total_contribution : Z;
  rd_sfi_total_contribution : Z;
  rd_si_avg_contribution : pynum;
  rd_sfi_avg_contribution : pynum;
  rd_agents : list (Z * StrDict)
}.

(** The heap of agent objects, addressed by reference. *)
Definition Heap : Type := nat -> Agent.

Definition upd (h : Heap) (r : nat) (a : Agent) : Heap :=
  fun r' => if Nat.eqb r' r then a else h r'.

(** An [Environment] object; [agents] is the population list. *)
Record Environment : Type := mkEnvironment {
  agents : list nat;
  current_round : Z;
  env_history : list RoundData;
  si : Institution;
  sfi : Institution;
  results : list RoundData
}.

(** Attribute assignment on institutions and on the environment. *)
Definition set_members (v : list nat) (i : Institution) : Institution :=
  mkInstitution (kind i) v (total_contribution i) (group_size i) (inst_round_number i) (public_good_share i) (stage1_payoffs i) (anonymized_contributions i) (punishment_matrix i) (reward_matrix i).
Definition set_total_contribution (v : Z) (i : Institution) : Institution :=
  mkInstitution (kind i) (members i) v (group_size i) (inst_round_number i) (public_good_share i) (stage1_payoffs i) (anonymized_contributions i) (punishment_matrix i) (reward_matrix i).
Definition set_group_size (v : Z) (i : Institution) : Institution :=
  mkInstitution (kind i) (members i) (total_contribution i) v (inst_round_number i) (public_good_share i) (stage1_payoffs i) (anonymized_contributions i) (punishment_matrix i) (reward_matrix i).
Definition set_inst_round_number (v : Z) (i : Institution) : Institution :=
  mkInstitution (kind i) (members i) (total_contribution i) (group_size i) v (public_good_share i) (stage1_payoffs i) (anonymized_contributions i) (punishment_matrix i) (reward_matrix i).
Definition set_public_good_share (v : list (Z * pynum)) (i : Institution) : Institution :=
  mkInstitution (kind i) (members i) (total_contribution i) (group_size i) (inst_round_number i) v (stage1_payoffs i) (anonymized_contributions i) (punishment_matrix i) (reward_matrix i).
Definition set_stage1_payoffs (v : list (Z * pynum)) (i : Institution) : Institution :=
  mkInstitution (kind i) (members i) (total_contribution i) (group_size i) (inst_round_number i) (public_good_share i) v (anonymized_contributions i) (punishment_matrix i) (reward_matrix i).
Definition set_anonymized_contributions (v : list Z) (i : Institution) : Institution :=
  mkInstitution (kind i) (members i) (total_contribution i) (group_size i) (inst_round_number i) (public_good_share i) (stage1_payoffs i) v (punishment_matrix i) (reward_matrix i).
Definition set_punishment_matrix (v : list (Z * list (Z * Z))) (i : Institution) : Institution :=
  mkInstitution (kind i) (members i) (total_contribution i) (group_size i) (inst_round_number i) (public_good_share i) (stage1_payoffs i) (anonymized_contributions i) v (reward_matrix i).
Definition set_reward_matrix (v : list (Z * list (Z * Z))) (i : Institution) : Institution :=
  mkInstitution (kind i) (members i) (total_contribution i) (group_size i) (inst_round_number i) (public_good_share i) (stage1_payoffs i) (anonymized_contributions i) (punishment_matrix i) v.
Definition set_current_round (v : Z) (e : Environment) : Environment :=
  mkEnvironment (agents e) v (env_history e) (si e) (sfi e) (results e).
Definition set_env_history (v : list RoundData) (e : Environment) : Environment :=
  mkEnvironment (agents e) (current_round e) v (si e) (sfi e) (results e).
Definition set_si (v : Institution) (e : Environment) : Environment :=
  mkEnvironment (agents e) (current_round e) (env_history e) v (sfi e) (results e).
Definition set_sfi (v : Institution) (e : Environment) : Environment :=
  mkEnvironment (agents e) (current_round e) (env_history e) (si e) v (results e).
Definition set_results (v : list RoundData) (e : Environment) : Environment :=
  mkEnvironment (agents e) (current_round e) (env_history e) (si e) (sfi e) v.

(** ** Construction *)

(** [Agent.__init__(agent_id, ...)]. *)
Definition new_agent (agent_id : Z) : Agent :=
  mkAgent agent_id None 0 (NInt INITIAL_TOKENS) (NInt 0) [] None 0 0 [] [] 0 "LLM"
    (JStr "") (JStr "") (JStr "") [] None [] (JStr "").

(** [SanctioningInstitution()] and [SanctionFreeInstitution()]. *)
Definition new_institution (k : InstitutionType) : Institution :=
  mkInstitution k [] 0 0 0 [] [] [] [] [].

(** [Environment(agents)]. *)
Definition new_environment (agents : list nat) : Environment :=
  mkEnvironment agents 0 [] (new_institution SI) (new_institution SFI) [].

(** The population that [main] builds,
    [[Agent(agent_id=i, ...) for i in range(NUM_AGENTS)]]: the agent with
    identity [i] is at the reference [i]. *)
Definition initial_heap : Heap := fun r => new_agent (Z.of_nat r).

Definition initial_environment (num_agents : nat) : Environment :=
  new_environment (seq 0 num_agents).

(** ** Sample data used by the examples *)

Definition sample_institution (k : InstitutionType) (ms : list nat) : Institution :=
  mkInstitution k ms 0 0 1 [] [] [] [] [].


(** The same agents at the end of a round, with the cumulative payoffs
    1034.0, 1054.0, 1034.0, 1034.0, ... *)
Definition sample_ranked_heap : Heap :=
  fun r =>
    set_cumulative_payoff
      (match r with 1%nat => NFloat 1054 | _ => NFloat 1034 end)
      (new_agent (Z.of_nat r)).

Definition sample_env (si_members sfi_members : list nat) : Environment :=
  mkEnvironment (app si_members sfi_members) 1 []
                (sample_institution SI si_members)
                (sample_institution SFI sfi_members) [].

(** An agent for which a batch of one anonymized entry is staged. *)
Definition sample_staged_agent : Agent :=
  set_current_round_anonymous_data
    (Some [[("contribution", VJson (JInt 7))]])
    (set_round_number 1 (new_agent 0)).

(** A toy [json.loads] that knows five documents. *)
Definition sample_json_loads (s : string) : option json :=
  if String.eqb s "{SI}" then
    Some (JDict [("reasoning", JStr "order"); ("institution_choice", JStr "si")])
  else if String.eqb s "{C}" then
    Some (JDict [("reasoning", JStr "free riders");
                 ("punishments", JDict [("1", JInt 15); ("2", JInt 10); ("3", JInt 4)]);
                 ("rewards", JDict [("3", JInt 5); ("1", JInt 2)])])
  else if String.eqb s "{bad}" then
    Some (JDict [("reasoning", JStr "confused");
                 ("punishments", JDict [("1", JInt 5); ("2", JStr "lots")]);
                 ("rewards", JDict [])])
  else if String.eqb s "{10}" then
    Some (JDict [("reasoning", JStr "half"); ("contribution", JInt 10)])
  else if String.eqb s "{20}" then
    Some (JDict [("reasoning", JStr "all in"); ("contribution", JFloat 20.5%float)])
  else None.

(** A toy world: the list of responses the language model will give. *)
Definition sample_send_request (prompt : string) (w : list string)
  : option string * list string :=
  match w with
  | [] => (None, [])
  | r :: w' => (Some r, w')
  end.

Definition sample_dump_info (id : Z) (prompt response : string) (w : list string)
  : option unit * list string := (Some tt, w).

Definition sample_py_str (v : pyval) : string :=
  match v with
  | VJson (JInt z) => str_of_Z z
  | VJson (JStr s) => s
  | VJson JNull => "None"
  | _ => "?"
  end.

Definition sample_py_fmt2f (v : pyval) : option string :=
  match v with
  | VJson (JInt z) => Some (str_of_Z z ++ ".00")
  | VJson (JFloat _) => Some "?"
  | _ => None
  end.

(** A client that cannot be reached: every call raises. *)
Definition sample_failing_request (prompt : string) (w : list string)
  : option string * list string := (None, w).

(* ===================================================================== *)
(** * agent.py *)
(* ===================================================================== *)

Section Simulation.
Set Default Proof Using "Type".

(** ** The outside world *)

(** The state of everything outside the program. *)
Variable World : Type.
(** [api_client.send_request(model_name=..., prompt=prompt)]: the text of
    the reply, or [None] when the call raises. *)
Variable send_request : string -> World -> option string * World.
(** The same call on [summary_api_client]. *)
Variable summary_send_request : string -> World -> option string * World.
(** Writing [{'prompt': ..., 'response': ...}] to [info_<agent_id>.json]. *)
Variable dump_info : Z -> string -> string -> World -> option unit * World.
(** [json.loads]; [None] when it raises. *)
Variable json_loads : string -> option json.
(** The text of a value in an f-string replacement field [{v}]. *)
Variable py_str : pyval -> string.
(** The text of [{v:.2f}]; [None] when the format does not apply. *)
Variable py_fmt2f : pyval -> option string.

(** ** Exceptions and effects *)

(** A computation that acts on the world and either returns a value or
    raises. *)
Definition M (A : Type) : Type := World -> option A * World.

Definition ret {A : Type} (x : A) : M A := fun w => (Some x, w).

Definition raise {A : Type} : M A := fun w => (None, w).

Definition bind {A B : Type} (c : M A) (k : A -> M B) : M B :=
  fun w =>
    match c w with
    | (Some x, w') => k x w'
    | (None, w') => (None, w')
    end.

Definition lift {A : Type} (o : option A) : M A :=
  match o with
  | Some x => ret x
  | None => raise
  end.

(** [try: body except Exception: handler]. *)
Definition try_except {A : Type} (body : M A) (handler : M A) : M A :=
  fun w =>
    match body w with
    | (Some x, w') => (Some x, w')
    | (None, w') => handler w'
    end.

Definition obind {A B : Type} (o : option A) (k : A -> option B) : option B :=
  match o with
  | Some x => k x
  | None => None
  end.

Local Notation "x <- c ;; k" := (bind c (fun x => k))
  (at level 61, c at next level, right associativity).
Local Notation "' p <- c ;; k" := (bind c (fun p => k))
  (at level 61, p pattern, c at next level, right associativity).
Local Notation "x <-? c ;; k" := (obind c (fun x => k))
  (at level 61, c at next level, right associativity).
Local Notation "' p <-? c ;; k" := (obind c (fun p => k))
  (at level 61, p pattern, c at next level, right associativity).

(** ** Formatting helpers *)

Definition str_int (z : Z) : string := str_of_Z z.
Definition str_float (f : float) : string := py_str (VJson (JFloat f)).
Definition str_num (x : pynum) : string := py_str (of_num x).

(** The value of the attribute [institution_choice]: [None], ['SI'] or
    ['SFI']. *)
Definition choice_value (c : option InstitutionType) : pyval :=
  match c with
  | None => VJson JNull
  | Some t => VJson (JStr (institution_name t))
  end.

Definition str_choice (c : option InstitutionType) : string :=
  py_str (choice_value c).

(** [response[response.find('{') : response.rfind('}') + 1]]. *)
Definition extract_json (response : string) : string :=
  let json_start := str_find "{" response in
  let json_end := str_rfind "}" response + 1 in
  str_slice response json_start json_end.

(** ** Prompts *)

(** One iteration of the loop of [get_past_actions_string]. *)
Definition past_action_string (entry : StrDict) : option string :=
  let get k dflt := dict_get_default String.eqb k dflt entry in
  let round_num := get "round_number" (VJson (JStr "")) in
  let institution := get "institution_choice" (VJson (JStr "")) in
  let institution_reasoning := get "institution_reasoning" (VJson (JStr "")) in
  let contribution := get "contribution" (VJson (JStr "")) in
  let contribution_reasoning := get "contribution_reasoning" (VJson (JStr "")) in
  let stage1_payoff := get "stage1_payoff" (VJson (JStr "")) in
  let stage2_payoff := get "stage2_payoff" (VJson (JStr "")) in
  let total_round_payoff := get "payoff" (VJson (JStr "")) in
  let received_punishments := get "received_punishments" (VJson (JInt 0)) in
  let received_rewards := get "received_rewards" (VJson (JInt 0)) in
  let assigned_punishments := get "assigned_punishments" (VJson (JInt 0)) in
  let assigned_rewards := get "assigned_rewards" (VJson (JInt 0)) in
  let punishment_reasoning := get "punishment_reasoning" (VJson (JStr "")) in
  let rank := get "rank" (VJson (JStr "")) in
  let tokens_received (received : pyval) (effect : Z) : option Z :=
    r <-? to_num received ;;
    if num_ltb (NInt 0) r
    then int_of_float (num_to_float (num_truediv r (NInt effect)))
    else Some 0 in
  punishment_tokens_received <-? tokens_received received_punishments PUNISHMENT_EFFECT ;;
  reward_tokens_received <-? tokens_received received_rewards REWARD_EFFECT ;;
  Some ("Round " ++ py_str round_num ++ ": Institution: " ++ py_str institution ++ ", "
    ++ "institution_reasoning: '" ++ py_str institution_reasoning ++ "', "
    ++ "Contribution: " ++ py_str contribution
    ++ ", contribution_reasoning: '" ++ py_str contribution_reasoning ++ "', "
    ++ "Stage 1 Payoff: " ++ py_str stage1_payoff
    ++ ", Stage 2 Payoff: " ++ py_str stage2_payoff
    ++ ", Total Round Payoff: " ++ py_str total_round_payoff ++ ", "
    ++ "Received " ++ str_int punishment_tokens_received
    ++ " punishment token(s) (total effect: -" ++ py_str received_punishments ++ " tokens), "
    ++ "Received " ++ str_int reward_tokens_received
    ++ " reward token(s) (total effect: +" ++ py_str received_rewards ++ " tokens), "
    ++ "Assigned Punishments: " ++ py_str assigned_punishments
    ++ ", Assigned Rewards: " ++ py_str assigned_rewards ++ ", "
    ++ "Punishment Reasoning: '" ++ py_str punishment_reasoning ++ "', "
    ++ "Rank: " ++ py_str rank).

(** A list comprehension whose element expression may raise. *)
Fixpoint map_opt {A B : Type} (f : A -> option B) (l : list A) : option (list B) :=
  match l with
  | [] => Some []
  | x :: rest =>
      y <-? f x ;;
      ys <-? map_opt f rest ;;
      Some (y :: ys)
  end.

Definition get_past_actions_string (self : Agent) : option string :=
  actions <-? map_opt past_action_string
                (last_n (Z.to_nat DISPLAY_PAST_ACTIONS) (history self)) ;;
  match actions with
  | [] => Some "No past actions."
  | _ => Some (str_join nl actions)
  end.

(** The line of one anonymized entry in a prompt; [i] is the index given
    by [enumerate]. *)
Definition anonymous_entry_string (ie : Z * StrDict) : option string :=
  let '(i, entry) := ie in
  let get k dflt := dict_get_default String.eqb k dflt entry in
  contribution <-? dict_get String.eqb "contribution" entry ;;
  stage1 <-? py_fmt2f (get "stage1_payoff" (VJson (JInt 0))) ;;
  stage2 <-? py_fmt2f (get "stage2_payoff" (VJson (JInt 0))) ;;
  total <-? py_fmt2f (get "total_round_payoff" (VJson (JInt 0))) ;;
  Some ("Agent " ++ str_int (i + 1) ++ ": Institution: "
    ++ py_str (get "institution_choice" (VJson (JStr "Unknown"))) ++ ", "
    ++ "Contributed " ++ py_str contribution ++ " tokens, "
    ++ "Assigned Punishments: " ++ py_str (get "assigned_punishments" (VJson (JInt 0))) ++ ", "
    ++ "Assigned Rewards: " ++ py_str (get "assigned_rewards" (VJson (JInt 0))) ++ ", "
    ++ "Received Punishments: " ++ py_str (get "received_punishments" (VJson (JInt 0))) ++ ", "
    ++ "Received Rewards: " ++ py_str (get "received_rewards" (VJson (JInt 0))) ++ ", "
    ++ "Stage 1 Payoff: " ++ stage1 ++ ", "
    ++ "Stage 2 Payoff: " ++ stage2 ++ ", "
    ++ "Total Round Payoff: " ++ total).

(** The text appended for one round of [anonymous_data_history]. *)
Definition anonymous_round_string (round_data : AnonymousRound) : option string :=
  let round_num := ar_round_number round_data in
  let anonymous_data_list := ar_anonymous_data round_data in
  lines <-? map_opt anonymous_entry_string (enumerate_from 0 anonymous_data_list) ;;
  Some (nl ++ nl ++ "Round " ++ str_int round_num ++ ":" ++ nl ++ str_join nl lines).

(** The block [if self.anonymous_data_history: ... else: ...] that the
    three prompts share; they differ in the closing sentence only. *)
Definition anonymous_history_section (self : Agent) (closing : string) : option string :=
  match anonymous_data_history self with
  | [] => Some (nl ++ nl ++ "No data about other agents is available from previous rounds.")
  | _ =>
      rounds <-? map_opt anonymous_round_string
                   (last_n (Z.to_nat DISPLAY_PAST_ACTIONS) (anonymous_data_history self)) ;;
      Some (nl ++ nl ++ "Anonymous Data from Previous Rounds (up to last "
            ++ str_int DISPLAY_PAST_ACTIONS ++ " rounds):"
            ++ String.concat "" rounds
            ++ nl ++ nl ++ closing)
  end.

(** The rules of the game: the text that the three prompt templates have
    in common, up to the heading of the current situation. *)
Definition game_rules (round_number : Z) : string :=
  ("
You are participating in a public goods game in Round "
    ++ str_int round_number
    ++ ". You will interact only with participants in your institution. At the beginning of the experiment, you were assigned "
    ++ str_int INITIAL_TOKENS
    ++ " tokens in your experimental account.

Each round consists of 2 stages.

**Stage 1: Group Choice and Contribution to the Project**

(i) **Group Choice:**

In Stage 1, you decide which group you want to join. There are two different groups that can be joined:

1. **Group A (Sanction-Free Institution - SFI):**

- No possibility to impose sanctions or rewards on other group members

2. **Group B (Sanctioning Institution - SI):**

- Possibility to impose sanctions or rewards on other group members

(ii) **Contribution to the Project:**

In Stage 1 of each round, each group member is endowed with "
    ++ str_int ENDOWMENT_STAGE_1
    ++ " tokens. You have to decide how many of these "
    ++ str_int ENDOWMENT_STAGE_1
    ++ " tokens you are going to contribute to the project. The remaining tokens will be kept in your private account.

**Calculation of your payoff in Stage 1:**

Your payoff in Stage 1 consists of two components:

- Tokens you have kept: "
    ++ str_int ENDOWMENT_STAGE_1
    ++ " – your contribution to the project

- Earnings from the project: ("
    ++ str_float PUBLIC_GOOD_MULTIPLIER
    ++ " × sum of the contributions of all group members) / number of group members

Thus, your payoff in Stage 1 amounts to:

"
    ++ str_int ENDOWMENT_STAGE_1
    ++ " – your contribution to the project + ("
    ++ str_float PUBLIC_GOOD_MULTIPLIER
    ++ " × sum of the contributions of all group members) / number of group members

**Stage 2: Assignment of Tokens (Only in SI)**

If you choose SI, in Stage 2 you can increase or reduce the payoff of a group member or keep it unchanged. In each round, each participant in SI receives additional "
    ++ str_int ENDOWMENT_STAGE_2
    ++ " tokens in Stage 2. You have to decide how many of these "
    ++ str_int ENDOWMENT_STAGE_2
    ++ " tokens you are going to assign to other group members. The remaining tokens are kept in your private account. You can assign up to "
    ++ str_int MAX_PUNISHMENT_TOKENS
    ++ " tokens in total.

- Each positive token that you assign to a group member increases their payoff by "
    ++ str_int REWARD_EFFECT
    ++ " token(s) and costs you "
    ++ str_int REWARD_COST
    ++ " token(s).

- Each negative token that you assign to a group member reduces their payoff by "
    ++ str_int PUNISHMENT_EFFECT
    ++ " token(s) and costs you "
    ++ str_int PUNISHMENT_COST
    ++ " token(s).

- If you assign 0 tokens to a group member, their payoff won’t change.

**Calculation of your payoff in Stage 2:**

Your payoff in Stage 2 consists of:

- Tokens you kept in your private account: "
    ++ str_int ENDOWMENT_STAGE_2
    ++ " – sum of the tokens that you have assigned to other group members

- Increased by the number of positive tokens you have received from other group members × "
    ++ str_int REWARD_EFFECT
    ++ "

- Diminished by the number of negative tokens you have received from other group members × "
    ++ str_int PUNISHMENT_EFFECT
    ++ "

Thus, your payoff in Stage 2 amounts to:

"
    ++ str_int ENDOWMENT_STAGE_2
    ++ " – sum of the tokens that you assigned to other group members + (number of positive tokens you have received × "
    ++ str_int REWARD_EFFECT
    ++ ") – (number of negative tokens you have received × "
    ++ str_int PUNISHMENT_EFFECT
    ++ ")

**Your Total Payoff in the Round:**

Your payoff from Stage 1 + Your payoff from Stage 2

**Current situation**

").

(** The JSON reply formats that end the prompts. *)
Definition institution_choice_format : string :=
  ("
**Respond in the following JSON format:**

```json
{
  "
    ++ dq
    ++ "reasoning"
    ++ dq
    ++ ": "
    ++ dq
    ++ "Your reasoning here."
    ++ dq
    ++ ",
  "
    ++ dq
    ++ "institution_choice"
    ++ dq
    ++ ": "
    ++ dq
    ++ "SI"
    ++ dq
    ++ " or "
    ++ dq
    ++ "SFI"
    ++ dq
    ++ " 
}
```
").

Definition contribution_format : string :=
  ("
**Respond in the following JSON format:**

```json
{
  "
    ++ dq
    ++ "reasoning"
    ++ dq
    ++ ": "
    ++ dq
    ++ "Your reasoning here."
    ++ dq
    ++ ",
  "
    ++ dq
    ++ "contribution"
    ++ dq
    ++ ": amount
}
```
").

Definition punishment_format : string :=
  ("
Decide how many punishment or reward tokens to allocate to each agent.

**Respond in the following JSON format:**

```json
{
  "
    ++ dq
    ++ "reasoning"
    ++ dq
    ++ ": "
    ++ dq
    ++ "Your reasoning here."
    ++ dq
    ++ ",
  "
    ++ dq
    ++ "punishments"
    ++ dq
    ++ ": {"
    ++ dq
    ++ "agent_number"
    ++ dq
    ++ ": tokens, ...},
  "
    ++ dq
    ++ "rewards"
    ++ dq
    ++ ": {"
    ++ dq
    ++ "agent_number"
    ++ dq
    ++ ": tokens, ...}
}
```
Where agent_number is an integer between double quotes for correct parsing. Ensure your JSON response strictly adheres to the JSON standard by enclosing all keys in unescaped double quotes, ensuring proper syntax, and avoiding additional or unnecessary escape characters.
").

Definition construct_institution_choice_prompt (self : Agent) (round_number : Z)
  : option string :=
  past_actions <-? get_past_actions_string self ;;
  let prompt := game_rules round_number ++ ("You are in the institution selection stage in Round "
    ++ str_int round_number
    ++ ".

**Your Cumulative Payoff So Far:** "
    ++ str_num (cumulative_payoff self)
    ++ "

**Your Past Actions and Outcomes:**

"
    ++ past_actions
    ++ "
") in
  anonymous <-? anonymous_history_section self
    "Analyze the contributions and outcomes of other agents over previous rounds. Consider their institution choices when deciding your strategy." ;;
  let prompt := prompt ++ anonymous in
  let prompt := prompt ++ nl ++ nl
    ++ "Decide which institution to join. Reason deeply about the best strategy to follow moving forward." in
  let prompt := prompt ++ institution_choice_format in
  Some (str_strip prompt).

(** [construct_contribution_prompt(self, group_state)]: the argument
    [group_state] is not read. *)
Definition construct_contribution_prompt (self : Agent) (group_state : GroupState)
  : option string :=
  past_actions <-? get_past_actions_string self ;;
  let round_number := round_number self in
  let prompt := game_rules round_number ++ ("You are in Stage 1, in the "
    ++ str_choice (institution_choice self)
    ++ " in Round "
    ++ str_int round_number
    ++ ".

**Your Cumulative Payoff So Far:** "
    ++ str_num (cumulative_payoff self)
    ++ "

**Your Past Actions and Outcomes:**

"
    ++ past_actions
    ++ "
") in
  anonymous <-? anonymous_history_section self
    "Analyze the contributions and outcomes of other agents over previous rounds. Consider their institution choices when deciding your contribution." ;;
  let prompt := prompt ++ anonymous in
  let prompt := prompt ++ nl ++ nl ++ "Decide how many tokens (between "
    ++ str_int MIN_CONTRIBUTION ++ " and " ++ str_int MAX_CONTRIBUTION
    ++ ") you will contribute to the project. Provide your contribution amount and a brief reasoning." in
  let prompt := prompt ++ contribution_format in
  Some (str_strip prompt).

(** The loop of [construct_punishment_prompt] over
    [enumerate(group_state['members'])]: it fills the alias mapping and
    the contribution lines. *)
Fixpoint alias_members (ims : list (Z * Agent)) (mapping : list (Z * Z))
    (contributions_lines : list string) : list (Z * Z) * list string :=
  match ims with
  | [] => (mapping, contributions_lines)
  | (i, agent) :: rest =>
      let anonymized_number := i + 1 in
      alias_members rest
        (dict_set Z.eqb anonymized_number (agent_id agent) mapping)
        (app contributions_lines
           ["Agent " ++ str_int anonymized_number ++ ": Contributed "
             ++ str_int (contribution agent) ++ " tokens"])
  end.

(** [construct_punishment_prompt(self, group_state)]: returns the prompt
    and the agent with its fresh [anonymized_id_mapping]. *)
Definition construct_punishment_prompt (self : Agent) (group_state : GroupState)
  : option (string * Agent) :=
  past_actions <-? get_past_actions_string self ;;
  let round_number := round_number self in
  let '(mapping, contributions_lines) :=
    alias_members (enumerate_from 0 (gs_members group_state)) [] [] in
  let self := set_anonymized_id_mapping mapping self in
  let contributions_str := str_join nl contributions_lines in
  let prompt := game_rules round_number ++ ("You are in Stage 2, in the "
    ++ str_choice (institution_choice self)
    ++ " in Round "
    ++ str_int round_number
    ++ ".

**Your Cumulative Payoff So Far:** "
    ++ str_num (cumulative_payoff self)
    ++ "

**Your Past Actions and Outcomes:**

"
    ++ past_actions
    ++ "

**Contributions of Other Agents in Your Institution:**

"
    ++ contributions_str
    ++ "
") in
  anonymous <-? anonymous_history_section self
    "Review the anonymous data of other agents' contributions and outcomes. Consider their institution choices. Decide how to allocate your punishment and reward tokens based on their behavior." ;;
  let prompt := prompt ++ anonymous in
  let prompt := prompt ++ punishment_format in
  Some (str_strip prompt, self).

(** ** Institution choice *)

(** The body of the [try] block of [parse_institution_choice_response];
    [None] when it raises. *)
Definition try_parse_institution_choice (response : string)
  : option (InstitutionType * json) :=
  data <-? json_loads (extract_json response) ;;
  choice <-? py_get "institution_choice" (JStr "") data ;;
  match choice with
  | JStr s =>
      let institution_choice := str_upper s in
      reasoning <-? py_get "reasoning" (JStr "") data ;;
      if String.eqb institution_choice "SI" then Some (SI, reasoning)
      else if String.eqb institution_choice "SFI" then Some (SFI, reasoning)
      else Some (SFI, reasoning)
  | _ => None
  end.

Definition parse_institution_choice_response (self : Agent) (response : string) : Agent :=
  match try_parse_institution_choice response with
  | Some (institution_choice, reasoning) =>
      set_institution_reasoning reasoning
        (set_institution_choice (Some institution_choice) self)
  | None =>
      set_institution_reasoning (JStr "")
        (set_institution_choice (Some SFI) self)
  end.

Definition choose_institution (self : Agent) (round_number : Z) : M Agent :=
  let self := set_round_number round_number self in
  prompt <- lift (construct_institution_choice_prompt self round_number) ;;
  response <- send_request prompt ;;
  ret (parse_institution_choice_response self response).

(** ** Contribution *)

(** The body of the [try] block of [parse_contribution_response]: the
    clamped contribution and the reasoning, or [None] when it raises. *)
Definition try_parse_contribution (response : string) : option (Z * json) :=
  data <-? json_loads (extract_json response) ;;
  raw <-? py_get "contribution" (JInt (ENDOWMENT_STAGE_1 / 2)) data ;;
  contribution <-? py_int raw ;;
  let contribution := Z.max MIN_CONTRIBUTION (Z.min contribution MAX_CONTRIBUTION) in
  reasoning <-? py_get "reasoning" (JStr "") data ;;
  Some (contribution, reasoning).

(** [parse_contribution_response(self, response)]: the returned
    contribution and the agent with its [contribution_reasoning] set. *)
Definition parse_contribution_response (self : Agent) (response : string) : Z * Agent :=
  match try_parse_contribution response with
  | Some (contribution, reasoning) =>
      (contribution, set_contribution_reasoning reasoning self)
  | None =>
      (ENDOWMENT_STAGE_1 / 2, set_contribution_reasoning (JStr "") self)
  end.

Definition decide_contribution (self : Agent) (group_state : GroupState) : M Agent :=
  prompt <- lift (construct_contribution_prompt self group_state) ;;
  response <- send_request prompt ;;
  let '(contribution, self) := parse_contribution_response self response in
  ret (set_contribution contribution self).

(** ** Punishments and rewards *)

Definition rewrite_reasoning_with_replacements (reasoning : json)
    (replacement_dict : list (string * string)) : M json :=
  let mapping_str :=
    str_join nl (map (fun '(k, v) => "'" ++ k ++ "': '" ++ v ++ "'") replacement_dict) in
  let prompt := ("
The following text refers to agents using anonymized identifiers (e.g., 'Agent 1', 'Agent 2'). Please replace the anonymized agent names with their corresponding actual agent IDs as per the mapping provided, without altering any other content.

Mapping:

"
    ++ mapping_str
    ++ "

Text:

"
    ++ py_str (VJson reasoning)
    ++ "

Rewritten Text:
") in
  response <- summary_send_request prompt ;;
  let rewritten_text := str_strip response in
  ret (JStr rewritten_text).

Definition deanonymize_reasoning (self : Agent) (reasoning : json) : M json :=
  match anonymized_id_mapping self with
  | [] => ret reasoning
  | mapping =>
      let replacement_dict :=
        fold_left (fun d '(k, v) =>
                     dict_set String.eqb ("Agent " ++ str_int k) ("Agent_ID_" ++ str_int v) d)
                  mapping [] in
      rewrite_reasoning_with_replacements reasoning replacement_dict
  end.

(** The helper [clean_agent_key] of [parse_punishment_response]. *)
Definition clean_agent_key (key : string) : string :=
  let key := str_strip key in
  if (startswith_char double_quote key && endswith_char double_quote key)%bool
  then str_slice key 1 (-1)
  else key.

(** The dict from [str(i + 1)] to the member at index [i]. *)
Definition anonymized_number_to_agent (members : list Agent) : list (string * Agent) :=
  fold_left (fun d '(i, agent) => dict_set String.eqb (str_of_Z (i + 1)) agent d)
            (enumerate_from 0 members) [].

(** One of the two allocation loops of [parse_punishment_response] (the
    source writes the same loop twice, once over [punishments.items()] and
    once over [rewards.items()]).  The result is the allocation dict and
    [tokens_remaining] when the loop ends or breaks; [None] when an
    exception leaves the loop. *)
Fixpoint process_allocations (num_agents : Z) (table : list (string * Agent))
    (items : list (string * json)) (allocations : list (Z * Z)) (tokens_remaining : Z)
  : option (list (Z * Z) * Z) :=
  match items with
  | [] => Some (allocations, tokens_remaining)
  | (agent_num_str, tokens) :: rest =>
      let clean_key := clean_agent_key agent_num_str in
      match int_of_str clean_key with
      | None => process_allocations num_agents table rest allocations tokens_remaining
      | Some agent_num =>
          if ((1 <=? agent_num) && (agent_num <=? num_agents))%bool then
            tokens <-? py_int tokens ;;
            let tokens := Z.max 0 (Z.min tokens tokens_remaining) in
            agent <-? dict_get String.eqb (str_of_Z agent_num) table ;;
            let allocations := dict_set Z.eqb (agent_id agent) tokens allocations in
            let tokens_remaining := tokens_remaining - tokens in
            if tokens_remaining <=? 0 then Some (allocations, tokens_remaining)
            else process_allocations num_agents table rest allocations tokens_remaining
          else process_allocations num_agents table rest allocations tokens_remaining
      end
  end.

(** The body of the [try] block of [parse_punishment_response]. *)
Definition try_parse_punishment (self : Agent) (response : string)
    (group_state : GroupState) : M (list (Z * Z) * list (Z * Z) * Agent) :=
  data <- lift (json_loads (extract_json response)) ;;
  punishments <- lift (py_get "punishments" (JDict []) data) ;;
  rewards <- lift (py_get "rewards" (JDict []) data) ;;
  reasoning <- lift (py_get "reasoning" (JStr "") data) ;;
  let self := set_punishment_reasoning reasoning self in
  deanonymized <- deanonymize_reasoning self reasoning ;;
  let self := set_deanonymized_punishment_reasoning deanonymized self in
  let tokens_remaining := ENDOWMENT_STAGE_2 in
  let num_agents := Z.of_nat (List.length (gs_members group_state)) in
  let table := anonymized_number_to_agent (gs_members group_state) in
  punishment_items <- lift (py_items punishments) ;;
  '(punishment_allocations, tokens_remaining) <-
     lift (process_allocations num_agents table punishment_items [] tokens_remaining) ;;
  reward_items <- lift (py_items rewards) ;;
  '(reward_allocations, tokens_remaining) <-
     lift (process_allocations num_agents table reward_items [] tokens_remaining) ;;
  ret (punishment_allocations, reward_allocations, self).

(** [parse_punishment_response(self, response, group_state)]: every
    exception of the body is caught, so the call always returns. *)
Definition parse_punishment_response (self : Agent) (response : string)
    (group_state : GroupState) (w : World)
  : (list (Z * Z) * list (Z * Z) * Agent) * World :=
  match try_parse_punishment self response group_state w with
  | (Some result, w') => (result, w')
  | (None, w') =>
      (([], [], set_deanonymized_punishment_reasoning (JStr "")
                  (set_punishment_reasoning (JStr "") self)), w')
  end.

Definition assign_punishment (self : Agent) (group_state : GroupState)
  : M (list (Z * Z) * list (Z * Z) * Agent) :=
  '(prompt, self) <- lift (construct_punishment_prompt self group_state) ;;
  response <- send_request prompt ;;
  _ <- dump_info (agent_id self) prompt response ;;
  fun w =>
    let '((punishment_allocations, reward_allocations, self), w') :=
      parse_punishment_response self response group_state w in
    (Some (punishment_allocations, reward_allocations,
           set_assigned_rewards reward_allocations
             (set_assigned_punishments punishment_allocations self)), w').

(** ** Payoffs, history and reset *)

Definition update_payoff (amount : pynum) (self : Agent) : Agent :=
  let self := set_round_payoff amount self in
  set_cumulative_payoff (num_add (cumulative_payoff self) amount) self.

Definition update_history (round_data : StrDict) (self : Agent) : Agent :=
  set_history (app (history self) [round_data]) self.

Definition reset_for_new_round (self : Agent) : Agent :=
  let self :=
    match current_round_anonymous_data self with
    | Some data =>
        let round_data := mkAnonymousRound (round_number self) data in
        let h := app (anonymous_data_history self) [round_data] in
        let h := if DISPLAY_PAST_ACTIONS <? Z.of_nat (List.length h) then tl h else h in
        set_current_round_anonymous_data None (set_anonymous_data_history h self)
    | None => self
    end in
  let self := set_contribution 0 self in
  let self := set_received_punishments 0 self in
  let self := set_received_rewards 0 self in
  let self := set_assigned_punishments [] self in
  let self := set_assigned_rewards [] self in
  let self := set_current_group None self in
  let self := set_round_payoff (NInt 0) self in
  let self := set_institution_reasoning (JStr "") self in
  let self := set_contribution_reasoning (JStr "") self in
  let self := set_punishment_reasoning (JStr "") self in
  let self := set_deanonymized_punishment_reasoning (JStr "") self in
  set_anonymized_id_mapping [] self.

Definition receive_punishment (amount : Z) (self : Agent) : Agent :=
  set_received_punishments (received_punishments self + amount) self.

Definition receive_reward (amount : Z) (self : Agent) : Agent :=
  set_received_rewards (received_rewards self + amount) self.

Definition get_stage1_payoff (self : Agent) (group_size : Z)
    (total_group_contribution : Z) : pynum :=
  let tokens_kept := ENDOWMENT_STAGE_1 - contribution self in
  let earnings_from_public_good :=
    if 0 <? group_size
    then num_truediv (num_mul (NFloat PUBLIC_GOOD_MULTIPLIER) (NInt total_group_contribution))
                     (NInt group_size)
    else NInt 0 in
  num_add (NInt tokens_kept) earnings_from_public_good.

Definition get_stage2_payoff (self : Agent) : Z :=
  let tokens_spent :=
    sum_values (assigned_punishments self) * PUNISHMENT_COST
    + sum_values (assigned_rewards self) * REWARD_COST in
  let tokens_remaining := ENDOWMENT_STAGE_2 - tokens_spent in
  let punishment_effect := received_punishments self in
  let reward_effect := received_rewards self in
  tokens_remaining + reward_effect - punishment_effect.

(* ===================================================================== *)
(** * institution.py *)
(* ===================================================================== *)

Definition add_member (agent : nat) (self : Institution) : Institution :=
  set_members (app (members self) [agent]) self.

(** [reset_institution]; the sanctioning subclass also empties its two
    matrices. *)
Definition reset_institution (round_number : Z) (self : Institution) : Institution :=
  let self := set_members [] self in
  let self := set_total_contribution 0 self in
  let self := set_group_size 0 self in
  let self := set_inst_round_number round_number self in
  let self := set_public_good_share [] self in
  let self := set_stage1_payoffs [] self in
  let self := set_anonymized_contributions [] self in
  match kind self with
  | SI => set_reward_matrix [] (set_punishment_matrix [] self)
  | SFI => self
  end.

(** [Institution.get_group_state]. *)
Definition base_get_group_state (self : Institution) (heap : Heap)
    (requesting_agent : Agent) : GroupState :=
  mkGroupState (map heap (members self))
               (anonymized_contributions self)
               (group_size self)
               (inst_round_number self).

(** [get_group_state] as dispatched on the subclass: the sanctioning
    institution leaves the requesting agent out of the members. *)
Definition get_group_state (self : Institution) (heap : Heap)
    (requesting_agent : Agent) : GroupState :=
  let group_state := base_get_group_state self heap requesting_agent in
  match kind self with
  | SI =>
      mkGroupState
        (filter (fun agent => negb (agent_id agent =? agent_id requesting_agent))
                (map heap (members self)))
        (gs_anonymized_contributions group_state)
        (gs_group_size group_state)
        (gs_round_number group_state)
  | SFI => group_state
  end.

(** The loop [for agent in self.members] of [collect_contributions]. *)
Fixpoint collect_contributions_loop (rs : list nat) (self : Institution) (heap : Heap)
  : M (Institution * Heap) :=
  match rs with
  | [] => ret (self, heap)
  | r :: rest =>
      agent <- decide_contribution (heap r) (get_group_state self heap (heap r)) ;;
      let heap := upd heap r agent in
      let self := set_total_contribution
                    (total_contribution self + contribution (heap r)) self in
      let self := set_anonymized_contributions
                    (app (anonymized_contributions self) [contribution (heap r)]) self in
      collect_contributions_loop rest self heap
  end.

Definition collect_contributions (self : Institution) (heap : Heap)
  : M (Institution * Heap) :=
  let self := set_total_contribution 0 self in
  let self := set_group_size (Z.of_nat (List.length (members self))) self in
  let self := set_anonymized_contributions [] self in
  collect_contributions_loop (members self) self heap.

Definition distribute_public_goods (self : Institution) (heap : Heap) : Institution :=
  fold_left
    (fun (self : Institution) (r : nat) =>
       let agent := heap r in
       let stage1_payoff :=
         get_stage1_payoff agent (group_size self) (total_contribution self) in
       set_stage1_payoffs
         (dict_set Z.eqb (agent_id agent) stage1_payoff (stage1_payoffs self)) self)
    (members self) self.

Definition get_average_contribution (self : Institution) : pynum :=
  if 0 <? group_size self
  then num_truediv (NInt (total_contribution self)) (NInt (group_size self))
  else NFloat 0%float.

(** Recording the allocations of one acting agent in a matrix:
    [matrix[target][actor] = tokens] for every item, creating the row of a
    new target. *)
Definition record_allocations (actor : Z) (allocations : list (Z * Z))
    (matrix : list (Z * list (Z * Z))) : list (Z * list (Z * Z)) :=
  fold_left
    (fun matrix '(target, tokens) =>
       let matrix :=
         if dict_mem Z.eqb target matrix then matrix
         else dict_set Z.eqb target [] matrix in
       let row := dict_get_default Z.eqb target [] matrix in
       dict_set Z.eqb target (dict_set Z.eqb actor tokens row) matrix)
    allocations matrix.

(** The loop of [SanctioningInstitution.handle_punishments_and_rewards]. *)
Fixpoint handle_punishments_and_rewards_loop (rs : list nat) (self : Institution)
    (heap : Heap) : M (Institution * Heap) :=
  match rs with
  | [] => ret (self, heap)
  | r :: rest =>
      let group_state := get_group_state self heap (heap r) in
      '(punishment_allocations, reward_allocations, agent) <-
         assign_punishment (heap r) group_state ;;
      let heap := upd heap r agent in
      let self := set_punishment_matrix
                    (record_allocations (agent_id agent) punishment_allocations
                                        (punishment_matrix self)) self in
      let self := set_reward_matrix
                    (record_allocations (agent_id agent) reward_allocations
                                        (reward_matrix self)) self in
      handle_punishments_and_rewards_loop rest self heap
  end.

(** The decide phase; a no-op in the sanction-free institution. *)
Definition handle_punishments_and_rewards (self : Institution) (heap : Heap)
  : M (Institution * Heap) :=
  match kind self with
  | SI => handle_punishments_and_rewards_loop (members self) self heap
  | SFI => ret (self, heap)
  end.

(** [sum(matrix[agent_id].values())] if the identity has a row, else 0. *)
Definition tokens_directed_at (agent_id : Z) (matrix : list (Z * list (Z * Z))) : Z :=
  match dict_get Z.eqb agent_id matrix with
  | Some row => sum_values row
  | None => 0
  end.

(** One iteration of the loop of
    [SanctioningInstitution.apply_punishments_and_rewards]. *)
Definition apply_to_member (self : Institution) (heap : Heap) (r : nat) : Heap :=
  let agent := heap r in
  let total_punishment_tokens := tokens_directed_at (agent_id agent) (punishment_matrix self) in
  let total_punishment_effect := total_punishment_tokens * PUNISHMENT_EFFECT in
  let agent := receive_punishment total_punishment_effect agent in
  let total_reward_tokens := tokens_directed_at (agent_id agent) (reward_matrix self) in
  let total_reward_effect := total_reward_tokens * REWARD_EFFECT in
  let agent := receive_reward total_reward_effect agent in
  upd heap r agent.

(** The apply phase; a no-op in the sanction-free institution. *)
Definition apply_punishments_and_rewards (self : Institution) (heap : Heap) : Heap :=
  match kind self with
  | SI => fold_left (apply_to_member self) (members self) heap
  | SFI => heap
  end.

(* ===================================================================== *)
(** * environment.py *)
(* ===================================================================== *)

(** [sorted(l)] with [x < y] given by [lt]: a stable sort, here by
    insertion.  All stable sorts give the same list when [lt] is a strict
    weak order on the elements. *)
Section Sorted.
Context {A : Type} (lt : A -> A -> bool).

Fixpoint sorted_insert (x : A) (l : list A) : list A :=
  match l with
  | [] => [x]
  | y :: l' => if lt y x then y :: sorted_insert x l' else x :: l
  end.

Definition py_sorted (l : list A) : list A := fold_right sorted_insert [] l.
End Sorted.

(** [sorted(l, key=key, reverse=True)]: the stable sort in which every
    comparison of two keys is reversed. *)
Definition py_sorted_reverse {A : Type} (key : A -> pynum) (l : list A) : list A :=
  py_sorted (fun x y => num_ltb (key y) (key x)) l.

(** The enrolment of [run_round]: the agent at the reference [r] joins
    the institution it chose ([SI] when it chose ['SI'], else [SFI]). *)
Definition enroll (r : nat) (agent : Agent) (env : Environment) : Environment * Agent :=
  match institution_choice agent with
  | Some SI => (set_si (add_member r (si env)) env, set_current_group (Some SI) agent)
  | _ => (set_sfi (add_member r (sfi env)) env, set_current_group (Some SFI) agent)
  end.

(** The loop of [run_round] in which the agents choose their
    institution. *)
Fixpoint choose_institutions (rs : list nat) (env : Environment) (heap : Heap)
  : M (Environment * Heap) :=
  match rs with
  | [] => ret (env, heap)
  | r :: rest =>
      let agent := reset_for_new_round (heap r) in
      agent <- choose_institution agent (current_round env) ;;
      let '(env, agent) := enroll r agent env in
      choose_institutions rest env (upd heap r agent)
  end.

Definition calculate_payoffs (env : Environment) (heap : Heap) : Heap :=
  let heap :=
    fold_left
      (fun heap r =>
         let agent := heap r in
         let stage1_payoff :=
           dict_get_default Z.eqb (agent_id agent) (NInt 0) (stage1_payoffs (si env)) in
         let stage2_payoff := get_stage2_payoff agent in
         let total_round_payoff := num_add stage1_payoff (NInt stage2_payoff) in
         upd heap r (update_payoff total_round_payoff agent))
      (members (si env)) heap in
  fold_left
    (fun heap r =>
       let agent := heap r in
       let stage1_payoff :=
         dict_get_default Z.eqb (agent_id agent) (NInt 0) (stage1_payoffs (sfi env)) in
       let stage2_payoff := ENDOWMENT_STAGE_2 in
       let total_round_payoff := num_add stage1_payoff (NInt stage2_payoff) in
       upd heap r (update_payoff total_round_payoff agent))
    (members (sfi env)) heap.

(** The dict [agent_cumulative_payoffs]. *)
Definition agent_cumulative_payoffs (env : Environment) (heap : Heap) : list (Z * pynum) :=
  fold_left
    (fun d r => dict_set Z.eqb (agent_id (heap r)) (cumulative_payoff (heap r)) d)
    (agents env) [].

(** The dict [agent_ranks]. *)
Definition agent_ranks (env : Environment) (heap : Heap) : list (Z * Z) :=
  let sorted_payoffs :=
    py_sorted_reverse (fun x => snd x) (agent_cumulative_payoffs env heap) in
  fold_left
    (fun d '(rank, (agent_id, _)) => dict_set Z.eqb agent_id (rank + 1) d)
    (enumerate_from 0 sorted_payoffs) [].

(** The stage payoffs that [record_round_history] reads for an agent. *)
Definition stage_payoffs (env : Environment) (agent : Agent) : pynum * pynum :=
  match institution_choice agent with
  | Some SI =>
      (dict_get_default Z.eqb (agent_id agent) (NInt 0) (stage1_payoffs (si env)),
       NInt (get_stage2_payoff agent))
  | _ =>
      (dict_get_default Z.eqb (agent_id agent) (NInt 0) (stage1_payoffs (sfi env)),
       NInt ENDOWMENT_STAGE_2)
  end.

(** The dict literal [agent_data]. *)
Definition make_agent_data (env : Environment) (agent : Agent) (rank total_agents : Z)
  : StrDict :=
  let '(stage1_payoff, stage2_payoff) := stage_payoffs env agent in
  let total_round_payoff := num_add stage1_payoff stage2_payoff in
  [ ("institution_choice", choice_value (institution_choice agent));
    ("institution_reasoning", VJson (institution_reasoning agent));
    ("contribution", VJson (JInt (contribution agent)));
    ("contribution_reasoning", VJson (contribution_reasoning agent));
    ("stage1_payoff", of_num stage1_payoff);
    ("stage2_payoff", of_num stage2_payoff);
    ("payoff", of_num total_round_payoff);
    ("cumulative_payoff", of_num (cumulative_payoff agent));
    ("strategy", VJson (JStr (strategy agent)));
    ("received_punishments", VJson (JInt (received_punishments agent)));
    ("received_rewards", VJson (JInt (received_rewards agent)));
    ("assigned_punishments", VAlloc (assigned_punishments agent));
    ("assigned_rewards", VAlloc (assigned_rewards agent));
    ("punishment_reasoning", VJson (punishment_reasoning agent));
    ("deanonymized_punishment_reasoning", VJson (deanonymized_punishment_reasoning agent));
    ("rank", VJson (JStr (str_int rank ++ " out of " ++ str_int total_agents))) ].

(** [sum([a.round_payoff for a in members]) / len(members) if members
    else 0]. *)
Definition average_round_payoff (members : list nat) (heap : Heap) : pynum :=
  match members with
  | [] => NInt 0
  | _ =>
      num_truediv (num_sum (map (fun r => round_payoff (heap r)) members))
                  (NInt (Z.of_nat (List.length members)))
  end.

(** The dict [feedback]: a copy of [agent_data] with four more keys. *)
Definition make_feedback (env : Environment) (heap : Heap) (agent : Agent)
    (agent_data : StrDict) : StrDict :=
  let avg_contribution_institution :=
    match institution_choice agent with
    | Some SI => get_average_contribution (si env)
    | _ => get_average_contribution (sfi env)
    end in
  let feedback := agent_data in
  let feedback := dict_set String.eqb "round_number" (VJson (JInt (current_round env))) feedback in
  let feedback := dict_set String.eqb "avg_payoff_SI"
                    (of_num (average_round_payoff (members (si env)) heap)) feedback in
  let feedback := dict_set String.eqb "avg_payoff_SFI"
                    (of_num (average_round_payoff (members (sfi env)) heap)) feedback in
  dict_set String.eqb "avg_contribution_institution" (of_num avg_contribution_institution) feedback.

(** The first loop of [record_round_history]: agent data and feedback.
    [None] is the [KeyError] of the subscript [agent_ranks[...]]. *)
Fixpoint record_agents (env : Environment) (ranks : list (Z * Z)) (total_agents : Z)
    (rs : list nat) (round_agents : list (Z * StrDict)) (heap : Heap)
  : option (list (Z * StrDict) * Heap) :=
  match rs with
  | [] => Some (round_agents, heap)
  | r :: rest =>
      let agent := heap r in
      rank <-? dict_get Z.eqb (agent_id agent) ranks ;;
      let agent_data := make_agent_data env agent rank total_agents in
      let round_agents := dict_set Z.eqb (agent_id agent) agent_data round_agents in
      let feedback := make_feedback env heap agent agent_data in
      record_agents env ranks total_agents rest round_agents
                    (upd heap r (update_history feedback agent))
  end.

(** The dict literal [anonymous_entry], read from the other agent's data.
    [None] is the [KeyError] of a subscript. *)
Definition make_anonymous_entry (other_agent_data : StrDict) : option StrDict :=
  let sub k := dict_get String.eqb k other_agent_data in
  institution_choice <-? sub "institution_choice" ;;
  contribution <-? sub "contribution" ;;
  received_punishments <-? sub "received_punishments" ;;
  received_rewards <-? sub "received_rewards" ;;
  stage1_payoff <-? sub "stage1_payoff" ;;
  stage2_payoff <-? sub "stage2_payoff" ;;
  payoff <-? sub "payoff" ;;
  Some [ ("institution_choice", institution_choice);
         ("contribution", contribution);
         ("received_punishments", received_punishments);
         ("received_rewards", received_rewards);
         ("stage1_payoff", stage1_payoff);
         ("stage2_payoff", stage2_payoff);
         ("total_round_payoff", payoff) ].

(** The inner loop of the second loop: the anonymized batch of the agent
    with identity [observer_id]. *)
Fixpoint anonymous_data_list (round_agents : list (Z * StrDict)) (heap : Heap)
    (observer_id : Z) (others : list nat) : option (list StrDict) :=
  match others with
  | [] => Some []
  | o :: rest =>
      if negb (agent_id (heap o) =? observer_id) then
        other_agent_data <-? dict_get Z.eqb (agent_id (heap o)) round_agents ;;
        anonymous_entry <-? make_anonymous_entry other_agent_data ;;
        entries <-? anonymous_data_list round_agents heap observer_id rest ;;
        Some (anonymous_entry :: entries)
      else anonymous_data_list round_agents heap observer_id rest
  end.

(** The second loop of [record_round_history]. *)
Fixpoint stage_anonymous_data (env : Environment) (round_agents : list (Z * StrDict))
    (rs : list nat) (heap : Heap) : option Heap :=
  match rs with
  | [] => Some heap
  | r :: rest =>
      batch <-? anonymous_data_list round_agents heap (agent_id (heap r)) (agents env) ;;
      stage_anonymous_data env round_agents rest
        (upd heap r (set_current_round_anonymous_data (Some batch) (heap r)))
  end.

Definition record_round_history (env : Environment) (heap : Heap)
  : option (Environment * Heap) :=
  let round_data (round_agents : list (Z * StrDict)) :=
    mkRoundData (current_round env)
                (map (fun r => agent_id (heap r)) (members (si env)))
                (map (fun r => agent_id (heap r)) (members (sfi env)))
                (total_contribution (si env))
                (total_contribution (sfi env))
                (get_average_contribution (si env))
                (get_average_contribution (sfi env))
                round_agents in
  let ranks := agent_ranks env heap in
  let total_agents := Z.of_nat (List.length (agents env)) in
  '(round_agents, heap) <-? record_agents env ranks total_agents (agents env) [] heap ;;
  heap <-? stage_anonymous_data env round_agents (agents env) heap ;;
  let round_data := round_data round_agents in
  let env := set_env_history (app (env_history env) [round_data]) env in
  let env := set_results (app (results env) [round_data]) env in
  Some (env, heap).

Definition run_round (env : Environment) (heap : Heap) : M (Environment * Heap) :=
  let env := set_si (reset_institution (current_round env) (si env)) env in
  let env := set_sfi (reset_institution (current_round env) (sfi env)) env in
  '(env, heap) <- choose_institutions (agents env) env heap ;;
  '(si1, heap) <- collect_contributions (si env) heap ;;
  '(sfi1, heap) <- collect_contributions (sfi env) heap ;;
  let env := set_sfi sfi1 (set_si si1 env) in
  let env := set_si (distribute_public_goods (si env) heap) env in
  let env := set_sfi (distribute_public_goods (sfi env) heap) env in
  '(si2, heap) <- handle_punishments_and_rewards (si env) heap ;;
  let env := set_si si2 env in
  let heap := apply_punishments_and_rewards (si env) heap in
  let heap := calculate_payoffs env heap in
  lift (record_round_history env heap).

(** [run_simulation]: the rounds [first], [first + 1], ... *)
Fixpoint run_rounds (count : nat) (first : Z) (env : Environment) (heap : Heap)
  : M (Environment * Heap) :=
  match count with
  | O => ret (env, heap)
  | S count' =>
      '(env, heap) <- run_round (set_current_round first env) heap ;;
      run_rounds count' (first + 1) env heap
  end.

Definition run_simulation (env : Environment) (heap : Heap) : M (Environment * Heap) :=
  run_rounds (Z.to_nat NUM_ROUNDS) 1 env heap.

(* ===================================================================== *)
(** * Vocabulary of the properties *)
(* ===================================================================== *)

(** ** Allocation loops *)

Definition nonneg_values (d : list (Z * Z)) : Prop :=
  Forall (fun kv => 0 <= snd kv) d.

Definition table_step (d : list (string * Agent)) (ia : Z * Agent)
  : list (string * Agent) :=
  let '(i, agent) := ia in dict_set String.eqb (str_of_Z (i + 1)) agent d.

(** The result of [parse_punishment_response] when the [try] block
    raises. *)
Definition parse_failure (self : Agent) (result : list (Z * Z) * list (Z * Z) * Agent)
  : Prop :=
  result = ([], [], set_deanonymized_punishment_reasoning (JStr "")
                      (set_punishment_reasoning (JStr "") self)).

(** The rewriting of the reasoning by the summary model returns. *)
Definition rewriting_returns (self : Agent) (reasoning : json) (w : World) : Prop :=
  fst (deanonymize_reasoning (set_punishment_reasoning reasoning self) reasoning w)
  <> None.

(** ** Contribution stage *)

(** What [decide_contribution] may change in an agent. *)
Definition same_but_contribution (a b : Agent) : Prop :=
  set_contribution 0 (set_contribution_reasoning (JStr "") a)
  = set_contribution 0 (set_contribution_reasoning (JStr "") b).

Definition sum_contributions (heap : Heap) (rs : list nat) : Z :=
  fold_right Z.add 0 (map (fun r => contribution (heap r)) rs).

(** The reading of the specification: all the prompts of the contribution
    stage are built from the agents as they are before the stage begins,
    and only then are the replies requested and stored, member by member. *)
Fixpoint collect_from_prompts (rps : list (nat * option string)) (self : Institution)
    (heap : Heap) : M (Institution * Heap) :=
  match rps with
  | [] => ret (self, heap)
  | (r, prompt) :: rest =>
      prompt <- lift prompt ;;
      response <- send_request prompt ;;
      let '(contribution, agent) := parse_contribution_response (heap r) response in
      let heap := upd heap r (set_contribution contribution agent) in
      let self := set_total_contribution
                    (total_contribution self + contribution) self in
      let self := set_anonymized_contributions
                    (app (anonymized_contributions self) [contribution]) self in
      collect_from_prompts rest self heap
  end.

Definition collect_contributions_frozen (self : Institution) (heap : Heap)
  : M (Institution * Heap) :=
  let prompts :=
    map (fun r => (r, construct_contribution_prompt (heap r)
                        (mkGroupState [] [] 0 0))) (members self) in
  let self := set_total_contribution 0 self in
  let self := set_group_size (Z.of_nat (List.length (members self))) self in
  let self := set_anonymized_contributions [] self in
  collect_from_prompts prompts self heap.

(** ** Order of the elements of a list *)

Section Order.
Context {A : Type} (lt : A -> A -> bool).

(** [a] occurs before [b] in [l]. *)
Definition before (a b : A) (l : list A) : Prop :=
  exists l1 l2 l3, l = app l1 (a :: app l2 (b :: l3)).

(** [lt] is asymmetric and negatively transitive on the elements that
    satisfy [P]. *)
Definition ordered_on (P : A -> Prop) : Prop :=
  (forall x y, P x -> P y -> lt x y = true -> lt y x = false)
  /\ (forall x y z, P x -> P y -> P z ->
        lt x y = false -> lt y z = false -> lt x z = false).

(** No element of [l] is less than an earlier one. *)
Definition ascending (l : list A) : Prop :=
  forall a b, before a b l -> lt b a = false.
End Order.

(** ** Ranks *)

(** The index of the first occurrence of [x] in [l] (the length of [l]
    when there is none). *)
Fixpoint index_of (x : Z) (l : list Z) : nat :=
  match l with
  | [] => O
  | y :: l' => if x =? y then O else S (index_of x l')
  end.

(** The identities of the population, in population order. *)
Definition population_ids (env : Environment) (heap : Heap) : list Z :=
  map (fun r => agent_id (heap r)) (agents env).

(** The rank that [record_round_history] reads for an agent. *)
Definition rank_of (env : Environment) (heap : Heap) (r : nat) : Z :=
  dict_get_default Z.eqb (agent_id (heap r)) 0 (agent_ranks env heap).

(** [<] is asymmetric and negatively transitive on the payoffs [ps], as
    it is on numbers that are not NaN. *)
Definition comparable_payoffs (ps : list pynum) : bool :=
  forallb (fun x =>
    forallb (fun y =>
      (implb (num_ltb x y) (negb (num_ltb y x))
       && forallb (fun z =>
            implb (negb (num_ltb x y) && negb (num_ltb y z)) (negb (num_ltb x z))) ps)%bool)
      ps) ps.

Definition payoff_item (heap : Heap) (r : nat) : Z * pynum :=
  (agent_id (heap r), cumulative_payoff (heap r)).

(** The list [sorted_payoffs] and its keys. *)
Definition sorted_payoffs (env : Environment) (heap : Heap) : list (Z * pynum) :=
  py_sorted_reverse (fun x => snd x) (agent_cumulative_payoffs env heap).

Definition sorted_ids (env : Environment) (heap : Heap) : list Z :=
  map fst (sorted_payoffs env heap).

Definition rank_step (d : list (Z * Z)) (x : Z * (Z * pynum)) : list (Z * Z) :=
  let '(rank, (agent_id, _)) := x in dict_set Z.eqb agent_id (rank + 1) d.

(** ** Round record and anonymized feed *)

(** What [update_history] may change in an agent. *)
Definition same_but_history (a b : Agent) : Prop :=
  set_history [] a = set_history [] b.

(** The anonymized projection of an agent's round outcome: institution
    choice, contribution, received effect totals, stage payoffs and total
    round payoff. *)
Definition anonymized_projection (env : Environment) (a : Agent) : StrDict :=
  let '(stage1_payoff, stage2_payoff) := stage_payoffs env a in
  [ ("institution_choice", choice_value (institution_choice a));
    ("contribution", VJson (JInt (contribution a)));
    ("received_punishments", VJson (JInt (received_punishments a)));
    ("received_rewards", VJson (JInt (received_rewards a)));
    ("stage1_payoff", of_num stage1_payoff);
    ("stage2_payoff", of_num stage2_payoff);
    ("total_round_payoff", of_num (num_add stage1_payoff stage2_payoff)) ].

(** ** A whole round *)

(** Two states of an agent with the same identity and the same received
    totals. *)
Definition same_totals (a b : Agent) : Prop :=
  agent_id a = agent_id b
  /\ received_punishments a = received_punishments b
  /\ received_rewards a = received_rewards b.

(** The two institutions of an environment are of the subclasses that
    [Environment.__init__] gives them. *)
Definition well_formed (env : Environment) : Prop :=
  kind (si env) = SI /\ kind (sfi env) = SFI.

(** ** Frames of the decisions *)

(** What [choose_institution] may change in an agent. *)
Definition same_but_choice (a b : Agent) : Prop :=
  set_institution_choice None (set_institution_reasoning (JStr "") (set_round_number 0 a))
  = set_institution_choice None (set_institution_reasoning (JStr "") (set_round_number 0 b)).

(** What [parse_institution_choice_response] may change in an agent: the
    two fields [institution_choice] and [institution_reasoning]. *)
Definition same_but_parsed_choice (a b : Agent) : Prop :=
  set_institution_choice None (set_institution_reasoning (JStr "") a)
  = set_institution_choice None (set_institution_reasoning (JStr "") b).

(** What [assign_punishment] may change in an agent. *)
Definition clear_sanction_decision (a : Agent) : Agent :=
  set_assigned_punishments []
    (set_assigned_rewards []
       (set_punishment_reasoning (JStr "")
          (set_deanonymized_punishment_reasoning (JStr "")
             (set_anonymized_id_mapping [] a)))).

Definition same_but_sanction_decision (a b : Agent) : Prop :=
  clear_sanction_decision a = clear_sanction_decision b.

(** The tokens kept of the stage-two endowment. *)
Definition tokens_kept (self : Agent) : Z :=
  ENDOWMENT_STAGE_2
  - (sum_values (assigned_punishments self) * PUNISHMENT_COST
     + sum_values (assigned_rewards self) * REWARD_COST).

(** What the apply phase may change in an agent. *)
Definition same_but_received (a b : Agent) : Prop :=
  set_received_punishments 0 (set_received_rewards 0 a)
  = set_received_punishments 0 (set_received_rewards 0 b).

(** What [update_payoff] may change in an agent. *)
Definition same_but_payoff (a b : Agent) : Prop :=
  set_round_payoff (NInt 0) (set_cumulative_payoff (NInt 0) a)
  = set_round_payoff (NInt 0) (set_cumulative_payoff (NInt 0) b).

(** What [record_round_history] may change in an agent. *)
Definition same_but_record (a b : Agent) : Prop :=
  set_history [] (set_current_round_anonymous_data None a)
  = set_history [] (set_current_round_anonymous_data None b).

(** The test [agent.institution_choice == 'SI'] of [run_round]. *)
Definition chose_SI (a : Agent) : bool :=
  match institution_choice a with
  | Some SI => true
  | _ => false
  end.

(** The two institutions as [run_round] resets them. *)
Definition reset_institutions (env : Environment) : Environment :=
  set_sfi (reset_institution (current_round env) (sfi env))
    (set_si (reset_institution (current_round env) (si env)) env).

(** The environment of a round once both institutions have collected and
    distributed and the sanctioning institution has decided. *)
Definition settled_environment (env1 : Environment) (si1 sfi1 si2 : Institution)
    (heap3 : Heap) : Environment :=
  set_si si2
    (set_sfi (distribute_public_goods sfi1 heap3)
       (set_si (distribute_public_goods si1 heap3)
          (set_sfi sfi1 (set_si si1 env1)))).

(** [range(first, first + count)]: the round numbers of [count] rounds
    that start at [first]. *)
Definition round_numbers (first : Z) (count : nat) : list Z :=
  map (fun k => first + Z.of_nat k) (seq 0 count).

(** The value under the key ['round_number'] of an entry of an agent's
    history. *)
Definition entry_round_number (entry : StrDict) : option pyval :=
  dict_get String.eqb "round_number" entry.

(** ** Conservation of the sanction tokens *)

(** [allocations.get(target, 0)]: the tokens that an allocation dict gives
    to the identity [target]. *)
Definition tokens_assigned_to (target : Z) (allocations : list (Z * Z)) : Z :=
  dict_get_default Z.eqb target 0 allocations.

(** The tokens that the agents [ms] together give to [target] in the
    allocation dicts [proj] of theirs. *)
Definition tokens_assigned_by (proj : Agent -> list (Z * Z)) (heap : Heap)
    (ms : list nat) (target : Z) : Z :=
  fold_right Z.add 0 (map (fun m => tokens_assigned_to target (proj (heap m))) ms).

(** No row of the matrix has an entry of an actor among [ids]. *)
Definition actors_outside (ids : list Z) (matrix : list (Z * list (Z * Z))) : Prop :=
  forall t row a,
    dict_get Z.eqb t matrix = Some row -> In a (dict_keys row) -> ~ In a ids.

(** ** The window of anonymized rounds *)


(* ===================================================================== *)
(** * Properties *)
(* ===================================================================== *)

(** A fact that does not mention the outside world is proved without it. *)
Ltac detach :=
  try clear py_fmt2f; try clear py_str; try clear json_loads; try clear dump_info;
  try clear summary_send_request; try clear send_request; try clear World.

(** ** Dictionaries *)

Lemma dict_get_set_same {V : Type} (k : Z) (v : V) (d : list (Z * V)) :
  dict_get Z.eqb k (dict_set Z.eqb k v d) = Some v.
Proof.
  induction d as [|[k' v'] d IH]; simpl.
  - now rewrite Z.eqb_refl.
  - destruct (k =? k') eqn:E; simpl; rewrite E; auto.
Qed.

Lemma dict_get_set_other {V : Type} (k k0 : Z) (v : V) (d : list (Z * V)) :
  k0 <> k -> dict_get Z.eqb k0 (dict_set Z.eqb k v d) = dict_get Z.eqb k0 d.
Proof.
  intros Hne. induction d as [|[k' v'] d IH]; simpl.
  - destruct (k0 =? k) eqn:E; [apply Z.eqb_eq in E; contradiction | reflexivity].
  - destruct (k =? k') eqn:E; simpl.
    + apply Z.eqb_eq in E; subst k'.
      destruct (k0 =? k) eqn:E2; [apply Z.eqb_eq in E2; contradiction | reflexivity].
    + now rewrite IH.
Qed.

Lemma sdict_get_set_same {V : Type} (k : string) (v : V) (d : list (string * V)) :
  dict_get String.eqb k (dict_set String.eqb k v d) = Some v.
Proof.
  induction d as [|[k' v'] d IH]; simpl.
  - now rewrite String.eqb_refl.
  - destruct (String.eqb k k') eqn:E; simpl; rewrite E; auto.
Qed.

Lemma sdict_get_set_other {V : Type} (k k0 : string) (v : V) (d : list (string * V)) :
  k0 <> k -> dict_get String.eqb k0 (dict_set String.eqb k v d) = dict_get String.eqb k0 d.
Proof.
  intros Hne. induction d as [|[k' v'] d IH]; simpl.
  - destruct (String.eqb k0 k) eqn:E; [apply String.eqb_eq in E; contradiction | reflexivity].
  - destruct (String.eqb k k') eqn:E; simpl.
    + apply String.eqb_eq in E; subst k'.
      destruct (String.eqb k0 k) eqn:E2;
        [apply String.eqb_eq in E2; contradiction | reflexivity].
    + now rewrite IH.
Qed.

(** A fresh key goes to the end of the dict. *)
Lemma dict_set_fresh {V : Type} (k : Z) (v : V) (d : list (Z * V)) :
  ~ In k (dict_keys d) -> dict_set Z.eqb k v d = app d [(k, v)].
Proof. detach.
  induction d as [|[k' v'] d IH]; simpl; intros Hn; [reflexivity|].
  destruct (k =? k') eqn:E.
  - apply Z.eqb_eq in E. subst. tauto.
  - rewrite IH; [reflexivity | tauto].
Qed.

Lemma dict_get_In {V : Type} (k : Z) (v : V) (d : list (Z * V)) :
  dict_get Z.eqb k d = Some v -> In (k, v) d.
Proof.
  induction d as [|[k' v'] d IH]; simpl; [discriminate|].
  destruct (k =? k') eqn:E.
  - apply Z.eqb_eq in E. subst. intros H; injection H as ->. now left.
  - intros H. right. auto.
Qed.

Lemma dict_get_None {V : Type} (k : Z) (d : list (Z * V)) :
  dict_get Z.eqb k d = None <-> ~ In k (dict_keys d).
Proof. detach.
  induction d as [|[k' v'] d IH]; simpl; [tauto|].
  destruct (k =? k') eqn:E.
  - apply Z.eqb_eq in E. subst. split; [discriminate | tauto].
  - apply Z.eqb_neq in E. rewrite IH. split; [intros H [H'|H']; congruence | tauto].
Qed.

Lemma dict_keys_set {V : Type} (k k0 : Z) (v : V) (d : list (Z * V)) :
  In k0 (dict_keys (dict_set Z.eqb k v d)) <-> k0 = k \/ In k0 (dict_keys d).
Proof. detach.
  induction d as [|[k' v'] d IH]; simpl.
  - intuition.
  - destruct (k =? k') eqn:E; simpl.
    + apply Z.eqb_eq in E. subst. intuition.
    + rewrite IH. intuition.
Qed.

(** ** The budget of the allocation loops *)

Lemma sum_values_cons (k v : Z) (d : list (Z * Z)) :
  sum_values ((k, v) :: d) = v + sum_values d.
Proof. reflexivity. Qed.

(** Overwriting an entry of a dict of non-negative tokens cannot raise the
    sum by more than the new value. *)
Lemma dict_set_sum (k v : Z) (d : list (Z * Z)) :
  0 <= v -> nonneg_values d ->
  nonneg_values (dict_set Z.eqb k v d)
  /\ sum_values (dict_set Z.eqb k v d) <= sum_values d + v.
Proof.
  intros Hv Hd. induction Hd as [|[k' v'] d Hk Hd IH]; simpl.
  - split; [repeat constructor; assumption | unfold sum_values; simpl; lia].
  - destruct (k =? k') eqn:E.
    + split; [constructor; assumption|].
      rewrite !sum_values_cons. simpl in Hk. lia.
    + destruct IH as [IH1 IH2]. split; [constructor; assumption|].
      rewrite !sum_values_cons. lia.
Qed.

Lemma process_allocations_budget (n : Z) (table : list (string * Agent))
    (items : list (string * json)) :
  forall allocations remaining allocations' remaining',
    0 <= remaining -> nonneg_values allocations ->
    process_allocations n table items allocations remaining
      = Some (allocations', remaining') ->
    0 <= remaining' /\ nonneg_values allocations'
    /\ sum_values allocations' + remaining' <= sum_values allocations + remaining.
Proof.
  induction items as [|[key tokens] items IH]; simpl; intros a r a' r' Hr Ha H.
  - injection H as <- <-. repeat split; auto; lia.
  - destruct (int_of_str (clean_agent_key key)) as [num|]; [|eauto].
    destruct ((1 <=? num) && (num <=? n))%bool; [|eauto].
    destruct (py_int tokens) as [t|]; simpl in H; [|discriminate].
    destruct (dict_get String.eqb (str_of_Z num) table) as [agent|]; simpl in H;
      [|discriminate].
    set (t' := Z.max 0 (Z.min t r)) in *.
    assert (Ht : 0 <= t' <= r) by (unfold t'; lia).
    destruct (dict_set_sum (agent_id agent) t' a) as [Hn Hs]; [lia | assumption |].
    destruct (r - t' <=? 0) eqn:E.
    + injection H as <- <-. repeat split; auto; lia.
    + apply IH in H; [|lia|assumption]. destruct H as (H1 & H2 & H3).
      repeat split; auto; lia.
Qed.

(** The normal return of the [try] block: the reply is a JSON object,
    the first loop starts from [ENDOWMENT_STAGE_2] over the items of
    [punishments], and the second loop starts over the items of [rewards]
    from what the first loop left. *)
Lemma try_parse_punishment_Some (self : Agent) (response : string) (gs : GroupState)
    (w w' : World) (p r : list (Z * Z)) (self' : Agent) :
  try_parse_punishment self response gs w = (Some (p, r, self'), w') ->
  exists data pitems ritems remaining remaining',
    json_loads (extract_json response) = Some data
    /\ obind (py_get "punishments" (JDict []) data) py_items = Some pitems
    /\ obind (py_get "rewards" (JDict []) data) py_items = Some ritems
    /\ process_allocations (Z.of_nat (List.length (gs_members gs)))
         (anonymized_number_to_agent (gs_members gs)) pitems [] ENDOWMENT_STAGE_2
       = Some (p, remaining)
    /\ process_allocations (Z.of_nat (List.length (gs_members gs)))
         (anonymized_number_to_agent (gs_members gs)) ritems [] remaining
       = Some (r, remaining').
Proof.
  unfold try_parse_punishment, bind, lift, ret, raise. intros H.
  destruct (json_loads (extract_json response)) as [data|]; [|discriminate].
  destruct (py_get "punishments" (JDict []) data) as [pun|] eqn:Gp; [|discriminate].
  destruct (py_get "rewards" (JDict []) data) as [rew|] eqn:Gr; [|discriminate].
  destruct (py_get "reasoning" (JStr "") data) as [reasoning|]; [|discriminate].
  destruct (deanonymize_reasoning _ reasoning w) as [[dr|] w1]; [|discriminate].
  destruct (py_items pun) as [pitems|] eqn:Ip; [|discriminate].
  destruct (process_allocations _ _ pitems [] ENDOWMENT_STAGE_2) as [[pa rem]|] eqn:Ep;
    [|discriminate].
  destruct (py_items rew) as [ritems|] eqn:Ir; [|discriminate].
  destruct (process_allocations _ _ ritems [] rem) as [[ra rem']|] eqn:Er;
    [|discriminate].
  injection H as <- <- <- <-.
  exists data, pitems, ritems, rem, rem'. rewrite Gp, Gr. cbn [obind].
  repeat split; solve [reflexivity | assumption].
Qed.

(** C4. Whatever the oracle replies and whatever the group snapshot is,
    the punishment and reward tokens returned by
    [parse_punishment_response] sum to at most [ENDOWMENT_STAGE_2]; hence
    the allocations that [assign_punishment] stores in the agent never
    exceed the stage-two budget. *)
Theorem allocations_within_budget :
  forall (self : Agent) (response : string) (group_state : GroupState) (w : World),
    (let '((punishments, rewards, _), _) :=
       parse_punishment_response self response group_state w in
     sum_values punishments + sum_values rewards <= ENDOWMENT_STAGE_2)
    /\ (match assign_punishment self group_state w with
        | (Some (punishments, rewards, self'), _) =>
            assigned_punishments self' = punishments
            /\ assigned_rewards self' = rewards
            /\ sum_values (assigned_punishments self')
               + sum_values (assigned_rewards self') <= ENDOWMENT_STAGE_2
        | (None, _) => True
        end).
Proof.
  assert (Hparse : forall self response gs w,
             let '((p, r, _), _) := parse_punishment_response self response gs w in
             sum_values p + sum_values r <= ENDOWMENT_STAGE_2).
  { intros self response gs w. unfold parse_punishment_response.
    destruct (try_parse_punishment self response gs w) as [[[[p r] self']|] w'] eqn:E.
    - apply try_parse_punishment_Some in E.
      destruct E as (data & pitems & ritems & rem & rem' & _ & _ & _ & Hp & Hr).
      apply process_allocations_budget in Hp;
        [|unfold ENDOWMENT_STAGE_2; lia | constructor].
      destruct Hp as (Hp1 & Hp2 & Hp3).
      apply process_allocations_budget in Hr; [|assumption | constructor].
      destruct Hr as (Hr1 & Hr2 & Hr3).
      change (sum_values (@nil (Z * Z))) with 0 in *. lia.
    - change (sum_values (@nil (Z * Z))) with 0. unfold ENDOWMENT_STAGE_2. lia. }
  intros self response gs w. split; [apply Hparse|].
  unfold assign_punishment, bind, lift, ret, raise.
  destruct (construct_punishment_prompt self gs) as [[prompt self1]|]; [|exact I].
  destruct (send_request prompt w) as [[resp|] w1]; [|exact I].
  destruct (dump_info (agent_id self1) prompt resp w1) as [[u|] w2]; [|exact I].
  specialize (Hparse self1 resp gs w2).
  destruct (parse_punishment_response self1 resp gs w2) as [[[p r] self2] w3].
  simpl. auto.
Qed.

(** ** The alias table *)

Lemma str_of_Z_inj (a b : Z) : str_of_Z a = str_of_Z b -> a = b.
Proof.
  unfold str_of_Z. intros H.
  assert (Hn : forall z, Z.to_int z <> Decimal.Pos Decimal.Nil
                         /\ Z.to_int z <> Decimal.Neg Decimal.Nil).
  { intros [|p|p]; simpl; split; try discriminate;
      intros [= Hp]; exact (DecimalPos.Unsigned.to_uint_nonnil p Hp). }
  apply DecimalZ.to_int_inj.
  destruct (Hn a) as [Ha1 Ha2], (Hn b) as [Hb1 Hb2].
  pose proof (NilZero.isi _ Ha1 Ha2) as Ea.
  pose proof (NilZero.isi _ Hb1 Hb2) as Eb.
  rewrite H in Ea. congruence.
Qed.

Lemma table_fold_other (l : list Agent) :
  forall (s : Z) (d : list (string * Agent)) (key : string),
    (forall k, s < k <= s + Z.of_nat (List.length l) -> str_of_Z k <> key) ->
    dict_get String.eqb key (fold_left table_step (enumerate_from s l) d)
    = dict_get String.eqb key d.
Proof.
  induction l as [|x l IH]; intros s d key Hk; [reflexivity|].
  cbn [enumerate_from fold_left table_step].
  rewrite IH.
  - apply sdict_get_set_other. intros ->. apply (Hk (s + 1)); [|reflexivity].
    cbn [List.length]. lia.
  - intros k Hr. apply Hk. cbn [List.length]. lia.
Qed.

Lemma table_fold_lookup (l : list Agent) :
  forall (s : Z) (d : list (string * Agent)) (k : Z),
    s < k <= s + Z.of_nat (List.length l) ->
    dict_get String.eqb (str_of_Z k) (fold_left table_step (enumerate_from s l) d)
    = nth_error l (Z.to_nat (k - s - 1)).
Proof.
  induction l as [|x l IH]; intros s d k Hk; [cbn [List.length] in Hk; lia|].
  cbn [enumerate_from fold_left table_step].
  destruct (Z.eq_dec k (s + 1)) as [->|Hne].
  - rewrite table_fold_other.
    + rewrite sdict_get_set_same. replace (s + 1 - s - 1) with 0 by lia. reflexivity.
    + intros k' Hk' E. apply str_of_Z_inj in E. lia.
  - rewrite IH by (cbn [List.length] in Hk; lia).
    replace (Z.to_nat (k - s - 1)) with (S (Z.to_nat (k - (s + 1) - 1))) by lia.
    reflexivity.
Qed.

(** The alias [k] of a snapshot resolves to its [k]-th member. *)
Lemma anonymized_number_lookup (members : list Agent) (k : Z) :
  1 <= k <= Z.of_nat (List.length members) ->
  dict_get String.eqb (str_of_Z k) (anonymized_number_to_agent members)
  = nth_error members (Z.to_nat (k - 1)).
Proof.
  intros Hk. unfold anonymized_number_to_agent.
  change (fun (d : list (string * Agent)) '(i, agent) =>
            dict_set String.eqb (str_of_Z (i + 1)) agent d) with table_step.
  rewrite table_fold_lookup by lia. f_equal. lia.
Qed.

(** ** One step of an allocation loop *)

(** An entry whose alias resolves and whose tokens convert: the tokens
    are clamped to [max(0, min(tokens, tokens_remaining))], recorded, and
    the loop breaks when nothing remains. *)
Lemma process_allocations_step (n : Z) (table : list (string * Agent))
    (key : string) (tokens : json) (rest : list (string * json))
    (allocations : list (Z * Z)) (remaining num t : Z) (agent : Agent) :
  int_of_str (clean_agent_key key) = Some num ->
  1 <= num <= n ->
  py_int tokens = Some t ->
  dict_get String.eqb (str_of_Z num) table = Some agent ->
  process_allocations n table ((key, tokens) :: rest) allocations remaining
  = let clamped := Z.max 0 (Z.min t remaining) in
    let allocations' := dict_set Z.eqb (agent_id agent) clamped allocations in
    if remaining - clamped <=? 0 then Some (allocations', remaining - clamped)
    else process_allocations n table rest allocations' (remaining - clamped).
Proof.
  intros Hk Hn Ht Ha. cbn [process_allocations]. rewrite Hk.
  replace ((1 <=? num) && (num <=? n))%bool with true
    by (symmetry; apply andb_true_iff; split; apply Z.leb_le; lia).
  rewrite Ht. cbn [obind]. rewrite Ha. reflexivity.
Qed.

(** A loop that ends with tokens left has not broken: it goes on with
    the entries that follow. *)
Lemma process_allocations_app (n : Z) (table : list (string * Agent))
    (before : list (string * json)) :
  forall items allocations remaining allocations' remaining',
    process_allocations n table before allocations remaining
      = Some (allocations', remaining') ->
    0 < remaining' ->
    process_allocations n table (app before items) allocations remaining
    = process_allocations n table items allocations' remaining'.
Proof.
  induction before as [|[key tokens] before IH]; intros items a r a' r' H Hpos.
  - injection H as <- <-. reflexivity.
  - cbn [app process_allocations] in *.
    destruct (int_of_str (clean_agent_key key)) as [num|]; [|eauto].
    destruct ((1 <=? num) && (num <=? n))%bool; [|eauto].
    destruct (py_int tokens) as [t|]; cbn [obind] in *; [|discriminate].
    destruct (dict_get String.eqb (str_of_Z num) table) as [agent|]; cbn [obind] in *;
      [|discriminate].
    destruct (r - Z.max 0 (Z.min t r) <=? 0) eqn:E.
    + injection H as <- <-. apply Z.leb_le in E. lia.
    + eauto.
Qed.

(** C1 (amended). The budget of [parse_punishment_response].  An entry
    whose alias resolves is recorded with
    [max(0, min(tokens, tokens_remaining))] tokens, which are taken from the
    budget, and the loop breaks when the budget is used up.  When the reply
    parses, the punishment loop starts from [ENDOWMENT_STAGE_2] and the
    reward loop from what the punishment loop left.  Scenario C: with at
    least three other members, a reply whose punishments start with alias
    1: 15 and alias 2: 10 and whose rewards start with alias 3: 5 yields
    punishments of 15 for the first peer and 5 for the second (the budget of
    20 reaches 0), one reward entry of 0 tokens for the third peer, and
    nothing for any further entry of either mapping, provided that the call
    of the summary model that rewrites the reasoning, which the same [try]
    block makes before the loops when the agent holds an alias mapping,
    returns.  Without an alias mapping no such call is made; and when the
    call raises, the reply is discarded like one that does not parse: both
    dicts are empty. *)
Theorem scenario_C_budget_truncation :
  (forall (n : Z) (table : list (string * Agent)) (key : string) (tokens : json)
          (rest : list (string * json)) (allocations : list (Z * Z))
          (remaining num t : Z) (agent : Agent),
      int_of_str (clean_agent_key key) = Some num ->
      1 <= num <= n ->
      py_int tokens = Some t ->
      dict_get String.eqb (str_of_Z num) table = Some agent ->
      process_allocations n table ((key, tokens) :: rest) allocations remaining
      = let clamped := Z.max 0 (Z.min t remaining) in
        let allocations' := dict_set Z.eqb (agent_id agent) clamped allocations in
        if remaining - clamped <=? 0 then Some (allocations', remaining - clamped)
        else process_allocations n table rest allocations' (remaining - clamped))
  /\ (forall (self self' : Agent) (response : string) (group_state : GroupState)
             (w w' : World) (punishments rewards : list (Z * Z)),
         try_parse_punishment self response group_state w
           = (Some (punishments, rewards, self'), w') ->
         let n := Z.of_nat (List.length (gs_members group_state)) in
         let table := anonymized_number_to_agent (gs_members group_state) in
         exists data pitems ritems remaining remaining',
           json_loads (extract_json response) = Some data
           /\ obind (py_get "punishments" (JDict []) data) py_items = Some pitems
           /\ obind (py_get "rewards" (JDict []) data) py_items = Some ritems
           /\ process_allocations n table pitems [] ENDOWMENT_STAGE_2
              = Some (punishments, remaining)
           /\ process_allocations n table ritems [] remaining
              = Some (rewards, remaining')
           /\ parse_punishment_response self response group_state w
              = (punishments, rewards, self', w'))
  /\ (forall (self : Agent) (response : string) (group_state : GroupState) (w : World)
             (m1 m2 m3 : Agent) (others : list Agent)
             (fields more_punishments more_rewards : list (string * json)),
         gs_members group_state = m1 :: m2 :: m3 :: others ->
         agent_id m1 <> agent_id m2 ->
         json_loads (extract_json response) = Some (JDict fields) ->
         dict_get String.eqb "punishments" fields
           = Some (JDict (("1", JInt 15) :: ("2", JInt 10) :: more_punishments)) ->
         dict_get String.eqb "rewards" fields
           = Some (JDict (("3", JInt 5) :: more_rewards)) ->
         rewriting_returns self
           (dict_get_default String.eqb "reasoning" (JStr "") fields) w ->
         let n := Z.of_nat (List.length (gs_members group_state)) in
         let table := anonymized_number_to_agent (gs_members group_state) in
         process_allocations n table
           (("1", JInt 15) :: ("2", JInt 10) :: more_punishments) [] ENDOWMENT_STAGE_2
           = Some ([(agent_id m1, 15); (agent_id m2, 5)], 0)
         /\ process_allocations n table (("3", JInt 5) :: more_rewards) [] 0
            = Some ([(agent_id m3, 0)], 0)
         /\ (let '((punishments, rewards, _), _) :=
               parse_punishment_response self response group_state w in
             punishments = [(agent_id m1, 15); (agent_id m2, 5)]
             /\ rewards = [(agent_id m3, 0)]))
  /\ (forall (self : Agent) (reasoning : json) (w : World),
         anonymized_id_mapping self = [] -> rewriting_returns self reasoning w)
  /\ (forall (self : Agent) (response : string) (group_state : GroupState) (w : World)
             (fields : list (string * json)),
         json_loads (extract_json response) = Some (JDict fields) ->
         ~ rewriting_returns self
             (dict_get_default String.eqb "reasoning" (JStr "") fields) w ->
         let '((punishments, rewards, self'), _) :=
           parse_punishment_response self response group_state w in
         punishments = [] /\ rewards = []
         /\ punishment_reasoning self' = JStr "").
Proof.
  split; [exact process_allocations_step|]. split.
  { intros self self' response gs w w' p r H n table.
    destruct (try_parse_punishment_Some _ _ _ _ _ _ _ _ H)
      as (data & pitems & ritems & rem & rem' & J & Ip & Ir & Hp & Hr).
    exists data, pitems, ritems, rem, rem'.
    repeat (split; [assumption|]).
    unfold parse_punishment_response. now rewrite H. }
  split; [|split].
  2:{ intros self reasoning w Hmap. unfold rewriting_returns, deanonymize_reasoning.
      cbn [anonymized_id_mapping set_punishment_reasoning]. rewrite Hmap.
      cbn. discriminate. }
  2:{ intros self response gs w fields Hj Hd.
      unfold parse_punishment_response, try_parse_punishment, bind, lift, ret, raise.
      rewrite Hj. cbn [py_get]. unfold rewriting_returns in Hd.
      destruct (deanonymize_reasoning _ _ w) as [[dr|] w1];
        [exfalso; apply Hd; cbn; discriminate|].
      cbn. auto. }
  intros self response gs w m1 m2 m3 others fields mp mr Hm Hid Hj Hp Hr Hd n table.
  assert (Hn : 3 <= n) by (unfold n; rewrite Hm; cbn [List.length]; lia).
  assert (L1 : dict_get String.eqb (str_of_Z 1) table = Some m1).
  { unfold table. rewrite anonymized_number_lookup by (fold n; lia).
    rewrite Hm. reflexivity. }
  assert (L2 : dict_get String.eqb (str_of_Z 2) table = Some m2).
  { unfold table. rewrite anonymized_number_lookup by (fold n; lia).
    rewrite Hm. reflexivity. }
  assert (L3 : dict_get String.eqb (str_of_Z 3) table = Some m3).
  { unfold table. rewrite anonymized_number_lookup by (fold n; lia).
    rewrite Hm. reflexivity. }
  assert (P : process_allocations n table
                (("1", JInt 15) :: ("2", JInt 10) :: mp) [] ENDOWMENT_STAGE_2
              = Some ([(agent_id m1, 15); (agent_id m2, 5)], 0)).
  { rewrite (process_allocations_step n table "1" (JInt 15) _ [] _ 1 15 m1
               eq_refl ltac:(lia) eq_refl L1).
    cbv beta zeta. change (ENDOWMENT_STAGE_2 - Z.max 0 (Z.min 15 ENDOWMENT_STAGE_2)) with 5.
    change (5 <=? 0) with false. cbv iota.
    rewrite (process_allocations_step n table "2" (JInt 10) _ _ _ 2 10 m2
               eq_refl ltac:(lia) eq_refl L2).
    cbv beta zeta. change (5 - Z.max 0 (Z.min 10 5)) with 0.
    change (0 <=? 0) with true. cbv iota.
    change (Z.max 0 (Z.min 15 ENDOWMENT_STAGE_2)) with 15.
    change (Z.max 0 (Z.min 10 5)) with 5.
    cbn [dict_set].
    destruct (agent_id m2 =? agent_id m1) eqn:E;
      [apply Z.eqb_eq in E; congruence | reflexivity]. }
  assert (R : process_allocations n table (("3", JInt 5) :: mr) [] 0
              = Some ([(agent_id m3, 0)], 0)).
  { rewrite (process_allocations_step n table "3" (JInt 5) _ [] _ 3 5 m3
               eq_refl ltac:(lia) eq_refl L3).
    reflexivity. }
  split; [exact P|]. split; [exact R|].
  unfold parse_punishment_response, try_parse_punishment, bind, lift, ret, raise.
  rewrite Hj. cbn [py_get].
  replace (dict_get_default String.eqb "punishments" (JDict []) fields)
    with (JDict (("1", JInt 15) :: ("2", JInt 10) :: mp))
    by (unfold dict_get_default; now rewrite Hp).
  replace (dict_get_default String.eqb "rewards" (JDict []) fields)
    with (JDict (("3", JInt 5) :: mr))
    by (unfold dict_get_default; now rewrite Hr).
  unfold rewriting_returns in Hd.
  destruct (deanonymize_reasoning _ _ w) as [[dr|] w1]; [|cbn in Hd; congruence].
  cbn [py_items]. fold n. fold table. rewrite P. rewrite R. auto.
Qed.

(** C10. In an allocation loop a key that is no integer is skipped and
    the loop goes on; a token value that [int] cannot convert, under a
    valid alias in range, ends the loop with an exception, also after
    entries that were processed before it; and then the whole reply counts
    as a parse failure: both allocation dicts are empty and the punishment
    reasoning is the empty string. *)
Theorem unconvertible_tokens_discard_reply :
  (forall (n : Z) (table : list (string * Agent)) (key : string) (tokens : json)
          (rest : list (string * json)) (allocations : list (Z * Z)) (remaining : Z),
      int_of_str (clean_agent_key key) = None ->
      process_allocations n table ((key, tokens) :: rest) allocations remaining
      = process_allocations n table rest allocations remaining)
  /\ (forall (n : Z) (table : list (string * Agent)) (before rest : list (string * json))
             (key : string) (tokens : json) (allocations allocations' : list (Z * Z))
             (remaining remaining' num : Z),
         process_allocations n table before allocations remaining
           = Some (allocations', remaining') ->
         0 < remaining' ->
         int_of_str (clean_agent_key key) = Some num ->
         1 <= num <= n ->
         py_int tokens = None ->
         process_allocations n table (app before ((key, tokens) :: rest))
                             allocations remaining = None)
  /\ (forall (self : Agent) (response : string) (group_state : GroupState) (w : World)
             (fields punishments : list (string * json)) (rewards : json),
         json_loads (extract_json response) = Some (JDict fields) ->
         dict_get_default String.eqb "punishments" (JDict []) fields = JDict punishments ->
         dict_get_default String.eqb "rewards" (JDict []) fields = rewards ->
         let n := Z.of_nat (List.length (gs_members group_state)) in
         let table := anonymized_number_to_agent (gs_members group_state) in
         (process_allocations n table punishments [] ENDOWMENT_STAGE_2 = None
          \/ exists ritems allocations remaining,
               rewards = JDict ritems
               /\ process_allocations n table punishments [] ENDOWMENT_STAGE_2
                  = Some (allocations, remaining)
               /\ process_allocations n table ritems [] remaining = None) ->
         let result := fst (parse_punishment_response self response group_state w) in
         parse_failure self result
         /\ fst (fst result) = [] /\ snd (fst result) = []
         /\ punishment_reasoning (snd result) = JStr "").
Proof.
  split; [|split].
  - intros n table key tokens rest a r H. cbn [process_allocations]. now rewrite H.
  - intros n table before rest key tokens a a' r r' num Hb Hpos Hk Hn Ht.
    rewrite (process_allocations_app n table before _ a r a' r' Hb Hpos).
    cbn [process_allocations]. rewrite Hk.
    replace ((1 <=? num) && (num <=? n))%bool with true
      by (symmetry; apply andb_true_iff; split; apply Z.leb_le; lia).
    rewrite Ht. reflexivity.
  - intros self response gs w fields punishments rewards Hj Hp Hr n table Hfail result.
    assert (F : parse_failure self result).
    { unfold result, parse_failure, parse_punishment_response, try_parse_punishment,
        bind, lift, ret, raise.
      rewrite Hj. cbn [py_get]. rewrite Hp, Hr.
      destruct (deanonymize_reasoning _ _ w) as [[dr|] w1]; [|reflexivity].
      cbn [py_items]. fold n. fold table.
      destruct Hfail as [Hf | (ritems & a & rem & -> & Hf1 & Hf2)].
      - rewrite Hf. reflexivity.
      - rewrite Hf1. cbn [py_items]. rewrite Hf2. reflexivity. }
    split; [exact F|]. unfold parse_failure in F. rewrite F. auto.
Qed.

(** ** The contribution parser *)

Lemma parse_contribution_response_range (self : Agent) (response : string) :
  MIN_CONTRIBUTION <= fst (parse_contribution_response self response)
                   <= MAX_CONTRIBUTION.
Proof.
  unfold parse_contribution_response, try_parse_contribution.
  destruct (json_loads (extract_json response)) as [data|]; cbn [obind fst];
    [|unfold MIN_CONTRIBUTION, MAX_CONTRIBUTION, ENDOWMENT_STAGE_1; cbn; lia].
  destruct (py_get "contribution" _ data) as [raw|]; cbn [obind fst];
    [|unfold MIN_CONTRIBUTION, MAX_CONTRIBUTION, ENDOWMENT_STAGE_1; cbn; lia].
  destruct (py_int raw) as [c|]; cbn [obind fst];
    [|unfold MIN_CONTRIBUTION, MAX_CONTRIBUTION, ENDOWMENT_STAGE_1; cbn; lia].
  destruct (py_get "reasoning" _ data) as [reasoning|]; cbn [obind fst];
    unfold MIN_CONTRIBUTION, MAX_CONTRIBUTION, ENDOWMENT_STAGE_1; cbn; lia.
Qed.

(** C8. The contribution returned by [parse_contribution_response] lies
    in [[MIN_CONTRIBUTION, MAX_CONTRIBUTION]]; when the reply does not parse
    (no JSON text, no object, or a contribution that [int] rejects) it is
    [ENDOWMENT_STAGE_1 // 2] and the contribution reasoning is the empty
    string. *)
Theorem contribution_clamped_or_default :
  forall (self : Agent) (response : string),
    (MIN_CONTRIBUTION <= fst (parse_contribution_response self response)
                      <= MAX_CONTRIBUTION)
    /\ (try_parse_contribution response = None ->
        fst (parse_contribution_response self response) = ENDOWMENT_STAGE_1 / 2
        /\ ENDOWMENT_STAGE_1 / 2 = 10
        /\ contribution_reasoning (snd (parse_contribution_response self response))
           = JStr "")
    /\ (json_loads (extract_json response) = None
        \/ (exists data, json_loads (extract_json response) = Some data
                         /\ forall d, data <> JDict d)
        \/ (exists d raw, json_loads (extract_json response) = Some (JDict d)
                          /\ dict_get String.eqb "contribution" d = Some raw
                          /\ py_int raw = None) ->
        try_parse_contribution response = None).
Proof.
  intros self response. split; [|split].
  - apply parse_contribution_response_range.
  - intros H. unfold parse_contribution_response. rewrite H. cbn. auto.
  - unfold try_parse_contribution.
    intros [H | [(data & H & Hd) | (d & raw & H & Hc & Hi)]]; rewrite H; cbn [obind].
    + reflexivity.
    + destruct data; try reflexivity. exfalso. eapply Hd. reflexivity.
    + cbn [py_get]. unfold dict_get_default. rewrite Hc. cbn [obind].
      rewrite Hi. reflexivity.
Qed.

(** ** The heap *)

Lemma upd_same (h : Heap) (r : nat) (a : Agent) : upd h r a r = a.
Proof. unfold upd. now rewrite Nat.eqb_refl. Qed.

Lemma upd_other (h : Heap) (r r' : nat) (a : Agent) : r' <> r -> upd h r a r' = h r'.
Proof. unfold upd. intros H. apply Nat.eqb_neq in H. now rewrite H. Qed.

(** ** Exceptions *)

(** A sequence that returns: its first part returned, and the rest
    returned from there. *)
Lemma bind_Some {A B : Type} (c : M A) (k : A -> M B) (w w' : World) (b : B) :
  bind c k w = (Some b, w') ->
  exists a w1, c w = (Some a, w1) /\ k a w1 = (Some b, w').
Proof.
  unfold bind. destruct (c w) as [[a|] w1]; [|discriminate].
  intros H. now exists a, w1.
Qed.

(** ** Reset at the start of a round *)

(** C6 (amended). After [reset_for_new_round] the contribution and the
    received totals are 0 and the assigned dicts are empty; the cumulative
    payoff and the full history are unchanged; the anonymized history is
    unchanged when no batch is staged, and otherwise it receives the staged
    batch at its end and loses its oldest element once it is longer than
    [DISPLAY_PAST_ACTIONS], so that a history within the window stays
    within it. *)
Theorem reset_for_new_round_effect :
  forall (self : Agent),
    let self' := reset_for_new_round self in
    contribution self' = 0
    /\ received_punishments self' = 0
    /\ received_rewards self' = 0
    /\ assigned_punishments self' = []
    /\ assigned_rewards self' = []
    /\ cumulative_payoff self' = cumulative_payoff self
    /\ history self' = history self
    /\ current_round_anonymous_data self' = None
    /\ (current_round_anonymous_data self = None ->
        anonymous_data_history self' = anonymous_data_history self)
    /\ (forall batch,
           current_round_anonymous_data self = Some batch ->
           let pushed := app (anonymous_data_history self)
                             [mkAnonymousRound (round_number self) batch] in
           anonymous_data_history self'
           = if DISPLAY_PAST_ACTIONS <? Z.of_nat (List.length pushed)
             then tl pushed else pushed)
    /\ (Z.of_nat (List.length (anonymous_data_history self)) <= DISPLAY_PAST_ACTIONS ->
        Z.of_nat (List.length (anonymous_data_history self')) <= DISPLAY_PAST_ACTIONS).
Proof.
  intros self self'. unfold self', reset_for_new_round.
  destruct (current_round_anonymous_data self) as [batch|] eqn:E; cbn.
  - repeat split; try reflexivity; try discriminate.
    + intros b [= <-]. reflexivity.
    + intros Hlen.
      destruct (DISPLAY_PAST_ACTIONS <?
                Z.of_nat (List.length (app (anonymous_data_history self)
                            [mkAnonymousRound (round_number self) batch]))) eqn:L.
      * rewrite length_app in L. cbn [List.length] in L.
        destruct (anonymous_data_history self) as [|x h]; cbn in *; [lia|].
        rewrite length_app. cbn [List.length]. lia.
      * apply Z.ltb_ge in L. exact L.
  - repeat split; try reflexivity; try assumption; try discriminate; auto.
Qed.

(** ** Contributions *)

Lemma same_but_contribution_refl (a : Agent) : same_but_contribution a a.
Proof. reflexivity. Qed.

Lemma same_but_contribution_trans (a b c : Agent) :
  same_but_contribution a b -> same_but_contribution b c -> same_but_contribution a c.
Proof. unfold same_but_contribution. congruence. Qed.

Lemma same_but_contribution_agent_id (a b : Agent) :
  same_but_contribution a b -> agent_id a = agent_id b.
Proof. intros H. apply (f_equal agent_id) in H. exact H. Qed.

Lemma decide_contribution_Some (self a : Agent) (gs : GroupState) (w w' : World) :
  decide_contribution self gs w = (Some a, w') ->
  same_but_contribution a self
  /\ MIN_CONTRIBUTION <= contribution a <= MAX_CONTRIBUTION.
Proof.
  unfold decide_contribution, bind, lift, ret, raise.
  destruct (construct_contribution_prompt self gs) as [prompt|]; [|discriminate].
  destruct (send_request prompt w) as [[response|] w1]; [|discriminate].
  pose proof (parse_contribution_response_range self response) as Hc.
  destruct (parse_contribution_response self response) as [c self1] eqn:E.
  intros [= <- <-]. cbn [fst] in Hc. split; [|exact Hc].
  unfold parse_contribution_response in E.
  destruct (try_parse_contribution response) as [[c' r']|]; injection E as <- <-;
    reflexivity.
Qed.

(** The loop of [collect_contributions] adds up the contributions that the
    members have when it ends, and changes nothing else in the heap than
    the contribution and its reasoning of the members. *)
Lemma collect_contributions_loop_spec (rs : list nat) :
  forall (inst inst' : Institution) (heap heap' : Heap) (w w' : World),
    NoDup rs ->
    collect_contributions_loop rs inst heap w = (Some (inst', heap'), w') ->
    total_contribution inst' = total_contribution inst + sum_contributions heap' rs
    /\ group_size inst' = group_size inst
    /\ members inst' = members inst
    /\ stage1_payoffs inst' = stage1_payoffs inst
    /\ (forall r, ~ In r rs -> heap' r = heap r)
    /\ (forall r, same_but_contribution (heap' r) (heap r)).
Proof.
  induction rs as [|r rs IH]; intros inst inst' heap heap' w w' Hnd H.
  - cbn in H. injection H as <- <- <-. unfold sum_contributions. cbn.
    repeat split; auto; lia.
  - cbn [collect_contributions_loop] in H. unfold bind at 1 in H.
    destruct (decide_contribution _ _ w) as [[a|] w1] eqn:Ed; [|discriminate].
    apply decide_contribution_Some in Ed. destruct Ed as [Hs _].
    inversion Hnd as [|? ? Hnotin Hnd']; subst.
    apply IH in H; [|assumption].
    destruct H as (Ht & Hg & Hm & Hp & Hf & Hsame).
    cbn in Ht, Hg, Hm, Hp. rewrite upd_same in Ht.
    repeat split; auto.
    + rewrite Ht. unfold sum_contributions. cbn [map fold_right].
      rewrite (Hf r Hnotin), upd_same. lia.
    + intros r' Hr'. rewrite Hf by (cbn in Hr'; tauto).
      apply upd_other. cbn in Hr'. intros ->. tauto.
    + intros r'. eapply same_but_contribution_trans; [apply Hsame|].
      destruct (Nat.eq_dec r' r) as [->|Hne].
      * rewrite upd_same. exact Hs.
      * rewrite upd_other by assumption. apply same_but_contribution_refl.
Qed.

Lemma collect_contributions_spec (inst inst' : Institution) (heap heap' : Heap)
    (w w' : World) :
  NoDup (members inst) ->
  collect_contributions inst heap w = (Some (inst', heap'), w') ->
  total_contribution inst' = sum_contributions heap' (members inst)
  /\ group_size inst' = Z.of_nat (List.length (members inst))
  /\ members inst' = members inst
  /\ stage1_payoffs inst' = stage1_payoffs inst
  /\ (forall r, same_but_contribution (heap' r) (heap r)).
Proof.
  intros Hnd H. unfold collect_contributions in H.
  apply collect_contributions_loop_spec in H; [|exact Hnd].
  destruct H as (Ht & Hg & Hm & Hp & _ & Hs). cbn in Ht, Hg, Hm, Hp.
  repeat split; auto.
Qed.

(** C3. Scenario A.  The stage-one payoff is the endowment kept plus the
    share of the pool, with a pool share of 0 for an empty group.  When the
    sanction-free institution has exactly two members and they contribute
    10 and 20, the institution total is 30, their stage-one payoffs are 34
    and 24, and with the flat stage-two payoff of [ENDOWMENT_STAGE_2] = 20
    their round payoffs are 54 and 44. *)
Theorem scenario_A_sanction_free :
  (forall (self : Agent) (size total : Z),
      get_stage1_payoff self size total
      = num_add (NInt (ENDOWMENT_STAGE_1 - contribution self))
          (if 0 <? size
           then NFloat (PrimFloat.div
                          (PrimFloat.mul PUBLIC_GOOD_MULTIPLIER (float_of_Z total))
                          (float_of_Z size))
           else NInt 0))
  /\ (forall (env : Environment) (heap heap1 : Heap) (w w1 : World)
             (sfi1 : Institution) (r0 r1 : nat),
         members (sfi env) = [r0; r1] ->
         members (si env) = [] ->
         r0 <> r1 ->
         agent_id (heap r0) <> agent_id (heap r1) ->
         collect_contributions (sfi env) heap w = (Some (sfi1, heap1), w1) ->
         contribution (heap1 r0) = 10 ->
         contribution (heap1 r1) = 20 ->
         let sfi2 := distribute_public_goods sfi1 heap1 in
         let heap2 := calculate_payoffs (set_sfi sfi2 env) heap1 in
         total_contribution sfi1 = 30
         /\ group_size sfi1 = 2
         /\ dict_get Z.eqb (agent_id (heap r0)) (stage1_payoffs sfi2) = Some (NFloat 34)
         /\ dict_get Z.eqb (agent_id (heap r1)) (stage1_payoffs sfi2) = Some (NFloat 24)
         /\ round_payoff (heap2 r0) = NFloat 54
         /\ round_payoff (heap2 r1) = NFloat 44
         /\ cumulative_payoff (heap2 r0) = num_add (cumulative_payoff (heap r0)) (NFloat 54)
         /\ cumulative_payoff (heap2 r1) = num_add (cumulative_payoff (heap r1)) (NFloat 44)).
Proof.
  split.
  - intros self size total. unfold get_stage1_payoff.
    destruct (0 <? size); reflexivity.
  - intros env heap heap1 w w1 sfi1 r0 r1 Hm Hsi Hne Hid Hc H0 H1 sfi2 heap2.
    assert (Hnd : NoDup (members (sfi env))).
    { rewrite Hm. repeat constructor; cbn; intuition. }
    apply collect_contributions_spec in Hc; [|exact Hnd].
    destruct Hc as (Ht & Hg & Hm1 & _ & Hs).
    rewrite Hm in Ht, Hg, Hm1. unfold sum_contributions in Ht. cbn in Ht, Hg.
    rewrite H0, H1 in Ht. cbn in Ht.
    pose proof (same_but_contribution_agent_id _ _ (Hs r0)) as I0.
    pose proof (same_but_contribution_agent_id _ _ (Hs r1)) as I1.
    assert (C0 : cumulative_payoff (heap1 r0) = cumulative_payoff (heap r0))
      by exact (f_equal cumulative_payoff (Hs r0)).
    assert (C1 : cumulative_payoff (heap1 r1) = cumulative_payoff (heap r1))
      by exact (f_equal cumulative_payoff (Hs r1)).
    assert (P0 : get_stage1_payoff (heap1 r0) 2 30 = NFloat 34)
      by (unfold get_stage1_payoff; rewrite H0; vm_compute; reflexivity).
    assert (P1 : get_stage1_payoff (heap1 r1) 2 30 = NFloat 24)
      by (unfold get_stage1_payoff; rewrite H1; vm_compute; reflexivity).
    assert (S2 : stage1_payoffs sfi2
                 = dict_set Z.eqb (agent_id (heap r1)) (NFloat 24)
                     (dict_set Z.eqb (agent_id (heap r0)) (NFloat 34)
                        (stage1_payoffs sfi1))).
    { unfold sfi2, distribute_public_goods. rewrite Hm1.
      cbn [fold_left group_size total_contribution set_stage1_payoffs stage1_payoffs].
      rewrite Ht, Hg, P0, P1, I0, I1. reflexivity. }
    assert (D0 : dict_get Z.eqb (agent_id (heap r0)) (stage1_payoffs sfi2)
                 = Some (NFloat 34)).
    { rewrite S2, dict_get_set_other by exact Hid. apply dict_get_set_same. }
    assert (D1 : dict_get Z.eqb (agent_id (heap r1)) (stage1_payoffs sfi2)
                 = Some (NFloat 24)).
    { rewrite S2. apply dict_get_set_same. }
    assert (M2 : members sfi2 = [r0; r1]).
    { unfold sfi2, distribute_public_goods. rewrite Hm1.
      cbn [fold_left members set_stage1_payoffs]. exact Hm1. }
    assert (H2 : heap2 r0 = update_payoff (NFloat 54) (heap1 r0)
                 /\ heap2 r1 = update_payoff (NFloat 44) (heap1 r1)).
    { unfold heap2, calculate_payoffs. cbn [si sfi set_sfi].
      rewrite Hsi, M2. cbn [fold_left].
      rewrite upd_same, (upd_other _ r0 r1) by auto.
      rewrite upd_other by auto. rewrite upd_same.
      unfold dict_get_default. rewrite I0, I1, D0, D1. split; reflexivity. }
    destruct H2 as [E0 E1]. rewrite E0, E1. cbn. rewrite C0, C1.
    repeat split; auto.
Qed.

(** ** The two phases of the sanctioning stage *)

Lemma try_parse_punishment_received (self self' : Agent) (response : string)
    (gs : GroupState) (w w' : World) (p r : list (Z * Z)) :
  try_parse_punishment self response gs w = (Some (p, r, self'), w') ->
  received_punishments self' = received_punishments self
  /\ received_rewards self' = received_rewards self
  /\ agent_id self' = agent_id self.
Proof.
  unfold try_parse_punishment, bind, lift, ret, raise. intros H.
  destruct (json_loads (extract_json response)) as [data|]; [|discriminate].
  destruct (py_get "punishments" (JDict []) data) as [pun|]; [|discriminate].
  destruct (py_get "rewards" (JDict []) data) as [rew|]; [|discriminate].
  destruct (py_get "reasoning" (JStr "") data) as [reasoning|]; [|discriminate].
  destruct (deanonymize_reasoning _ reasoning w) as [[dr|] w1]; [|discriminate].
  destruct (py_items pun) as [pitems|]; [|discriminate].
  destruct (process_allocations _ _ pitems [] ENDOWMENT_STAGE_2) as [[pa rem]|];
    [|discriminate].
  destruct (py_items rew) as [ritems|]; [|discriminate].
  destruct (process_allocations _ _ ritems [] rem) as [[ra rem']|]; [|discriminate].
  injection H as <- <- <- <-. auto.
Qed.

(** [assign_punishment] leaves the received totals and the identity of
    the deciding agent as they are. *)
Lemma assign_punishment_received (self self' : Agent) (gs : GroupState) (w w' : World)
    (p r : list (Z * Z)) :
  assign_punishment self gs w = (Some (p, r, self'), w') ->
  received_punishments self' = received_punishments self
  /\ received_rewards self' = received_rewards self
  /\ agent_id self' = agent_id self.
Proof.
  unfold assign_punishment, bind, lift, ret, raise. intros H.
  destruct (construct_punishment_prompt self gs) as [[prompt self1]|] eqn:Ep;
    [|discriminate].
  assert (H1 : received_punishments self1 = received_punishments self
               /\ received_rewards self1 = received_rewards self
               /\ agent_id self1 = agent_id self).
  { unfold construct_punishment_prompt in Ep.
    destruct (get_past_actions_string self); cbn [obind] in Ep; [|discriminate].
    destruct (alias_members _ _ _) as [mapping lines].
    destruct (anonymous_history_section _ _); cbn [obind] in Ep; [|discriminate].
    injection Ep as _ <-. auto. }
  destruct (send_request prompt w) as [[resp|] w1]; [|discriminate].
  destruct (dump_info (agent_id self1) prompt resp w1) as [[u|] w2]; [|discriminate].
  unfold parse_punishment_response in H.
  destruct (try_parse_punishment self1 resp gs w2) as [[[[p' r'] self2]|] w3] eqn:Et.
  - apply try_parse_punishment_received in Et. injection H as <- <- <- <-.
    cbn. intuition congruence.
  - injection H as <- <- <- <-. cbn. intuition congruence.
Qed.

Lemma handle_loop_received (rs : list nat) :
  forall (inst inst' : Institution) (heap heap' : Heap) (w w' : World),
    handle_punishments_and_rewards_loop rs inst heap w = (Some (inst', heap'), w') ->
    forall r, received_punishments (heap' r) = received_punishments (heap r)
              /\ received_rewards (heap' r) = received_rewards (heap r)
              /\ agent_id (heap' r) = agent_id (heap r).
Proof.
  induction rs as [|r0 rs IH]; intros inst inst' heap heap' w w' H r.
  - cbn in H. injection H as <- <- <-. auto.
  - cbn [handle_punishments_and_rewards_loop] in H. unfold bind at 1 in H.
    destruct (assign_punishment _ _ w) as [[[[p q] a]|] w1] eqn:Ea; [|discriminate].
    apply assign_punishment_received in Ea.
    apply IH with (r := r) in H. destruct H as (H1 & H2 & H3).
    rewrite H1, H2, H3.
    destruct (Nat.eq_dec r r0) as [->|Hne].
    + rewrite upd_same. exact Ea.
    + rewrite upd_other by assumption. auto.
Qed.

Lemma apply_fold_other (inst : Institution) (rs : list nat) :
  forall (heap : Heap) (r : nat),
    ~ In r rs -> fold_left (apply_to_member inst) rs heap r = heap r.
Proof.
  induction rs as [|r0 rs IH]; intros heap r Hn; [reflexivity|].
  cbn [fold_left]. rewrite IH by (cbn in Hn; tauto).
  unfold apply_to_member. apply upd_other. cbn in Hn. intros ->. tauto.
Qed.

Lemma apply_fold_member (inst : Institution) (rs : list nat) :
  forall (heap : Heap) (r : nat),
    NoDup rs -> In r rs ->
    fold_left (apply_to_member inst) rs heap r = apply_to_member inst heap r r.
Proof.
  induction rs as [|r0 rs IH]; intros heap r Hnd Hin; [contradiction|].
  inversion Hnd as [|? ? Hnotin Hnd']; subst.
  cbn [fold_left]. destruct Hin as [->|Hin].
  - now rewrite apply_fold_other.
  - rewrite IH by assumption.
    assert (Hne : r <> r0) by (intros ->; contradiction).
    unfold apply_to_member. rewrite !upd_same.
    now rewrite (upd_other heap r0 r) by assumption.
Qed.

(** The apply phase on a member and on another agent. *)
Lemma apply_phase_member (inst : Institution) (heap : Heap) (r : nat) :
  kind inst = SI -> NoDup (members inst) -> In r (members inst) ->
  apply_punishments_and_rewards inst heap r
  = receive_reward
      (tokens_directed_at (agent_id (heap r)) (reward_matrix inst) * REWARD_EFFECT)
      (receive_punishment
         (tokens_directed_at (agent_id (heap r)) (punishment_matrix inst)
          * PUNISHMENT_EFFECT) (heap r)).
Proof.
  intros Hk Hnd Hin. unfold apply_punishments_and_rewards.
  rewrite Hk, apply_fold_member by assumption.
  unfold apply_to_member. rewrite upd_same. reflexivity.
Qed.

Lemma apply_phase_other (inst : Institution) (heap : Heap) (r : nat) :
  ~ In r (members inst) -> apply_punishments_and_rewards inst heap r = heap r.
Proof.
  intros Hn. unfold apply_punishments_and_rewards.
  destruct (kind inst); [now apply apply_fold_other | reflexivity].
Qed.

(** ** The contribution stage reads no state of the current round *)

Lemma collect_loop_frozen (rs : list nat) :
  forall (inst : Institution) (heap0 heap : Heap) (gs0 : GroupState) (w : World),
    NoDup rs ->
    (forall r, In r rs -> heap r = heap0 r) ->
    collect_contributions_loop rs inst heap w
    = collect_from_prompts
        (map (fun r => (r, construct_contribution_prompt (heap0 r) gs0)) rs)
        inst heap w.
Proof.
  induction rs as [|r rs IH]; intros inst heap0 heap gs0 w Hnd Hh; [reflexivity|].
  inversion Hnd as [|? ? Hnotin Hnd']; subst.
  cbn [collect_contributions_loop map collect_from_prompts].
  rewrite <- (Hh r (or_introl eq_refl)).
  change (construct_contribution_prompt (heap r) gs0)
    with (construct_contribution_prompt (heap r) (get_group_state inst heap (heap r))).
  unfold decide_contribution, bind.
  destruct (lift (construct_contribution_prompt (heap r) _) w) as [[prompt|] w1];
    [|reflexivity].
  destruct (send_request prompt w1) as [[response|] w2]; [|reflexivity].
  destruct (parse_contribution_response (heap r) response) as [c a].
  unfold ret at 1. rewrite upd_same. cbn [contribution set_contribution].
  fold (@bind (Institution * Heap) (Institution * Heap)).
  apply IH; [assumption|].
  intros r' Hr'. rewrite upd_other by (intros ->; contradiction).
  apply Hh. now right.
Qed.

(** C9. The prompt of a contribution decision does not depend on the
    group snapshot: two snapshots, whatever the contributions of their
    members and whatever their partial contribution data, give the same
    prompt.  Hence in [collect_contributions] every member is shown the
    prompt built from its own state at the start of the stage: the stage
    equals the one that builds all prompts first, so no decision depends on
    a contribution made earlier in the same stage. *)
Theorem contribution_prompt_independent_of_peers :
  (forall (self : Agent) (gs1 gs2 : GroupState),
      construct_contribution_prompt self gs1 = construct_contribution_prompt self gs2)
  /\ (forall (self : Agent) (inst1 inst2 : Institution) (heap1 heap2 : Heap),
         construct_contribution_prompt self (get_group_state inst1 heap1 self)
         = construct_contribution_prompt self (get_group_state inst2 heap2 self))
  /\ (forall (inst : Institution) (heap : Heap) (w : World),
         NoDup (members inst) ->
         collect_contributions inst heap w = collect_contributions_frozen inst heap w).
Proof.
  split; [|split].
  - reflexivity.
  - reflexivity.
  - intros inst heap w Hnd. unfold collect_contributions, collect_contributions_frozen.
    apply collect_loop_frozen; [exact Hnd | reflexivity].
Qed.

(** ** The stable sort *)

Section SortedFacts.
Context {A : Type} (lt : A -> A -> bool).

Lemma before_cons_head (a b : A) (l : list A) : In b l -> before a b (a :: l).
Proof.
  intros H. apply in_split in H. destruct H as (l2 & l3 & ->).
  now exists [], l2, l3.
Qed.

Lemma before_cons_tail (a b x : A) (l : list A) : before a b l -> before a b (x :: l).
Proof. intros (l1 & l2 & l3 & ->). now exists (x :: l1), l2, l3. Qed.

Lemma before_cons_inv (a b x : A) (l : list A) :
  before a b (x :: l) -> (a = x /\ In b l) \/ before a b l.
Proof.
  intros (l1 & l2 & l3 & H). destruct l1 as [|y l1]; cbn in H; injection H as -> ->.
  - left. split; [reflexivity|]. apply in_or_app. right. now left.
  - right. now exists l1, l2, l3.
Qed.

Lemma before_In (a b : A) (l : list A) : before a b l -> In a l /\ In b l.
Proof.
  intros (l1 & l2 & l3 & ->). split.
  - apply in_or_app. right. now left.
  - apply in_or_app. right. right. apply in_or_app. right. now left.
Qed.

Lemma sorted_insert_In (x z : A) (s : list A) :
  In z (sorted_insert lt x s) <-> z = x \/ In z s.
Proof.
  induction s as [|y s IH]; cbn.
  - intuition.
  - destruct (lt y x); cbn; rewrite ?IH; intuition.
Qed.

Lemma sorted_insert_perm (x : A) (s : list A) :
  Permutation (sorted_insert lt x s) (x :: s).
Proof.
  induction s as [|y s IH]; cbn; [reflexivity|].
  destruct (lt y x); [|reflexivity].
  rewrite IH. apply perm_swap.
Qed.

Lemma py_sorted_perm (l : list A) : Permutation (py_sorted lt l) l.
Proof.
  induction l as [|x l IH]; cbn; [reflexivity|].
  rewrite sorted_insert_perm. now constructor.
Qed.

Lemma py_sorted_In (z : A) (l : list A) : In z (py_sorted lt l) <-> In z l.
Proof.
  split; apply Permutation_in; [|symmetry]; apply py_sorted_perm.
Qed.

(** Inserting keeps the order of the elements that are there. *)
Lemma sorted_insert_before (a b x : A) (s : list A) :
  before a b s -> before a b (sorted_insert lt x s).
Proof.
  induction s as [|y s IH]; intros H.
  - destruct H as (l1 & l2 & l3 & H). destruct l1; discriminate.
  - cbn. destruct (lt y x).
    + apply before_cons_inv in H. destruct H as [[-> Hb] | H].
      * apply before_cons_head. apply sorted_insert_In. now right.
      * apply before_cons_tail. auto.
    + now apply before_cons_tail.
Qed.

(** The inserted element goes before every element that is not less than
    it. *)
Lemma sorted_insert_first (b x : A) (s : list A) :
  In b s -> lt b x = false -> before x b (sorted_insert lt x s).
Proof.
  induction s as [|y s IH]; intros Hin Hlt; [contradiction|].
  cbn. destruct (lt y x) eqn:E.
  - destruct Hin as [->|Hin]; [congruence|].
    apply before_cons_tail. auto.
  - now apply before_cons_head.
Qed.

(** Stability: an element stays before a later one that is not less than
    it. *)
Lemma py_sorted_stable (a b : A) (l : list A) :
  before a b l -> lt b a = false -> before a b (py_sorted lt l).
Proof.
  induction l as [|x l IH]; intros H Hlt.
  - destruct H as (l1 & l2 & l3 & H). destruct l1; discriminate.
  - cbn. apply before_cons_inv in H. destruct H as [[-> Hb] | H].
    + apply sorted_insert_first; [|assumption]. now apply py_sorted_In.
    + apply sorted_insert_before. auto.
Qed.

Lemma ascending_cons (x : A) (l : list A) :
  ascending lt l -> (forall z, In z l -> lt z x = false) -> ascending lt (x :: l).
Proof.
  intros Hl Hx a b H. apply before_cons_inv in H.
  destruct H as [[-> Hb] | H]; auto.
Qed.

Lemma ascending_tail (x : A) (l : list A) : ascending lt (x :: l) -> ascending lt l.
Proof. intros H a b Hb. apply H. now apply before_cons_tail. Qed.

Lemma sorted_insert_ascending (P : A -> Prop) (x : A) (s : list A) :
  ordered_on lt P -> P x -> (forall z, In z s -> P z) ->
  ascending lt s -> ascending lt (sorted_insert lt x s).
Proof.
  intros [Hasym Hneg] Px. induction s as [|y s IH]; intros Ps Hs.
  - cbn. intros a b H. apply before_cons_inv in H.
    destruct H as [[_ []] | (l1 & l2 & l3 & H)]. destruct l1; discriminate.
  - cbn. destruct (lt y x) eqn:E.
    + apply ascending_cons.
      * apply IH; [intros z Hz; apply Ps; now right | now apply ascending_tail in Hs].
      * intros z Hz. apply sorted_insert_In in Hz. destruct Hz as [->|Hz].
        -- apply Hasym; auto. apply Ps. now left.
        -- apply Hs. now apply before_cons_head.
    + apply ascending_cons; [assumption|].
      intros z [->|Hz]; [assumption|].
      apply (Hneg z y x); auto.
      * apply Ps. now right.
      * apply Ps. now left.
      * apply Hs. now apply before_cons_head.
Qed.

Lemma py_sorted_ascending (P : A -> Prop) (l : list A) :
  ordered_on lt P -> (forall z, In z l -> P z) -> ascending lt (py_sorted lt l).
Proof.
  intros Ho. induction l as [|x l IH]; intros Pl.
  - cbn. intros a b (l1 & l2 & l3 & H). destruct l1; discriminate.
  - cbn. apply (sorted_insert_ascending P); auto.
    + apply Pl. now left.
    + intros z Hz. apply Pl. right. now apply py_sorted_In.
    + apply IH. intros z Hz. apply Pl. now right.
Qed.

(** Of two different members of a list, one is before the other. *)
Lemma before_total (a b : A) (l : list A) :
  In a l -> In b l -> a <> b -> before a b l \/ before b a l.
Proof.
  induction l as [|x l IH]; intros Ha Hb Hne; [contradiction|].
  destruct Ha as [->|Ha], Hb as [->|Hb].
  - contradiction.
  - left. now apply before_cons_head.
  - right. now apply before_cons_head.
  - destruct (IH Ha Hb Hne); [left | right]; now apply before_cons_tail.
Qed.

Lemma before_map {B : Type} (f : A -> B) (a b : A) (l : list A) :
  before a b l ->
  exists l1 l2 l3, map f l = app l1 (f a :: app l2 (f b :: l3)).
Proof.
  intros (l1 & l2 & l3 & ->). exists (map f l1), (map f l2), (map f l3).
  rewrite map_app. cbn. rewrite map_app. reflexivity.
Qed.
End SortedFacts.

(** ** Positions in a list of identities *)

Lemma index_of_app (x : Z) (l1 l2 : list Z) :
  ~ In x l1 -> index_of x (app l1 (x :: l2)) = List.length l1.
Proof. detach.
  induction l1 as [|y l1 IH]; cbn; intros Hn.
  - now rewrite Z.eqb_refl.
  - destruct (x =? y) eqn:E.
    + apply Z.eqb_eq in E. subst. tauto.
    + rewrite IH; tauto.
Qed.

Lemma index_of_map_self (l : list Z) :
  NoDup l -> map (fun x => index_of x l) l = seq 0 (List.length l).
Proof.
  induction l as [|y l IH]; intros Hnd; [reflexivity|].
  inversion Hnd as [|? ? Hnotin Hnd']; subst.
  cbn [map index_of List.length seq]. rewrite Z.eqb_refl. f_equal.
  rewrite <- seq_shift, <- IH by assumption. rewrite map_map.
  apply map_ext_in. intros x Hx.
  destruct (x =? y) eqn:E; [|reflexivity].
  apply Z.eqb_eq in E. subst. contradiction.
Qed.

(** In a list without duplicates the earlier of two elements has the
    smaller index. *)
Lemma index_of_before (a b : Z) (l : list Z) :
  NoDup l -> before a b l -> (index_of a l < index_of b l)%nat.
Proof.
  intros Hnd (l1 & l2 & l3 & ->).
  assert (Ha : ~ In a l1).
  { intros Hin. apply NoDup_remove_2 in Hnd. apply Hnd. apply in_or_app. now left. }
  rewrite (index_of_app a l1) by assumption.
  replace (app l1 (a :: app l2 (b :: l3))) with (app (app l1 (a :: l2)) (b :: l3))
    in * by (rewrite <- app_assoc; reflexivity).
  rewrite index_of_app.
  - rewrite length_app. cbn. lia.
  - apply NoDup_remove_2 in Hnd. intros Hin. apply Hnd.
    apply in_or_app. now left.
Qed.

Lemma index_of_lt_before (a b : Z) (l : list Z) :
  NoDup l -> In a l -> In b l -> (index_of a l < index_of b l)%nat -> before a b l.
Proof.
  intros Hnd Ha Hb Hlt.
  assert (Hne : a <> b) by (intros ->; lia).
  destruct (before_total a b l Ha Hb Hne) as [H|H]; [assumption|].
  apply index_of_before in H; [lia | assumption].
Qed.

(** ** The ranks *)

Lemma comparable_payoffs_spec (ps : list pynum) :
  comparable_payoffs ps = true ->
  (forall x y, In x ps -> In y ps -> num_ltb x y = true -> num_ltb y x = false)
  /\ (forall x y z, In x ps -> In y ps -> In z ps ->
        num_ltb x y = false -> num_ltb y z = false -> num_ltb x z = false).
Proof.
  unfold comparable_payoffs. intros H. rewrite forallb_forall in H. split.
  - intros x y Hx Hy Hlt. specialize (H x Hx). rewrite forallb_forall in H.
    specialize (H y Hy). apply andb_true_iff in H. destruct H as [H _].
    rewrite Hlt in H. cbn in H. now apply negb_true_iff in H.
  - intros x y z Hx Hy Hz H1 H2. specialize (H x Hx). rewrite forallb_forall in H.
    specialize (H y Hy). apply andb_true_iff in H. destruct H as [_ H].
    rewrite forallb_forall in H. specialize (H z Hz).
    rewrite H1, H2 in H. cbn in H. now apply negb_true_iff in H.
Qed.

Lemma NoDup_map_injective {A B : Type} (f : A -> B) (l : list A) (x y : A) :
  NoDup (map f l) -> In x l -> In y l -> f x = f y -> x = y.
Proof.
  induction l as [|a l IH]; intros Hnd Hx Hy E; [contradiction|].
  cbn in Hnd. inversion Hnd as [|? ? Hnotin Hnd']; subst.
  destruct Hx as [->|Hx], Hy as [->|Hy]; auto.
  - exfalso. apply Hnotin. rewrite E. now apply in_map.
  - exfalso. apply Hnotin. rewrite <- E. now apply in_map.
Qed.

Lemma fold_dict_set_fresh {A V : Type} (f : A -> Z) (g : A -> V) (rs : list A) :
  forall d : list (Z * V),
    NoDup (app (dict_keys d) (map f rs)) ->
    fold_left (fun d r => dict_set Z.eqb (f r) (g r) d) rs d
    = app d (map (fun r => (f r, g r)) rs).
Proof.
  induction rs as [|r rs IH]; intros d Hnd; cbn.
  - now rewrite app_nil_r.
  - rewrite dict_set_fresh.
    + rewrite IH.
      * rewrite <- app_assoc. reflexivity.
      * unfold dict_keys in *. rewrite map_app, <- app_assoc. exact Hnd.
    + cbn in Hnd. apply NoDup_remove_2 in Hnd. intros Hin. apply Hnd.
      apply in_or_app. now left.
Qed.

Lemma agent_cumulative_payoffs_items (env : Environment) (heap : Heap) :
  NoDup (population_ids env heap) ->
  agent_cumulative_payoffs env heap = map (payoff_item heap) (agents env).
Proof.
  intros Hnd. unfold agent_cumulative_payoffs.
  now rewrite (fold_dict_set_fresh (fun r => agent_id (heap r))
                 (fun r => cumulative_payoff (heap r))).
Qed.

Lemma sorted_ids_perm (env : Environment) (heap : Heap) :
  NoDup (population_ids env heap) ->
  Permutation (sorted_ids env heap) (population_ids env heap).
Proof.
  intros Hnd. unfold sorted_ids, sorted_payoffs, py_sorted_reverse.
  rewrite py_sorted_perm, agent_cumulative_payoffs_items by assumption.
  unfold population_ids. rewrite map_map. reflexivity.
Qed.

Lemma sorted_ids_NoDup (env : Environment) (heap : Heap) :
  NoDup (population_ids env heap) -> NoDup (sorted_ids env heap).
Proof.
  intros Hnd. eapply Permutation_NoDup; [|exact Hnd].
  symmetry. now apply sorted_ids_perm.
Qed.

Lemma ranks_fold_lookup (l : list (Z * pynum)) :
  forall (s : Z) (d : list (Z * Z)) (id : Z),
    NoDup (map fst l) ->
    dict_get Z.eqb id (fold_left rank_step (enumerate_from s l) d)
    = if in_dec Z.eq_dec id (map fst l)
      then Some (s + Z.of_nat (index_of id (map fst l)) + 1)
      else dict_get Z.eqb id d.
Proof.
  induction l as [|[k v] l IH]; intros s d id Hnd; [reflexivity|].
  cbn [map fst] in Hnd. inversion Hnd as [|? ? Hnotin Hnd']; subst.
  cbn [enumerate_from fold_left rank_step]. rewrite IH by assumption.
  cbn [map fst index_of].
  destruct (in_dec Z.eq_dec id (map fst l)) as [Hin|Hin].
  - destruct (in_dec Z.eq_dec id (k :: map fst l)) as [_|Hn]; [|exfalso; apply Hn; now right].
    destruct (id =? k) eqn:E.
    + apply Z.eqb_eq in E. subst. contradiction.
    + f_equal. lia.
  - destruct (Z.eq_dec id k) as [->|Hne].
    + destruct (in_dec Z.eq_dec k (k :: map fst l)) as [_|Hn];
        [|exfalso; apply Hn; now left].
      rewrite Z.eqb_refl, dict_get_set_same. f_equal. cbn. lia.
    + destruct (in_dec Z.eq_dec id (k :: map fst l)) as [[E|Hin']|_];
        [congruence | contradiction |].
      now apply dict_get_set_other.
Qed.

Lemma agent_ranks_lookup (env : Environment) (heap : Heap) (id : Z) :
  NoDup (population_ids env heap) ->
  In id (population_ids env heap) ->
  dict_get Z.eqb id (agent_ranks env heap)
  = Some (Z.of_nat (index_of id (sorted_ids env heap)) + 1).
Proof.
  intros Hnd Hin. unfold agent_ranks.
  change (fun (d : list (Z * Z)) '(rank, (agent_id, _)) =>
            dict_set Z.eqb agent_id (rank + 1) d) with rank_step.
  fold (sorted_payoffs env heap).
  rewrite ranks_fold_lookup by (now apply sorted_ids_NoDup).
  fold (sorted_ids env heap).
  destruct (in_dec Z.eq_dec id (sorted_ids env heap)) as [_|Hn]; [reflexivity|].
  exfalso. apply Hn. eapply Permutation_in; [|exact Hin].
  symmetry. now apply sorted_ids_perm.
Qed.

Lemma rank_of_index (env : Environment) (heap : Heap) (r : nat) :
  NoDup (population_ids env heap) ->
  In r (agents env) ->
  dict_get Z.eqb (agent_id (heap r)) (agent_ranks env heap) = Some (rank_of env heap r)
  /\ rank_of env heap r
     = Z.of_nat (index_of (agent_id (heap r)) (sorted_ids env heap)) + 1.
Proof.
  intros Hnd Hin. unfold rank_of, dict_get_default.
  rewrite agent_ranks_lookup; auto.
  unfold population_ids. now apply (in_map (fun r => agent_id (heap r))).
Qed.

(** The ranks are the numbers 1..N, each once. *)
Lemma ranks_dense (env : Environment) (heap : Heap) :
  NoDup (population_ids env heap) ->
  Permutation (map (rank_of env heap) (agents env))
              (map Z.of_nat (seq 1 (List.length (agents env)))).
Proof.
  intros Hnd.
  set (f := fun id => Z.of_nat (index_of id (sorted_ids env heap)) + 1).
  assert (E1 : map (rank_of env heap) (agents env) = map f (population_ids env heap)).
  { unfold population_ids. rewrite map_map. apply map_ext_in. intros r Hr.
    now apply rank_of_index. }
  assert (E2 : map f (sorted_ids env heap)
               = map Z.of_nat (seq 1 (List.length (agents env)))).
  { unfold f. rewrite <- (map_map (fun id => index_of id (sorted_ids env heap))
                                  (fun i => Z.of_nat i + 1)).
    rewrite index_of_map_self by (now apply sorted_ids_NoDup).
    rewrite (Permutation_length (sorted_ids_perm env heap Hnd)).
    unfold population_ids. rewrite length_map.
    rewrite <- seq_shift, map_map. apply map_ext. intros i. lia. }
  rewrite E1, <- E2. apply Permutation_map. symmetry. now apply sorted_ids_perm.
Qed.

Lemma before_map_fst_inv (ka kb : Z) (l : list (Z * pynum)) :
  before ka kb (map fst l) -> exists va vb, before (ka, va) (kb, vb) l.
Proof.
  intros (k1 & k2 & k3 & H).
  apply map_eq_app in H. destruct H as (l1 & l' & -> & <- & H).
  apply map_eq_cons in H. destruct H as ([a va] & l'' & -> & Ea & H).
  apply map_eq_app in H. destruct H as (l2 & l''' & -> & <- & H).
  apply map_eq_cons in H. destruct H as ([b vb] & l3 & -> & Eb & <-).
  cbn in Ea, Eb. subst. exists va, vb. now exists l1, l2, l3.
Qed.

Lemma sorted_payoffs_In (env : Environment) (heap : Heap) (id : Z) (v : pynum) :
  NoDup (population_ids env heap) ->
  In (id, v) (sorted_payoffs env heap) ->
  exists r, In r (agents env) /\ id = agent_id (heap r) /\ v = cumulative_payoff (heap r).
Proof.
  intros Hnd Hin. unfold sorted_payoffs, py_sorted_reverse in Hin.
  apply py_sorted_In in Hin. rewrite agent_cumulative_payoffs_items in Hin by assumption.
  apply in_map_iff in Hin. destruct Hin as (r & E & Hr).
  injection E as <- <-. eauto.
Qed.

(** Sorted in descending order: a better rank never goes with a smaller
    cumulative payoff. *)
Lemma ranks_descending (env : Environment) (heap : Heap) (r1 r2 : nat) :
  NoDup (population_ids env heap) ->
  comparable_payoffs (map (fun r => cumulative_payoff (heap r)) (agents env)) = true ->
  In r1 (agents env) -> In r2 (agents env) ->
  rank_of env heap r1 < rank_of env heap r2 ->
  num_ltb (cumulative_payoff (heap r1)) (cumulative_payoff (heap r2)) = false.
Proof.
  intros Hnd Hc H1 H2 Hlt.
  destruct (rank_of_index env heap r1 Hnd H1) as [_ E1].
  destruct (rank_of_index env heap r2 Hnd H2) as [_ E2].
  rewrite E1, E2 in Hlt.
  assert (Hperm := sorted_ids_perm env heap Hnd).
  assert (In1 : In (agent_id (heap r1)) (sorted_ids env heap)).
  { eapply Permutation_in; [symmetry; exact Hperm|].
    now apply (in_map (fun r => agent_id (heap r))). }
  assert (In2 : In (agent_id (heap r2)) (sorted_ids env heap)).
  { eapply Permutation_in; [symmetry; exact Hperm|].
    now apply (in_map (fun r => agent_id (heap r))). }
  assert (Hb : before (agent_id (heap r1)) (agent_id (heap r2)) (sorted_ids env heap)).
  { apply index_of_lt_before; auto; [now apply sorted_ids_NoDup | lia]. }
  apply before_map_fst_inv in Hb. destruct Hb as (v1 & v2 & Hb).
  destruct (before_In _ _ _ Hb) as [I1 I2].
  apply sorted_payoffs_In in I1; [|assumption].
  apply sorted_payoffs_In in I2; [|assumption].
  destruct I1 as (r1' & Hr1' & Ei1 & ->). destruct I2 as (r2' & Hr2' & Ei2 & ->).
  assert (r1' = r1)
    by (apply (NoDup_map_injective (fun r => agent_id (heap r)) (agents env)); auto).
  assert (r2' = r2)
    by (apply (NoDup_map_injective (fun r => agent_id (heap r)) (agents env)); auto).
  subst r1' r2'.
  apply comparable_payoffs_spec in Hc. destruct Hc as [Hasym Hneg].
  set (P := fun x : Z * pynum =>
              In (snd x) (map (fun r => cumulative_payoff (heap r)) (agents env))).
  assert (Hasc : ascending (fun x y : Z * pynum => num_ltb (snd y) (snd x))
                           (sorted_payoffs env heap)).
  { unfold sorted_payoffs, py_sorted_reverse. apply (py_sorted_ascending _ P).
    - split.
      + intros x y Px Py. apply Hasym; assumption.
      + intros x y z Px Py Pz Hxy Hyz. apply (Hneg (snd z) (snd y) (snd x)); assumption.
    - intros [id v] Hz. unfold P. cbn.
      rewrite agent_cumulative_payoffs_items in Hz by assumption.
      apply in_map_iff in Hz. destruct Hz as (r & E & Hr). injection E as _ <-.
      now apply (in_map (fun r => cumulative_payoff (heap r))). }
  apply Hasc in Hb. exact Hb.
Qed.

(** Stability: of two agents, the one that comes first in the population
    gets the better rank unless its cumulative payoff is smaller; so equal
    payoffs keep the population order. *)
Lemma ranks_stable (env : Environment) (heap : Heap) (r1 r2 : nat) :
  NoDup (population_ids env heap) ->
  before r1 r2 (agents env) ->
  num_ltb (cumulative_payoff (heap r1)) (cumulative_payoff (heap r2)) = false ->
  rank_of env heap r1 < rank_of env heap r2.
Proof.
  intros Hnd Hb Hlt.
  destruct (before_In _ _ _ Hb) as [H1 H2].
  destruct (rank_of_index env heap r1 Hnd H1) as [_ ->].
  destruct (rank_of_index env heap r2 Hnd H2) as [_ ->].
  assert (Hs : before (payoff_item heap r1) (payoff_item heap r2)
                      (sorted_payoffs env heap)).
  { unfold sorted_payoffs, py_sorted_reverse. apply py_sorted_stable.
    - rewrite agent_cumulative_payoffs_items by assumption.
      destruct (before_map (payoff_item heap) _ _ _ Hb) as (l1 & l2 & l3 & E).
      now exists l1, l2, l3.
    - exact Hlt. }
  destruct (before_map fst _ _ _ Hs) as (k1 & k2 & k3 & E).
  assert (Hk : before (agent_id (heap r1)) (agent_id (heap r2)) (sorted_ids env heap))
    by (now exists k1, k2, k3).
  apply index_of_before in Hk; [lia | now apply sorted_ids_NoDup].
Qed.

(** ** The round record and the anonymized feed *)

Lemma same_but_history_agent_id (a b : Agent) :
  same_but_history a b -> agent_id a = agent_id b.
Proof. intros H. exact (f_equal agent_id H). Qed.

Lemma make_agent_data_same (env : Environment) (a b : Agent) (rank n : Z) :
  same_but_history a b ->
  make_agent_data env a rank n = make_agent_data env b rank n.
Proof.
  destruct a, b. unfold same_but_history, set_history. cbn.
  intros [= -> -> -> -> -> -> -> -> -> -> -> -> -> -> -> -> -> -> ->]. reflexivity.
Qed.

Lemma make_anonymous_entry_agent_data (env : Environment) (a : Agent) (rank n : Z) :
  make_anonymous_entry (make_agent_data env a rank n)
  = Some (anonymized_projection env a).
Proof.
  unfold make_agent_data, anonymized_projection.
  destruct (stage_payoffs env a) as [s1 s2]. reflexivity.
Qed.

Lemma record_agents_spec (env : Environment) (ranks : list (Z * Z)) (n : Z)
    (heap0 : Heap) (rk : nat -> Z) (rs : list nat) :
  forall (ra : list (Z * StrDict)) (h : Heap),
    (forall r, In r rs -> dict_get Z.eqb (agent_id (heap0 r)) ranks = Some (rk r)) ->
    (forall r, same_but_history (h r) (heap0 r)) ->
    exists ra' h',
      record_agents env ranks n rs ra h = Some (ra', h')
      /\ (forall r, same_but_history (h' r) (heap0 r))
      /\ (forall id, ~ In id (map (fun r => agent_id (heap0 r)) rs) ->
            dict_get Z.eqb id ra' = dict_get Z.eqb id ra)
      /\ (NoDup (map (fun r => agent_id (heap0 r)) rs) ->
          forall r, In r rs ->
            dict_get Z.eqb (agent_id (heap0 r)) ra'
            = Some (make_agent_data env (heap0 r) (rk r) n)).
Proof. detach.
  induction rs as [|r rs IH]; intros ra h Hrk Hs.
  - exists ra, h. cbn. repeat split; auto. intros _ r [].
  - cbn [record_agents].
    rewrite (same_but_history_agent_id _ _ (Hs r)), (Hrk r (or_introl eq_refl)).
    cbn [obind].
    rewrite (make_agent_data_same env _ _ (rk r) n (Hs r)).
    set (data := make_agent_data env (heap0 r) (rk r) n).
    set (h1 := upd h r _).
    assert (Hs1 : forall r', same_but_history (h1 r') (heap0 r')).
    { intros r'. unfold h1. destruct (Nat.eq_dec r' r) as [->|Hne].
      - rewrite upd_same. specialize (Hs r). unfold same_but_history in *.
        rewrite <- Hs. reflexivity.
      - rewrite upd_other by assumption. apply Hs. }
    destruct (IH (dict_set Z.eqb (agent_id (heap0 r)) data ra) h1) as
      (ra' & h' & Hrun & Hs' & Hother & Hmem); [intros; apply Hrk; now right | exact Hs1 |].
    exists ra', h'. split; [exact Hrun|]. split; [exact Hs'|]. split.
    + intros id Hn. cbn in Hn. rewrite Hother by tauto.
      apply dict_get_set_other. intros ->. tauto.
    + intros Hnd r' Hr'. cbn in Hnd. inversion Hnd as [|? ? Hnotin Hnd']; subst.
      destruct Hr' as [->|Hr'].
      * rewrite Hother by assumption. apply dict_get_set_same.
      * now apply Hmem.
Qed.

Lemma anonymous_data_list_spec (ra : list (Z * StrDict)) (h : Heap) (obs : Z)
    (D P : nat -> StrDict) (others : list nat) :
  (forall o, In o others -> dict_get Z.eqb (agent_id (h o)) ra = Some (D o)) ->
  (forall o, make_anonymous_entry (D o) = Some (P o)) ->
  anonymous_data_list ra h obs others
  = Some (map P (filter (fun o => negb (agent_id (h o) =? obs)) others)).
Proof.
  intros HD HP. induction others as [|o others IH]; [reflexivity|].
  cbn [anonymous_data_list filter].
  rewrite IH by (intros; apply HD; now right).
  destruct (negb (agent_id (h o) =? obs)); [|reflexivity].
  rewrite (HD o (or_introl eq_refl)). cbn [obind]. rewrite HP. reflexivity.
Qed.

Lemma anonymous_data_list_ext (ra : list (Z * StrDict)) (h1 h2 : Heap) (obs : Z)
    (others : list nat) :
  (forall o, agent_id (h1 o) = agent_id (h2 o)) ->
  anonymous_data_list ra h1 obs others = anonymous_data_list ra h2 obs others.
Proof.
  intros E. induction others as [|o others IH]; [reflexivity|].
  cbn [anonymous_data_list]. now rewrite IH, E.
Qed.

Lemma stage_anonymous_data_spec (env : Environment) (ra : list (Z * StrDict))
    (heap1 : Heap) (B : nat -> list StrDict) (rs : list nat) :
  forall h : Heap,
    (forall r, In r rs ->
       anonymous_data_list ra heap1 (agent_id (heap1 r)) (agents env) = Some (B r)) ->
    (forall o, agent_id (h o) = agent_id (heap1 o)) ->
    exists h',
      stage_anonymous_data env ra rs h = Some h'
      /\ (forall o, agent_id (h' o) = agent_id (heap1 o))
      /\ (forall r, ~ In r rs -> h' r = h r)
      /\ (forall r, In r rs -> current_round_anonymous_data (h' r) = Some (B r)).
Proof.
  induction rs as [|r rs IH]; intros h HB Hid.
  - exists h. cbn. repeat split; auto. intros r [].
  - cbn [stage_anonymous_data].
    rewrite (anonymous_data_list_ext ra h heap1) by exact Hid.
    rewrite Hid, (HB r (or_introl eq_refl)). cbn [obind].
    set (h1 := upd h r _).
    assert (Hid1 : forall o, agent_id (h1 o) = agent_id (heap1 o)).
    { intros o. unfold h1. destruct (Nat.eq_dec o r) as [->|Hne].
      - rewrite upd_same. cbn. apply Hid.
      - rewrite upd_other by assumption. apply Hid. }
    destruct (IH h1) as (h' & Hrun & Hid' & Hout & Hin);
      [intros; apply HB; now right | exact Hid1 |].
    exists h'. split; [exact Hrun|]. split; [exact Hid'|]. split.
    + intros r' Hn. cbn in Hn. rewrite Hout by tauto.
      unfold h1. apply upd_other. intros ->. tauto.
    + intros r' [->|Hr'].
      * destruct (in_dec Nat.eq_dec r' rs) as [Hi|Hn]; [now apply Hin|].
        rewrite Hout by assumption. unfold h1. rewrite upd_same. reflexivity.
      * now apply Hin.
Qed.

(** [record_round_history] always returns; it appends one round record,
    whose agent data carry the ranks, and stages for every agent the
    anonymized projections of the other agents. *)
Lemma record_round_history_spec (env : Environment) (heap : Heap) :
  NoDup (population_ids env heap) ->
  exists env' heap' round_data,
    record_round_history env heap = Some (env', heap')
    /\ results env' = app (results env) [round_data]
    /\ env_history env' = app (env_history env) [round_data]
    /\ (forall r, In r (agents env) ->
          dict_get Z.eqb (agent_id (heap r)) (rd_agents round_data)
          = Some (make_agent_data env (heap r) (rank_of env heap r)
                    (Z.of_nat (List.length (agents env)))))
    /\ (forall r, In r (agents env) ->
          current_round_anonymous_data (heap' r)
          = Some (map (fun o => anonymized_projection env (heap o))
                      (filter (fun o => negb (agent_id (heap o) =? agent_id (heap r)))
                              (agents env)))).
Proof.
  intros Hnd. unfold record_round_history.
  set (n := Z.of_nat (List.length (agents env))).
  destruct (record_agents_spec env (agent_ranks env heap) n heap (rank_of env heap)
              (agents env) [] heap) as (ra & heap1 & Hrun & Hs & _ & Hmem).
  { intros r Hr. now apply rank_of_index. }
  { intros r. reflexivity. }
  specialize (Hmem Hnd). rewrite Hrun. cbn [obind].
  assert (Hid1 : forall o, agent_id (heap1 o) = agent_id (heap o))
    by (intros o; apply same_but_history_agent_id, Hs).
  set (P := fun o => anonymized_projection env (heap o)).
  set (B := fun r => map P (filter (fun o => negb (agent_id (heap o) =? agent_id (heap r)))
                                   (agents env))).
  destruct (stage_anonymous_data_spec env ra heap1 B (agents env) heap1)
    as (heap2 & Hrun2 & _ & _ & Hin2).
  { intros r Hr.
    rewrite (anonymous_data_list_spec ra heap1 _
               (fun o => make_agent_data env (heap o) (rank_of env heap o) n) P).
    - unfold B. rewrite Hid1. f_equal. f_equal. apply filter_ext.
      intros o. now rewrite Hid1.
    - intros o Ho. rewrite Hid1. now apply Hmem.
    - intros o. apply make_anonymous_entry_agent_data. }
  { reflexivity. }
  rewrite Hrun2. cbn [obind].
  eexists _, heap2, _. split; [reflexivity|]. cbn.
  repeat split; auto.
Qed.

(** C5. When the identities of the population are distinct, the ranks of
    a round are the numbers 1..N, each given once; they follow the
    cumulative payoffs in descending order (as far as [<] orders the
    payoffs, which it does unless one is NaN); the sort is stable, so of two
    agents the one that comes first in the population list gets the better
    rank unless its cumulative payoff is smaller, and agents with equal
    payoffs keep their population order; and the round record holds for
    every agent the string "<rank> out of <N>". *)
Theorem ranks_dense_descending_stable :
  forall (env : Environment) (heap : Heap),
    NoDup (population_ids env heap) ->
    let n := List.length (agents env) in
    Permutation (map (rank_of env heap) (agents env)) (map Z.of_nat (seq 1 n))
    /\ (comparable_payoffs (map (fun r => cumulative_payoff (heap r)) (agents env)) = true ->
        forall r1 r2, In r1 (agents env) -> In r2 (agents env) ->
          rank_of env heap r1 < rank_of env heap r2 ->
          num_ltb (cumulative_payoff (heap r1)) (cumulative_payoff (heap r2)) = false)
    /\ (forall r1 r2, before r1 r2 (agents env) ->
          num_ltb (cumulative_payoff (heap r1)) (cumulative_payoff (heap r2)) = false ->
          rank_of env heap r1 < rank_of env heap r2)
    /\ (exists env' heap' round_data,
          record_round_history env heap = Some (env', heap')
          /\ results env' = app (results env) [round_data]
          /\ forall r, In r (agents env) ->
               exists agent_data,
                 dict_get Z.eqb (agent_id (heap r)) (rd_agents round_data)
                 = Some agent_data
                 /\ dict_get String.eqb "rank" agent_data
                    = Some (VJson (JStr (str_int (rank_of env heap r) ++ " out of "
                                           ++ str_int (Z.of_nat n))))).
Proof.
  intros env heap Hnd n. split; [|split; [|split]].
  - now apply ranks_dense.
  - intros Hc r1 r2 H1 H2 Hlt. now apply (ranks_descending env).
  - intros r1 r2 Hb Hlt. now apply ranks_stable.
  - destruct (record_round_history_spec env heap Hnd)
      as (env' & heap' & rd & Hrun & Hres & _ & Hdata & _).
    exists env', heap', rd. split; [exact Hrun|]. split; [exact Hres|].
    intros r Hr. eexists. split; [apply Hdata; exact Hr|].
    unfold make_agent_data. destruct (stage_payoffs env (heap r)). reflexivity.
Qed.


(** ** A whole round *)

Lemma same_totals_refl (a : Agent) : same_totals a a.
Proof. unfold same_totals. auto. Qed.

Lemma same_totals_trans (a b c : Agent) :
  same_totals a b -> same_totals b c -> same_totals a c.
Proof. unfold same_totals. intuition congruence. Qed.

Lemma same_but_contribution_totals (a b : Agent) :
  same_but_contribution a b -> same_totals a b.
Proof.
  intros H. unfold same_totals.
  split; [exact (f_equal agent_id H)|].
  split; [exact (f_equal received_punishments H) | exact (f_equal received_rewards H)].
Qed.

Lemma same_but_history_totals (a b : Agent) :
  same_but_history a b -> same_totals a b.
Proof.
  intros H. unfold same_totals.
  split; [exact (f_equal agent_id H)|].
  split; [exact (f_equal received_punishments H) | exact (f_equal received_rewards H)].
Qed.

(** [choose_institution] after [reset_for_new_round]: the identity stays
    and the received totals are 0. *)
Lemma choose_institution_after_reset (self a : Agent) (round_number : Z) (w w' : World) :
  choose_institution (reset_for_new_round self) round_number w = (Some a, w') ->
  agent_id a = agent_id self
  /\ received_punishments a = 0 /\ received_rewards a = 0.
Proof.
  unfold choose_institution, bind, lift, ret, raise.
  destruct (construct_institution_choice_prompt _ round_number) as [prompt|];
    [|discriminate].
  destruct (send_request prompt w) as [[response|] w1]; [|discriminate].
  intros [= <- <-]. unfold parse_institution_choice_response.
  destruct (try_parse_institution_choice response) as [[c r]|];
    unfold reset_for_new_round;
    destruct (current_round_anonymous_data self); cbn; auto.
Qed.

Lemma choose_institutions_cons (r : nat) (rs : list nat) (env : Environment)
    (heap : Heap) :
  choose_institutions (r :: rs) env heap
  = bind (choose_institution (reset_for_new_round (heap r)) (current_round env))
         (fun agent =>
            let '(env, agent) := enroll r agent env in
            choose_institutions rs env (upd heap r agent)).
Proof. reflexivity. Qed.

Lemma choose_institutions_spec (rs : list nat) :
  forall (env env' : Environment) (heap heap' : Heap) (w w' : World),
    choose_institutions rs env heap w = (Some (env', heap'), w') ->
    agents env' = agents env
    /\ kind (si env') = kind (si env)
    /\ kind (sfi env') = kind (sfi env)
    /\ (forall r, agent_id (heap' r) = agent_id (heap r))
    /\ (forall r, In r rs ->
          received_punishments (heap' r) = 0 /\ received_rewards (heap' r) = 0)
    /\ (forall r, ~ In r rs -> heap' r = heap r)
    /\ (NoDup (app (members (si env)) rs) -> NoDup (members (si env')))
    /\ (forall r, In r (members (si env')) -> In r (members (si env)) \/ In r rs).
Proof.
  induction rs as [|r0 rs IH]; intros env env' heap heap' w w' H.
  - cbn in H. injection H as <- <- <-. rewrite app_nil_r.
    split; [reflexivity|]. split; [reflexivity|]. split; [reflexivity|].
    split; [reflexivity|]. split; [intros r []|]. split; [reflexivity|].
    split; [auto|]. intros r Hr. now left.
  - rewrite choose_institutions_cons in H. apply bind_Some in H.
    destruct H as (a & w1 & Ec & H).
    apply choose_institution_after_reset in Ec. destruct Ec as (Eid & Ep & Er).
    destruct (enroll r0 a env) as [env1 a1] eqn:Es.
    assert (Ha1 : agent_id a1 = agent_id (heap r0)
                  /\ received_punishments a1 = 0 /\ received_rewards a1 = 0).
    { unfold enroll in Es. destruct (institution_choice a) as [[|]|];
        injection Es as <- <-; cbn; auto. }
    assert (He1 : agents env1 = agents env
                  /\ kind (si env1) = kind (si env)
                  /\ kind (sfi env1) = kind (sfi env)
                  /\ (members (si env1) = members (si env)
                      \/ members (si env1) = app (members (si env)) [r0])).
    { unfold enroll in Es. destruct (institution_choice a) as [[|]|];
        injection Es as <- <-; cbn; auto. }
    destruct He1 as (Eag & Eks & Ekf & Emem).
    apply IH in H. destruct H as (H1 & H2 & H3 & H4 & H5 & H6 & H7 & H8).
    split; [congruence|]. split; [congruence|]. split; [congruence|].
    split; [|split; [|split; [|split]]].
    + intros r. rewrite H4. destruct (Nat.eq_dec r r0) as [->|Hne].
      * rewrite upd_same. tauto.
      * now rewrite upd_other.
    + intros r [->|Hin].
      * destruct (in_dec Nat.eq_dec r rs) as [Hi|Hn]; [now apply H5|].
        rewrite H6 by assumption. rewrite upd_same. tauto.
      * now apply H5.
    + intros r Hn. cbn in Hn. rewrite H6 by tauto.
      apply upd_other. intros ->. tauto.
    + intros Hnd. apply H7. destruct Emem as [-> | ->].
      * apply NoDup_remove_1 in Hnd. exact Hnd.
      * rewrite <- app_assoc. exact Hnd.
    + intros r Hr. apply H8 in Hr. destruct Hr as [Hr|Hr]; [|right; now right].
      destruct Emem as [E|E]; rewrite E in Hr; [now left|].
      apply in_app_or in Hr. destruct Hr as [Hr|[->|[]]]; [now left | right; now left].
Qed.

Lemma collect_contributions_loop_frame (rs : list nat) :
  forall (inst inst' : Institution) (heap heap' : Heap) (w w' : World),
    collect_contributions_loop rs inst heap w = (Some (inst', heap'), w') ->
    members inst' = members inst
    /\ kind inst' = kind inst
    /\ (forall r, same_totals (heap' r) (heap r)).
Proof.
  induction rs as [|r rs IH]; intros inst inst' heap heap' w w' H.
  - cbn in H. injection H as <- <- <-. repeat split; auto.
  - cbn [collect_contributions_loop] in H. unfold bind at 1 in H.
    destruct (decide_contribution _ _ w) as [[a|] w1] eqn:Ed; [|discriminate].
    apply decide_contribution_Some in Ed. destruct Ed as [Hs _].
    apply IH in H. destruct H as (Hm & Hk & Hf). cbn in Hm, Hk.
    split; [exact Hm|]. split; [exact Hk|].
    intros r0. eapply same_totals_trans; [apply Hf|].
    destruct (Nat.eq_dec r0 r) as [->|Hne].
    + rewrite upd_same. now apply same_but_contribution_totals.
    + rewrite upd_other by assumption. apply same_totals_refl.
Qed.

Lemma collect_contributions_frame (inst inst' : Institution) (heap heap' : Heap)
    (w w' : World) :
  collect_contributions inst heap w = (Some (inst', heap'), w') ->
  members inst' = members inst
  /\ kind inst' = kind inst
  /\ (forall r, same_totals (heap' r) (heap r)).
Proof.
  unfold collect_contributions. intros H.
  apply collect_contributions_loop_frame in H. exact H.
Qed.

Lemma distribute_public_goods_frame (inst : Institution) (heap : Heap) :
  members (distribute_public_goods inst heap) = members inst
  /\ kind (distribute_public_goods inst heap) = kind inst.
Proof.
  unfold distribute_public_goods.
  assert (G : forall rs i,
             members (fold_left
               (fun (self : Institution) (r : nat) =>
                  set_stage1_payoffs
                    (dict_set Z.eqb (agent_id (heap r))
                       (get_stage1_payoff (heap r) (group_size self)
                          (total_contribution self)) (stage1_payoffs self)) self)
               rs i) = members i
             /\ kind (fold_left
               (fun (self : Institution) (r : nat) =>
                  set_stage1_payoffs
                    (dict_set Z.eqb (agent_id (heap r))
                       (get_stage1_payoff (heap r) (group_size self)
                          (total_contribution self)) (stage1_payoffs self)) self)
               rs i) = kind i).
  { induction rs as [|r rs IH]; intros i; [auto|].
    cbn [fold_left]. destruct (IH (set_stage1_payoffs
      (dict_set Z.eqb (agent_id (heap r))
         (get_stage1_payoff (heap r) (group_size i) (total_contribution i))
         (stage1_payoffs i)) i)) as [E1 E2].
    rewrite E1, E2. auto. }
  apply G.
Qed.

Lemma handle_loop_frame (rs : list nat) :
  forall (inst inst' : Institution) (heap heap' : Heap) (w w' : World),
    handle_punishments_and_rewards_loop rs inst heap w = (Some (inst', heap'), w') ->
    members inst' = members inst /\ kind inst' = kind inst.
Proof.
  induction rs as [|r0 rs IH]; intros inst inst' heap heap' w w' H.
  - cbn in H. injection H as <- <- <-. auto.
  - cbn [handle_punishments_and_rewards_loop] in H. unfold bind at 1 in H.
    destruct (assign_punishment _ _ w) as [[[[p q] a]|] w1]; [|discriminate].
    apply IH in H. exact H.
Qed.

Lemma handle_frame (inst inst' : Institution) (heap heap' : Heap) (w w' : World) :
  handle_punishments_and_rewards inst heap w = (Some (inst', heap'), w') ->
  members inst' = members inst /\ kind inst' = kind inst
  /\ (forall r, same_totals (heap' r) (heap r)).
Proof.
  unfold handle_punishments_and_rewards. intros H. destruct (kind inst) eqn:K.
  - pose proof (handle_loop_frame _ _ _ _ _ _ _ H) as [E1 E2].
    split; [exact E1|]. split; [congruence|].
    intros r. destruct (handle_loop_received _ _ _ _ _ _ _ H r) as (A & B & C).
    unfold same_totals. auto.
  - cbn in H. injection H as <- <- <-. repeat split; auto.
Qed.

Lemma fold_upd_frame (f : Heap -> nat -> Agent) (rs : list nat) :
  (forall h r, same_totals (f h r) (h r)) ->
  forall heap r, same_totals (fold_left (fun h r => upd h r (f h r)) rs heap r) (heap r).
Proof.
  intros Hf. induction rs as [|r0 rs IH]; intros heap r; [apply same_totals_refl|].
  cbn [fold_left]. eapply same_totals_trans; [apply IH|].
  destruct (Nat.eq_dec r r0) as [->|Hne].
  - rewrite upd_same. apply Hf.
  - rewrite upd_other by assumption. apply same_totals_refl.
Qed.

Lemma calculate_payoffs_frame (env : Environment) (heap : Heap) (r : nat) :
  same_totals (calculate_payoffs env heap r) (heap r).
Proof.
  unfold calculate_payoffs.
  eapply same_totals_trans.
  - apply (fold_upd_frame
             (fun h r => update_payoff
                (num_add (dict_get_default Z.eqb (agent_id (h r)) (NInt 0)
                            (stage1_payoffs (sfi env))) (NInt ENDOWMENT_STAGE_2)) (h r))).
    intros h r'. unfold same_totals. cbn. auto.
  - apply (fold_upd_frame
             (fun h r => update_payoff
                (num_add (dict_get_default Z.eqb (agent_id (h r)) (NInt 0)
                            (stage1_payoffs (si env)))
                         (NInt (get_stage2_payoff (h r)))) (h r))).
    intros h r'. unfold same_totals. cbn. auto.
Qed.

Lemma record_agents_frame (env : Environment) (ranks : list (Z * Z)) (n : Z)
    (rs : list nat) :
  forall (ra ra' : list (Z * StrDict)) (h h' : Heap),
    record_agents env ranks n rs ra h = Some (ra', h') ->
    forall r, same_totals (h' r) (h r).
Proof.
  induction rs as [|r0 rs IH]; intros ra ra' h h' H r.
  - cbn in H. injection H as <- <-. apply same_totals_refl.
  - cbn [record_agents] in H.
    destruct (dict_get Z.eqb (agent_id (h r0)) ranks) as [rank|]; cbn [obind] in H;
      [|discriminate].
    eapply same_totals_trans; [exact (IH _ _ _ _ H r)|].
    destruct (Nat.eq_dec r r0) as [->|Hne].
    + rewrite upd_same. unfold same_totals. cbn. auto.
    + rewrite upd_other by assumption. apply same_totals_refl.
Qed.

Lemma stage_anonymous_data_frame (env : Environment) (ra : list (Z * StrDict))
    (rs : list nat) :
  forall (h h' : Heap),
    stage_anonymous_data env ra rs h = Some h' ->
    forall r, same_totals (h' r) (h r).
Proof.
  induction rs as [|r0 rs IH]; intros h h' H r.
  - cbn in H. injection H as <-. apply same_totals_refl.
  - cbn [stage_anonymous_data] in H.
    destruct (anonymous_data_list ra h (agent_id (h r0)) (agents env)) as [batch|];
      cbn [obind] in H; [|discriminate].
    eapply same_totals_trans; [exact (IH _ _ H r)|].
    destruct (Nat.eq_dec r r0) as [->|Hne].
    + rewrite upd_same. unfold same_totals. cbn. auto.
    + rewrite upd_other by assumption. apply same_totals_refl.
Qed.

Lemma record_round_history_frame (env env' : Environment) (heap heap' : Heap) :
  record_round_history env heap = Some (env', heap') ->
  agents env' = agents env /\ si env' = si env /\ sfi env' = sfi env
  /\ (forall r, same_totals (heap' r) (heap r)).
Proof.
  unfold record_round_history. intros H.
  destruct (record_agents _ _ _ _ _ _) as [[ra heap1]|] eqn:E1; cbn [obind] in H;
    [|discriminate].
  destruct (stage_anonymous_data _ _ _ _) as [heap2|] eqn:E2; cbn [obind] in H;
    [|discriminate].
  injection H as <- <-. cbn. repeat split.
  all: destruct (stage_anonymous_data_frame _ _ _ _ _ E2 r) as (A1 & A2 & A3);
    destruct (record_agents_frame _ _ _ _ _ _ _ _ E1 r) as (B1 & B2 & B3); congruence.
Qed.

(** A round, end to end.  When it returns, every agent keeps its identity;
    the received totals of a member of the sanctioning institution are the
    tokens of its rows of the final matrices times the effects, and those of
    every other agent of the population are 0: the totals come from the
    apply phase alone, which sees the decisions of all members. *)
Lemma run_round_totals (env env' : Environment) (heap heap' : Heap) (w w' : World) :
  well_formed env ->
  NoDup (agents env) ->
  run_round env heap w = (Some (env', heap'), w') ->
  agents env' = agents env
  /\ well_formed env'
  /\ (forall r, agent_id (heap' r) = agent_id (heap r))
  /\ (forall r, In r (members (si env')) ->
        In r (agents env)
        /\ received_punishments (heap' r)
           = tokens_directed_at (agent_id (heap' r)) (punishment_matrix (si env'))
             * PUNISHMENT_EFFECT
        /\ received_rewards (heap' r)
           = tokens_directed_at (agent_id (heap' r)) (reward_matrix (si env'))
             * REWARD_EFFECT)
  /\ (forall r, In r (agents env) -> ~ In r (members (si env')) ->
        received_punishments (heap' r) = 0 /\ received_rewards (heap' r) = 0).
Proof.
  intros [Wsi Wsfi] Hnd H. unfold run_round in H. cbv zeta in H.
  apply bind_Some in H. destruct H as ([env1 heap1] & w1 & E1 & H).
  apply bind_Some in H. destruct H as ([si1 heap2] & w2 & E2 & H).
  apply bind_Some in H. destruct H as ([sfi1 heap3] & w3 & E3 & H).
  apply bind_Some in H. destruct H as ([si2 heap4] & w4 & E4 & H).
  apply choose_institutions_spec in E1.
  cbn [agents kind members si sfi set_si set_sfi] in E1.
  destruct E1 as (Ag1 & Ks1 & Kf1 & Id1 & Z1 & _ & Nd1 & In1).
  assert (Ksi : kind (si env1) = SI).
  { rewrite Ks1. unfold reset_institution. cbn. now rewrite Wsi. }
  assert (Ksfi : kind (sfi env1) = SFI).
  { rewrite Kf1. unfold reset_institution. cbn. now rewrite Wsfi. }
  assert (Msi0 : members (reset_institution (current_round env) (si env)) = []).
  { unfold reset_institution. cbn. now rewrite Wsi. }
  rewrite Msi0 in Nd1, In1. cbn in Nd1, In1. specialize (Nd1 Hnd).
  apply collect_contributions_frame in E2. destruct E2 as (M2 & K2 & F2).
  apply collect_contributions_frame in E3. destruct E3 as (M3 & K3 & F3).
  cbn [si sfi set_si set_sfi] in E4.
  apply handle_frame in E4. destruct E4 as (M4 & K4 & F4).
  destruct (distribute_public_goods_frame si1 heap3) as [M5 K5].
  destruct (distribute_public_goods_frame sfi1 heap3) as [M6 K6].
  rewrite M5, M2 in M4. rewrite K5, K2, Ksi in K4.
  cbn [si sfi set_si set_sfi] in H. unfold lift in H.
  destruct (record_round_history _ _) as [[env2 heap5]|] eqn:E5; [|discriminate].
  injection H as <- <- <-.
  apply record_round_history_frame in E5.
  cbn [agents si sfi set_si set_sfi] in E5.
  destruct E5 as (Ag5 & Si5 & Sfi5 & F5).
  assert (Hmem : members (si env2) = members (si env1)) by (rewrite Si5; exact M4).
  assert (T4 : forall r, same_totals (heap4 r) (heap1 r)).
  { intros r. eapply same_totals_trans; [apply F4|].
    eapply same_totals_trans; [apply F3 | apply F2]. }
  assert (T5 : forall r,
             same_totals (heap5 r) (apply_punishments_and_rewards si2 heap4 r)).
  { intros r. eapply same_totals_trans; [apply F5 | apply calculate_payoffs_frame]. }
  assert (Nd4 : NoDup (members si2)) by (rewrite M4; exact Nd1).
  split; [congruence|]. split.
  { unfold well_formed. rewrite Si5, Sfi5. split; [exact K4 | congruence]. }
  split; [|split].
  - intros r. destruct (T5 r) as (A & _ & _). rewrite A.
    destruct (in_dec Nat.eq_dec r (members si2)) as [Hi|Hn].
    + rewrite apply_phase_member by assumption. cbn.
      destruct (T4 r) as (B & _ & _). now rewrite B, Id1.
    + rewrite apply_phase_other by assumption.
      destruct (T4 r) as (B & _ & _). now rewrite B, Id1.
  - intros r Hr. rewrite Si5 in *.
    assert (Hr1 : In r (members (si env1))) by (rewrite <- M4; exact Hr).
    assert (Hag : In r (agents env)).
    { destruct (In1 r Hr1) as [[]|Hag]. exact Hag. }
    split; [exact Hag|].
    destruct (T5 r) as (A & B & C). rewrite A, B, C.
    rewrite apply_phase_member by assumption. cbn.
    destruct (T4 r) as (_ & B4 & C4). destruct (Z1 r Hag) as [Z1p Z1r].
    rewrite B4, C4, Z1p, Z1r. split; lia.
  - intros r Hag Hn. rewrite Si5 in Hn.
    destruct (T5 r) as (_ & B & C). rewrite B, C.
    rewrite apply_phase_other by assumption.
    destruct (T4 r) as (_ & B4 & C4). destruct (Z1 r Hag) as [Z1p Z1r].
    rewrite B4, C4. auto.
Qed.

(** The state in which a round that returns has called
    [record_round_history]: the population and the identities are those of
    the start of the round. *)
Lemma run_round_record (env env' : Environment) (heap heap' : Heap) (w w' : World) :
  well_formed env ->
  NoDup (agents env) ->
  run_round env heap w = (Some (env', heap'), w') ->
  exists env4 heap4,
    record_round_history env4 heap4 = Some (env', heap')
    /\ agents env4 = agents env
    /\ (forall r, agent_id (heap4 r) = agent_id (heap r)).
Proof.
  intros [Wsi Wsfi] Hnd H. unfold run_round in H. cbv zeta in H.
  apply bind_Some in H. destruct H as ([env1 heap1] & w1 & E1 & H).
  apply bind_Some in H. destruct H as ([si1 heap2] & w2 & E2 & H).
  apply bind_Some in H. destruct H as ([sfi1 heap3] & w3 & E3 & H).
  apply bind_Some in H. destruct H as ([si2 heap4] & w4 & E4 & H).
  apply choose_institutions_spec in E1.
  cbn [agents kind members si sfi set_si set_sfi] in E1.
  destruct E1 as (Ag1 & Ks1 & _ & Id1 & _ & _ & Nd1 & _).
  assert (Ksi : kind (si env1) = SI).
  { rewrite Ks1. unfold reset_institution. cbn. now rewrite Wsi. }
  assert (Msi0 : members (reset_institution (current_round env) (si env)) = []).
  { unfold reset_institution. cbn. now rewrite Wsi. }
  rewrite Msi0 in Nd1. cbn in Nd1. specialize (Nd1 Hnd).
  apply collect_contributions_frame in E2. destruct E2 as (M2 & K2 & F2).
  apply collect_contributions_frame in E3. destruct E3 as (_ & _ & F3).
  cbn [si sfi set_si set_sfi] in E4.
  apply handle_frame in E4. destruct E4 as (M4 & K4 & F4).
  destruct (distribute_public_goods_frame si1 heap3) as [M5 K5].
  rewrite M5, M2 in M4. rewrite K5, K2, Ksi in K4.
  cbn [si sfi set_si set_sfi] in H. unfold lift in H.
  destruct (record_round_history _ _) as [[env2 heap5]|] eqn:E5; [|discriminate].
  injection H as <- <- <-.
  eexists _, _. split; [exact E5|]. split; [exact Ag1|].
  intros r. destruct (calculate_payoffs_frame
                        (set_si si2
                           (set_sfi (distribute_public_goods sfi1 heap3)
                              (set_si (distribute_public_goods si1 heap3)
                                 (set_sfi sfi1 (set_si si1 env1)))))
                        (apply_punishments_and_rewards si2 heap4) r) as (A & _ & _).
  cbn [si set_si] in A |- *. rewrite A.
  assert (B : agent_id (apply_punishments_and_rewards si2 heap4 r) = agent_id (heap4 r)).
  { destruct (in_dec Nat.eq_dec r (members si2)) as [Hi|Hn].
    - rewrite apply_phase_member; [reflexivity | exact K4 | | exact Hi].
      rewrite M4. exact Nd1.
    - now rewrite apply_phase_other. }
  rewrite B. destruct (F4 r) as (C4 & _ & _). destruct (F3 r) as (C3 & _ & _).
  destruct (F2 r) as (C2 & _ & _). congruence.
Qed.

(** ** The population over the rounds *)

(** The identities of the population that [main] builds are distinct. *)
Lemma population_ids_initial (num_agents : nat) :
  NoDup (population_ids (initial_environment num_agents) initial_heap)
  /\ NoDup (agents (initial_environment num_agents))
  /\ well_formed (initial_environment num_agents).
Proof. detach.
  split; [|split; [apply seq_NoDup | split; reflexivity]].
  unfold population_ids, initial_environment, new_environment, initial_heap. cbn.
  apply Finite.Injective_map_NoDup; [|apply seq_NoDup].
  intros a b E. now apply Nat2Z.inj.
Qed.

Lemma run_rounds_succ (count : nat) (first : Z) (env : Environment) (heap : Heap) :
  run_rounds (S count) first env heap
  = bind (run_round (set_current_round first env) heap)
         (fun '(env, heap) => run_rounds count (first + 1) env heap).
Proof. reflexivity. Qed.

(** The rounds of a simulation keep the population and its identities. *)
Lemma run_rounds_population (count : nat) :
  forall (first : Z) (env env' : Environment) (heap heap' : Heap) (w w' : World),
    well_formed env ->
    NoDup (agents env) ->
    run_rounds count first env heap w = (Some (env', heap'), w') ->
    well_formed env'
    /\ agents env' = agents env
    /\ population_ids env' heap' = population_ids env heap.
Proof.
  induction count as [|count IH]; intros first env env' heap heap' w w' Hwf Hnd H.
  - cbn in H. injection H as <- <- <-. auto.
  - rewrite run_rounds_succ in H. apply bind_Some in H.
    destruct H as ([env1 heap1] & w1 & E & H).
    apply run_round_totals in E; [|exact Hwf | exact Hnd].
    destruct E as (Ag & Wf1 & Id & _ & _). cbn [agents set_current_round] in Ag.
    apply IH in H; [|exact Wf1 | now rewrite Ag].
    destruct H as (Wf' & Ag' & Ids).
    split; [exact Wf'|]. split; [congruence|].
    rewrite Ids. unfold population_ids. rewrite Ag.
    apply map_ext. exact Id.
Qed.

(** After any number of rounds of a simulation of the population that
    [main] builds, the identities are distinct: the ranks and the
    anonymized batches of the next round are those of distinct agents. *)
Lemma simulation_population (num_agents count : nat) (env' : Environment)
    (heap' : Heap) (w w' : World) :
  run_rounds count 1 (initial_environment num_agents) initial_heap w
    = (Some (env', heap'), w') ->
  well_formed env' /\ NoDup (agents env') /\ NoDup (population_ids env' heap').
Proof.
  intros H. destruct (population_ids_initial num_agents) as (Hids & Hnd & Hwf).
  apply run_rounds_population in H; [|exact Hwf | exact Hnd].
  destruct H as (Wf & Ag & Ids).
  split; [exact Wf|]. split; [now rewrite Ag | now rewrite Ids].
Qed.

(** C2. The decide phase [handle_punishments_and_rewards] changes the
    received punishment and reward totals of no agent.  The apply phase
    [apply_punishments_and_rewards] adds to the received-punishment total of
    each member the punishment tokens of its row of the punishment matrix
    (the sum over all punishers) times [PUNISHMENT_EFFECT], and to its
    received-reward total the tokens of its row of the reward matrix times
    [REWARD_EFFECT]; it changes no agent that is no member.  In a round the
    apply phase comes after the decide phase of all members: at the end of
    [run_round] the received totals of a member of the sanctioning
    institution are the tokens of its rows of the final matrices times the
    effects, and those of the other agents are 0. *)
Theorem decide_phase_then_apply_phase :
  (forall (inst inst' : Institution) (heap heap' : Heap) (w w' : World),
      handle_punishments_and_rewards inst heap w = (Some (inst', heap'), w') ->
      forall r, received_punishments (heap' r) = received_punishments (heap r)
                /\ received_rewards (heap' r) = received_rewards (heap r))
  /\ (forall (inst : Institution) (heap : Heap),
         kind inst = SI ->
         NoDup (members inst) ->
         forall r, In r (members inst) ->
           let heap' := apply_punishments_and_rewards inst heap in
           received_punishments (heap' r)
           = received_punishments (heap r)
             + tokens_directed_at (agent_id (heap r)) (punishment_matrix inst)
               * PUNISHMENT_EFFECT
           /\ received_rewards (heap' r)
              = received_rewards (heap r)
                + tokens_directed_at (agent_id (heap r)) (reward_matrix inst)
                  * REWARD_EFFECT)
  /\ (forall (inst : Institution) (heap : Heap) (r : nat),
         ~ In r (members inst) ->
         apply_punishments_and_rewards inst heap r = heap r)
  /\ (forall (env env' : Environment) (heap heap' : Heap) (w w' : World),
         well_formed env ->
         NoDup (agents env) ->
         run_round env heap w = (Some (env', heap'), w') ->
         (forall r, In r (members (si env')) ->
            received_punishments (heap' r)
            = tokens_directed_at (agent_id (heap' r)) (punishment_matrix (si env'))
              * PUNISHMENT_EFFECT
            /\ received_rewards (heap' r)
               = tokens_directed_at (agent_id (heap' r)) (reward_matrix (si env'))
                 * REWARD_EFFECT)
         /\ (forall r, In r (agents env) -> ~ In r (members (si env')) ->
               received_punishments (heap' r) = 0 /\ received_rewards (heap' r) = 0)).
Proof.
  split; [|split; [|split]].
  - intros inst inst' heap heap' w w' H r.
    destruct (handle_frame _ _ _ _ _ _ H) as (_ & _ & F).
    destruct (F r) as (_ & A & B). auto.
  - intros inst heap Hk Hnd r Hin heap'. unfold heap'.
    rewrite apply_phase_member by assumption. cbn. split; reflexivity.
  - intros inst heap r Hn. now apply apply_phase_other.
  - intros env env' heap heap' w w' Hwf Hnd H.
    destruct (run_round_totals _ _ _ _ _ _ Hwf Hnd H) as (_ & _ & _ & Hm & Ho).
    split; [|exact Ho]. intros r Hr. destruct (Hm r Hr) as (_ & A & B). auto.
Qed.

(* ===================================================================== *)
(** * Further properties of the round engine *)
(* ===================================================================== *)

(** ** The parser of the institution choice *)

(** [parse_institution_choice_response] always leaves a choice, ['SI'] or
    ['SFI'].  It is ['SI'] exactly when the reply holds a JSON object whose
    [institution_choice] is a string that reads SI in upper case; any other
    string gives ['SFI'] and keeps the reasoning of the reply; a reply that
    does not parse, or whose choice is no string, gives ['SFI'] and the
    empty reasoning.  The two fields [institution_choice] and
    [institution_reasoning] are all that changes in the agent: with these
    two cleared, the agent after the call is the agent before it. *)
Theorem institution_choice_parsed :
  forall (self : Agent) (response : string),
    let self' := parse_institution_choice_response self response in
    (institution_choice self' = Some SI \/ institution_choice self' = Some SFI)
    /\ (institution_choice self' = Some SI <->
        exists d s,
          json_loads (extract_json response) = Some (JDict d)
          /\ dict_get_default String.eqb "institution_choice" (JStr "") d = JStr s
          /\ str_upper s = "SI")
    /\ (forall d s,
          json_loads (extract_json response) = Some (JDict d) ->
          dict_get_default String.eqb "institution_choice" (JStr "") d = JStr s ->
          institution_reasoning self'
          = dict_get_default String.eqb "reasoning" (JStr "") d)
    /\ ((forall d s,
           json_loads (extract_json response) = Some (JDict d) ->
           dict_get_default String.eqb "institution_choice" (JStr "") d <> JStr s) ->
        institution_choice self' = Some SFI /\ institution_reasoning self' = JStr "")
    /\ same_but_parsed_choice self' self.
Proof.
  intros self response self'. unfold self', parse_institution_choice_response,
    try_parse_institution_choice, same_but_parsed_choice.
  destruct (json_loads (extract_json response)) as [data|]; cbn [obind].
  2:{ cbn. split; [auto|]. split; [|split; [|split]]; try reflexivity.
      - split; [discriminate | intros (d & s & H & _); discriminate].
      - intros d s H; discriminate.
      - auto. }
  destruct data as [| b | z | f | s0 | l | d]; cbn [py_get obind].
  1-6: cbn; split; [auto|]; split; [|split; [|split]]; try reflexivity;
    [ split; [discriminate | intros (d & s & H & _); discriminate]
    | intros d s H; discriminate
    | auto ].
  destruct (dict_get_default String.eqb "institution_choice" (JStr "") d)
    as [| b | z | f | s | l | d'] eqn:Ec.
  1-4,6-7: cbn; split; [auto|]; split; [|split; [|split]]; try reflexivity;
    [ split; [discriminate | intros (d0 & s0 & H & H' & _); congruence]
    | intros d0 s0 H H'; congruence
    | auto ].
  cbn [obind].
  destruct (String.eqb (str_upper s) "SI") eqn:Eu.
  - cbn. split; [auto|]. split; [|split; [|split]]; try reflexivity.
    + split; [|reflexivity]. intros _. exists d, s.
      apply String.eqb_eq in Eu. auto.
    + intros d0 s0 [= <-] _. reflexivity.
    + intros H. exfalso. exact (H d s eq_refl Ec).
  - assert (Hsfi : (if String.eqb (str_upper s) "SFI"
                    then Some (SFI, dict_get_default String.eqb "reasoning" (JStr "") d)
                    else Some (SFI, dict_get_default String.eqb "reasoning" (JStr "") d))
                   = Some (SFI, dict_get_default String.eqb "reasoning" (JStr "") d))
      by (destruct (String.eqb (str_upper s) "SFI"); reflexivity).
    rewrite Hsfi. cbn. split; [auto|]. split; [|split; [|split]]; try reflexivity.
    + split; [discriminate|]. intros (d0 & s0 & [= <-] & H' & Hu).
      rewrite Ec in H'. injection H' as <-.
      apply String.eqb_neq in Eu. contradiction.
    + intros d0 s0 [= <-] _. reflexivity.
    + intros H. exfalso. exact (H d s eq_refl Ec).
Qed.

(** ** Whom the allocations name *)

Lemma table_fold_values (l : list Agent) :
  forall (s : Z) (d : list (string * Agent)) (key : string) (m : Agent),
    dict_get String.eqb key (fold_left table_step (enumerate_from s l) d) = Some m ->
    In m l \/ dict_get String.eqb key d = Some m.
Proof.
  induction l as [|x l IH]; intros s d key m H; [now right|].
  cbn [enumerate_from fold_left table_step] in H.
  apply IH in H. destruct H as [H|H]; [left; now right|].
  destruct (String.eqb key (str_of_Z (s + 1))) eqn:E.
  - apply String.eqb_eq in E. subst key. rewrite sdict_get_set_same in H.
    injection H as <-. left. now left.
  - apply String.eqb_neq in E. rewrite sdict_get_set_other in H by assumption.
    now right.
Qed.

(** The alias table resolves to members of the snapshot only. *)
Lemma anonymized_number_to_agent_member (members : list Agent) (key : string)
    (m : Agent) :
  dict_get String.eqb key (anonymized_number_to_agent members) = Some m -> In m members.
Proof.
  unfold anonymized_number_to_agent.
  change (fun (d : list (string * Agent)) '(i, agent) =>
            dict_set String.eqb (str_of_Z (i + 1)) agent d) with table_step.
  intros H. apply table_fold_values in H. destruct H as [H|H]; [exact H|discriminate].
Qed.

Lemma process_allocations_keys (n : Z) (members : list Agent)
    (items : list (string * json)) :
  forall allocations remaining allocations' remaining',
    process_allocations n (anonymized_number_to_agent members) items allocations remaining
      = Some (allocations', remaining') ->
    forall k, In k (dict_keys allocations') ->
      In k (dict_keys allocations) \/ In k (map agent_id members).
Proof.
  induction items as [|[key tokens] items IH]; cbn [process_allocations];
    intros a r a' r' H k Hk.
  - injection H as <- <-. now left.
  - destruct (int_of_str (clean_agent_key key)) as [num|]; [|eauto].
    destruct ((1 <=? num) && (num <=? n))%bool; [|eauto].
    destruct (py_int tokens) as [t|]; cbn [obind] in H; [|discriminate].
    destruct (dict_get String.eqb (str_of_Z num) _) as [agent|] eqn:Ea;
      cbn [obind] in H; [|discriminate].
    apply anonymized_number_to_agent_member in Ea.
    assert (Hset : forall k0, In k0 (dict_keys (dict_set Z.eqb (agent_id agent)
                                       (Z.max 0 (Z.min t r)) a)) ->
                     In k0 (dict_keys a) \/ In k0 (map agent_id members)).
    { intros k0 Hk0. apply dict_keys_set in Hk0. destruct Hk0 as [-> | Hk0].
      - right. apply in_map. exact Ea.
      - now left. }
    destruct (r - Z.max 0 (Z.min t r) <=? 0).
    + injection H as <- <-. now apply Hset.
    + destruct (IH _ _ _ _ H k Hk) as [H1|H1]; [now apply Hset | now right].
Qed.

Lemma nonneg_values_le_sum (d : list (Z * Z)) (k v : Z) :
  nonneg_values d -> In (k, v) d -> 0 <= v <= sum_values d.
Proof. detach.
  intros Hd. induction Hd as [|[k' v'] d Hv Hd IH]; intros Hin; [contradiction|].
  rewrite sum_values_cons. cbn in Hv.
  assert (Hs : 0 <= sum_values d).
  { clear IH Hin. induction Hd as [|[k1 v1] d1 H1 Hd1 IH1].
    - unfold sum_values. cbn. lia.
    - rewrite sum_values_cons. cbn in H1. lia. }
  destruct Hin as [[= -> ->]|Hin]; [lia|].
  specialize (IH Hin). lia.
Qed.

(** The two dicts of a reply that parsed, with their budget. *)
Lemma try_parse_punishment_dicts (self self' : Agent) (response : string)
    (gs : GroupState) (w w' : World) (p r : list (Z * Z)) :
  try_parse_punishment self response gs w = (Some (p, r, self'), w') ->
  nonneg_values p /\ nonneg_values r
  /\ sum_values p + sum_values r <= ENDOWMENT_STAGE_2
  /\ (forall k, In k (dict_keys p) \/ In k (dict_keys r) ->
        In k (map agent_id (gs_members gs))).
Proof.
  intros H. apply try_parse_punishment_Some in H.
  destruct H as (data & pitems & ritems & rem & rem' & _ & _ & _ & Hp & Hr).
  pose proof (process_allocations_keys _ _ _ _ _ _ _ Hp) as Kp.
  pose proof (process_allocations_keys _ _ _ _ _ _ _ Hr) as Kr.
  apply process_allocations_budget in Hp; [|unfold ENDOWMENT_STAGE_2; lia | constructor].
  destruct Hp as (Hp1 & Hp2 & Hp3).
  apply process_allocations_budget in Hr; [|assumption | constructor].
  destruct Hr as (Hr1 & Hr2 & Hr3).
  change (sum_values (@nil (Z * Z))) with 0 in *.
  split; [exact Hp2|]. split; [exact Hr2|]. split; [lia|].
  intros k [Hk|Hk]; [destruct (Kp k Hk) as [[]|H] | destruct (Kr k Hk) as [[]|H]];
    exact H.
Qed.

(** The same for the value of [parse_punishment_response], whose failure
    path returns two empty dicts. *)
Lemma parse_punishment_response_dicts (self : Agent) (response : string)
    (gs : GroupState) (w : World) :
  let '((p, r, _), _) := parse_punishment_response self response gs w in
  nonneg_values p /\ nonneg_values r
  /\ sum_values p + sum_values r <= ENDOWMENT_STAGE_2
  /\ (forall k, In k (dict_keys p) \/ In k (dict_keys r) ->
        In k (map agent_id (gs_members gs))).
Proof.
  unfold parse_punishment_response.
  destruct (try_parse_punishment self response gs w) as [[[[p r] self']|] w'] eqn:E.
  - exact (try_parse_punishment_dicts _ _ _ _ _ _ _ _ E).
  - split; [constructor|]. split; [constructor|].
    split; [unfold sum_values, ENDOWMENT_STAGE_2; cbn; lia|].
    intros k [[]|[]].
Qed.

(** What [assign_punishment] changes in the agent, and the dicts that it
    stores. *)
Lemma assign_punishment_frame (self self' : Agent) (gs : GroupState) (w w' : World)
    (p r : list (Z * Z)) :
  assign_punishment self gs w = (Some (p, r, self'), w') ->
  same_but_sanction_decision self' self
  /\ assigned_punishments self' = p /\ assigned_rewards self' = r
  /\ nonneg_values p /\ nonneg_values r
  /\ sum_values p + sum_values r <= ENDOWMENT_STAGE_2
  /\ (forall k, In k (dict_keys p) \/ In k (dict_keys r) ->
        In k (map agent_id (gs_members gs))).
Proof.
  unfold assign_punishment, bind, lift, ret, raise. intros H.
  destruct (construct_punishment_prompt self gs) as [[prompt self1]|] eqn:Ep;
    [|discriminate].
  assert (H1 : same_but_sanction_decision self1 self).
  { unfold construct_punishment_prompt in Ep.
    destruct (get_past_actions_string self); cbn [obind] in Ep; [|discriminate].
    destruct (alias_members _ _ _) as [mapping lines].
    destruct (anonymous_history_section _ _); cbn [obind] in Ep; [|discriminate].
    injection Ep as _ <-. reflexivity. }
  destruct (send_request prompt w) as [[resp|] w1]; [|discriminate].
  destruct (dump_info (agent_id self1) prompt resp w1) as [[u|] w2]; [|discriminate].
  pose proof (parse_punishment_response_dicts self1 resp gs w2) as Hd.
  assert (H2 : same_but_sanction_decision
                 (snd (fst (parse_punishment_response self1 resp gs w2))) self1).
  { unfold parse_punishment_response.
    destruct (try_parse_punishment self1 resp gs w2) as [[[[p' r'] self2]|] w3] eqn:Et;
      [|reflexivity].
    cbn [fst snd]. unfold try_parse_punishment, bind, lift, ret, raise in Et.
    destruct (json_loads (extract_json resp)) as [data|]; [|discriminate].
    destruct (py_get "punishments" (JDict []) data) as [pun|]; [|discriminate].
    destruct (py_get "rewards" (JDict []) data) as [rew|]; [|discriminate].
    destruct (py_get "reasoning" (JStr "") data) as [reasoning|]; [|discriminate].
    destruct (deanonymize_reasoning _ reasoning w2) as [[dr|] w4]; [|discriminate].
    destruct (py_items pun) as [pitems|]; [|discriminate].
    destruct (process_allocations _ _ pitems [] ENDOWMENT_STAGE_2) as [[pa rem]|];
      [|discriminate].
    destruct (py_items rew) as [ritems|]; [|discriminate].
    destruct (process_allocations _ _ ritems [] rem) as [[ra rem']|]; [|discriminate].
    injection Et as _ _ <- _. reflexivity. }
  destruct (parse_punishment_response self1 resp gs w2) as [[[p' r'] self2] w3].
  cbn [fst snd] in H2. injection H as <- <- <- <-.
  split; [|split; [reflexivity|split; [reflexivity|exact Hd]]].
  unfold same_but_sanction_decision in *. rewrite <- H1, <- H2. reflexivity.
Qed.

(** The snapshot that the sanctioning institution gives an agent does not
    hold an agent of its identity. *)
Lemma get_group_state_SI_others (inst : Institution) (heap : Heap) (requester : Agent) :
  kind inst = SI ->
  ~ In (agent_id requester)
       (map agent_id (gs_members (get_group_state inst heap requester))).
Proof. detach.
  intros Hk Hin. unfold get_group_state in Hin. rewrite Hk in Hin. cbn in Hin.
  apply in_map_iff in Hin. destruct Hin as (m & Hid & Hm).
  apply filter_In in Hm. destruct Hm as [_ Hm].
  rewrite Hid, Z.eqb_refl in Hm. discriminate.
Qed.

(** The dicts returned by [parse_punishment_response] name members of the
    group snapshot only, by their real identity, and every count is between
    0 and [ENDOWMENT_STAGE_2].  In the sanctioning institution the snapshot
    leaves the deciding agent out, so [assign_punishment] never stores an
    allocation of an agent to itself, and the identities it stores are
    those of members of the institution. *)
Theorem allocations_name_other_members :
  (forall (self : Agent) (response : string) (group_state : GroupState) (w : World),
      let '((punishments, rewards, _), _) :=
        parse_punishment_response self response group_state w in
      forall k v, In (k, v) punishments \/ In (k, v) rewards ->
        In k (map agent_id (gs_members group_state))
        /\ 0 <= v <= ENDOWMENT_STAGE_2)
  /\ (forall (inst : Institution) (heap : Heap) (r : nat) (w w' : World)
             (punishments rewards : list (Z * Z)) (self' : Agent),
         kind inst = SI ->
         assign_punishment (heap r) (get_group_state inst heap (heap r)) w
           = (Some (punishments, rewards, self'), w') ->
         assigned_punishments self' = punishments
         /\ assigned_rewards self' = rewards
         /\ dict_get Z.eqb (agent_id (heap r)) punishments = None
         /\ dict_get Z.eqb (agent_id (heap r)) rewards = None
         /\ (forall k, In k (dict_keys punishments) \/ In k (dict_keys rewards) ->
               exists r', In r' (members inst) /\ agent_id (heap r') = k)).
Proof.
  split.
  - intros self response gs w.
    pose proof (parse_punishment_response_dicts self response gs w) as H.
    destruct (parse_punishment_response self response gs w) as [[[p r] self'] w'].
    destruct H as (Np & Nr & Hs & Hk). intros k v Hin.
    assert (Sp : 0 <= sum_values p).
    { clear - Np. induction Np as [|[k1 v1] d1 H1 Hd1 IH1];
        [unfold sum_values; cbn; lia | rewrite sum_values_cons; cbn in H1; lia]. }
    assert (Sr : 0 <= sum_values r).
    { clear - Nr. induction Nr as [|[k1 v1] d1 H1 Hd1 IH1];
        [unfold sum_values; cbn; lia | rewrite sum_values_cons; cbn in H1; lia]. }
    destruct Hin as [Hin|Hin].
    + split; [apply Hk; left; apply (in_map fst) in Hin; exact Hin|].
      pose proof (nonneg_values_le_sum p k v Np Hin). lia.
    + split; [apply Hk; right; apply (in_map fst) in Hin; exact Hin|].
      pose proof (nonneg_values_le_sum r k v Nr Hin). lia.
  - intros inst heap r w w' p q self' Hkind H.
    apply assign_punishment_frame in H.
    destruct H as (_ & Ap & Aq & _ & _ & _ & Hk).
    pose proof (get_group_state_SI_others inst heap (heap r) Hkind) as Hself.
    split; [exact Ap|]. split; [exact Aq|].
    split; [|split].
    + apply dict_get_None. intros Hin. apply Hself, Hk. now left.
    + apply dict_get_None. intros Hin. apply Hself, Hk. now right.
    + intros k Hin. apply Hk in Hin. unfold get_group_state in Hin.
      rewrite Hkind in Hin. cbn in Hin.
      apply in_map_iff in Hin. destruct Hin as (m & Hid & Hm).
      apply filter_In in Hm. destruct Hm as [Hm _].
      apply in_map_iff in Hm. destruct Hm as (r' & <- & Hr').
      exists r'. auto.
Qed.

(** ** Aliases: from [str] to [int] and back *)

Lemma is_digit_not_space (c : ascii) : is_digit c = true -> is_space c = false.
Proof. detach.
  unfold is_digit, is_space. intros H.
  apply andb_true_iff in H. destruct H as [H1 H2].
  apply Nat.leb_le in H1. apply Nat.leb_le in H2.
  apply orb_false_iff. split; [apply orb_false_iff; split|].
  - apply Nat.eqb_neq. lia.
  - apply andb_false_iff. right. apply Nat.leb_gt. lia.
  - apply andb_false_iff. right. apply Nat.leb_gt. lia.
Qed.

Lemma lstrip_no_space (c : ascii) (s : string) :
  is_space c = false -> lstrip (String c s) = String c s.
Proof. detach. intros H. cbn. now rewrite H. Qed.

Lemma rstrip_no_space (s : string) :
  (forall c, In c (list_ascii_of_string s) -> is_space c = false) -> rstrip s = s.
Proof. detach.
  induction s as [|c s IH]; intros H; [reflexivity|].
  cbn [rstrip]. rewrite IH by (intros c' Hc'; apply H; now right).
  destruct s; [|reflexivity].
  rewrite (H c) by now left. reflexivity.
Qed.

Lemma string_of_uint_digits (d : Decimal.uint) :
  forall c, In c (list_ascii_of_string (NilEmpty.string_of_uint d)) -> is_digit c = true.
Proof. detach.
  induction d; cbn; intros c Hc; try contradiction;
    (destruct Hc as [<-|Hc]; [reflexivity | now apply IHd]).
Qed.

(** One digit of the loop of [int], for the digit constructor [D] of
    value [v]. *)
Ltac read_digit IH D v :=
  cbn [NilEmpty.string_of_uint digits_value is_digit digit_value];
  match goal with
  | |- digits_value ?a true ?s = _ => rewrite (IH a true) by (now right)
  | _ => idtac
  end;
  match goal with
  | d : Decimal.uint |- _ =>
      change (Decimal.rev (D d)) with (Decimal.revapp d (D Decimal.Nil));
      rewrite DecimalPos.Unsigned.of_lu_revapp;
      change (DecimalPos.Unsigned.of_lu (D Decimal.Nil)) with v;
      cbn [DecimalPos.Unsigned.usize];
      rewrite N2Z.inj_succ, Z.pow_succ_r by lia;
      rewrite N2Z.inj_add, N2Z.inj_mul, N2Z.inj_pow
  end.

(** The digits of a decimal number, read by the loop of [int]. *)
Lemma digits_value_string_of_uint (d : Decimal.uint) :
  forall (acc : Z) (after_digit : bool),
    d <> Decimal.Nil \/ after_digit = true ->
    digits_value acc after_digit (NilEmpty.string_of_uint d)
    = Some (acc * 10 ^ Z.of_N (DecimalPos.Unsigned.usize d)
            + Z.of_N (DecimalPos.Unsigned.of_lu (Decimal.rev d))).
Proof. detach.
  induction d; intros acc b Hb.
  - destruct Hb as [Hb| ->]; [congruence|]. cbn. f_equal. lia.
  - change (digits_value acc b (NilEmpty.string_of_uint (Decimal.D0 d)))
      with (digits_value (10 * acc + 0) true (NilEmpty.string_of_uint d)).
    read_digit IHd Decimal.D0 0%N. f_equal. change (Z.of_N 0) with 0.
    change (Z.of_N 10) with 10. ring.
  - change (digits_value acc b (NilEmpty.string_of_uint (Decimal.D1 d)))
      with (digits_value (10 * acc + 1) true (NilEmpty.string_of_uint d)).
    read_digit IHd Decimal.D1 1%N. f_equal. change (Z.of_N 1) with 1.
    change (Z.of_N 10) with 10. ring.
  - change (digits_value acc b (NilEmpty.string_of_uint (Decimal.D2 d)))
      with (digits_value (10 * acc + 2) true (NilEmpty.string_of_uint d)).
    read_digit IHd Decimal.D2 2%N. f_equal. change (Z.of_N 2) with 2.
    change (Z.of_N 10) with 10. ring.
  - change (digits_value acc b (NilEmpty.string_of_uint (Decimal.D3 d)))
      with (digits_value (10 * acc + 3) true (NilEmpty.string_of_uint d)).
    read_digit IHd Decimal.D3 3%N. f_equal. change (Z.of_N 3) with 3.
    change (Z.of_N 10) with 10. ring.
  - change (digits_value acc b (NilEmpty.string_of_uint (Decimal.D4 d)))
      with (digits_value (10 * acc + 4) true (NilEmpty.string_of_uint d)).
    read_digit IHd Decimal.D4 4%N. f_equal. change (Z.of_N 4) with 4.
    change (Z.of_N 10) with 10. ring.
  - change (digits_value acc b (NilEmpty.string_of_uint (Decimal.D5 d)))
      with (digits_value (10 * acc + 5) true (NilEmpty.string_of_uint d)).
    read_digit IHd Decimal.D5 5%N. f_equal. change (Z.of_N 5) with 5.
    change (Z.of_N 10) with 10. ring.
  - change (digits_value acc b (NilEmpty.string_of_uint (Decimal.D6 d)))
      with (digits_value (10 * acc + 6) true (NilEmpty.string_of_uint d)).
    read_digit IHd Decimal.D6 6%N. f_equal. change (Z.of_N 6) with 6.
    change (Z.of_N 10) with 10. ring.
  - change (digits_value acc b (NilEmpty.string_of_uint (Decimal.D7 d)))
      with (digits_value (10 * acc + 7) true (NilEmpty.string_of_uint d)).
    read_digit IHd Decimal.D7 7%N. f_equal. change (Z.of_N 7) with 7.
    change (Z.of_N 10) with 10. ring.
  - change (digits_value acc b (NilEmpty.string_of_uint (Decimal.D8 d)))
      with (digits_value (10 * acc + 8) true (NilEmpty.string_of_uint d)).
    read_digit IHd Decimal.D8 8%N. f_equal. change (Z.of_N 8) with 8.
    change (Z.of_N 10) with 10. ring.
  - change (digits_value acc b (NilEmpty.string_of_uint (Decimal.D9 d)))
      with (digits_value (10 * acc + 9) true (NilEmpty.string_of_uint d)).
    read_digit IHd Decimal.D9 9%N. f_equal. change (Z.of_N 9) with 9.
    change (Z.of_N 10) with 10. ring.
Qed.

Lemma str_of_Z_chars (z : Z) :
  exists c s, str_of_Z z = String c s
    /\ (is_digit c = true \/ c = "-"%char)
    /\ (forall c', In c' (list_ascii_of_string (String c s)) -> is_space c' = false).
Proof. detach.
  unfold str_of_Z. destruct z as [|p|p]; cbn [Z.to_int NilZero.string_of_int].
  - exists "0"%char, "". split; [reflexivity|]. split; [now left|].
    intros c' [<-|[]]. reflexivity.
  - pose proof (DecimalPos.Unsigned.to_uint_nonnil p) as Hn.
    pose proof (string_of_uint_digits (Pos.to_uint p)) as Hd.
    destruct (Pos.to_uint p) as [|d|d|d|d|d|d|d|d|d|d]; [congruence|..];
      cbn [NilZero.string_of_uint NilEmpty.string_of_uint] in *;
      eexists _, _; (split; [reflexivity|]); (split; [now left|]);
      intros c' Hc'; apply is_digit_not_space, Hd, Hc'.
  - pose proof (string_of_uint_digits (Pos.to_uint p)) as Hd.
    pose proof (DecimalPos.Unsigned.to_uint_nonnil p) as Hn.
    eexists _, _. split; [reflexivity|]. split; [now right|].
    intros c' [<-|Hc']; [reflexivity|]. apply is_digit_not_space, Hd.
    destruct (Pos.to_uint p); [congruence|..]; exact Hc'.
Qed.

Lemma str_strip_str_of_Z (z : Z) : str_strip (str_of_Z z) = str_of_Z z.
Proof. detach.
  destruct (str_of_Z_chars z) as (c & s & E & _ & Hs). rewrite E.
  unfold str_strip. rewrite lstrip_no_space by (apply Hs; now left).
  now apply rstrip_no_space.
Qed.

Lemma digits_value_pos (p : positive) (after_digit : bool) :
  digits_value 0 after_digit (NilEmpty.string_of_uint (Pos.to_uint p)) = Some (Zpos p).
Proof. detach.
  rewrite digits_value_string_of_uint
    by (left; apply DecimalPos.Unsigned.to_uint_nonnil).
  rewrite <- DecimalPos.Unsigned.of_uint_alt, DecimalPos.Unsigned.of_to.
  reflexivity.
Qed.

(** [int(str(z))] is [z]. *)
Lemma int_of_str_of_Z (z : Z) : int_of_str (str_of_Z z) = Some z.
Proof. detach.
  unfold int_of_str. rewrite str_strip_str_of_Z. unfold str_of_Z.
  destruct z as [|p|p]; cbn [Z.to_int NilZero.string_of_int]; [reflexivity|..].
  - pose proof (DecimalPos.Unsigned.to_uint_nonnil p) as Hn.
    pose proof (digits_value_pos p false) as Hv.
    destruct (Pos.to_uint p) as [|d|d|d|d|d|d|d|d|d|d]; [congruence|..]; exact Hv.
  - pose proof (DecimalPos.Unsigned.to_uint_nonnil p) as Hn.
    pose proof (digits_value_pos p false) as Hv.
    replace (NilZero.string_of_uint (Pos.to_uint p))
      with (NilEmpty.string_of_uint (Pos.to_uint p))
      by (destruct (Pos.to_uint p); [congruence|..]; reflexivity).
    cbv iota beta. change (Ascii.eqb "-" "-") with true.
    rewrite Hv. reflexivity.
Qed.

Lemma endswith_char_app (c : ascii) (s : string) :
  endswith_char c (s ++ String c "") = true.
Proof. detach.
  induction s as [|d s IH]; cbn; [apply Ascii.eqb_refl|].
  destruct (s ++ String c "") eqn:E; [destruct s; discriminate | exact IH].
Qed.

Lemma substring_prefix (s t : string) : substring 0 (String.length s) (s ++ t) = s.
Proof. detach.
  induction s as [|c s IH]; cbn; [now destruct t | now rewrite IH].
Qed.

Lemma length_append (s t : string) :
  String.length (s ++ t) = (String.length s + String.length t)%nat.
Proof. detach. induction s as [|c s IH]; cbn; [reflexivity | now rewrite IH]. Qed.

Lemma list_ascii_append (s t : string) :
  list_ascii_of_string (s ++ t) = app (list_ascii_of_string s) (list_ascii_of_string t).
Proof. detach. induction s as [|c s IH]; cbn; [reflexivity | now rewrite IH]. Qed.

(** A key between a pair of double quotes, as the prompt asks for. *)
Lemma clean_agent_key_quoted (z : Z) :
  clean_agent_key (dq ++ str_of_Z z ++ dq) = str_of_Z z.
Proof. detach.
  destruct (str_of_Z_chars z) as (c & s & E & _ & Hs).
  unfold clean_agent_key.
  assert (Hstrip : str_strip (dq ++ str_of_Z z ++ dq) = dq ++ str_of_Z z ++ dq).
  { unfold str_strip. change (dq ++ str_of_Z z ++ dq)
      with (String double_quote (str_of_Z z ++ dq)).
    rewrite lstrip_no_space by reflexivity.
    apply rstrip_no_space. intros c' [<-|Hc']; [reflexivity|].
    rewrite list_ascii_append in Hc'. apply in_app_or in Hc'.
    destruct Hc' as [Hc'|[<-|[]]]; [|reflexivity].
    apply Hs. now rewrite <- E. }
  rewrite Hstrip.
  change (dq ++ str_of_Z z ++ dq) with (String double_quote (str_of_Z z ++ dq)).
  cbn [startswith_char]. rewrite Ascii.eqb_refl. cbn [andb].
  assert (Hend : endswith_char double_quote (String double_quote (str_of_Z z ++ dq)) = true).
  { rewrite E. cbn [endswith_char append]. unfold dq.
    destruct (s ++ String double_quote "") eqn:E1; [destruct s; discriminate|].
    rewrite <- E1. change (String c (s ++ String double_quote ""))
      with (String c s ++ String double_quote "").
    apply endswith_char_app. }
  rewrite Hend. unfold str_slice, slice_bound.
  cbn [String.length]. rewrite length_append. unfold dq. cbn [String.length].
  set (n := String.length (str_of_Z z)).
  assert (Hn : (0 < n)%nat) by (unfold n; rewrite E; cbn; lia).
  replace (Z.max 0 (Z.min (Z.of_nat (S (n + 1)))
             (if 1 <? 0 then 1 + Z.of_nat (S (n + 1)) else 1))) with 1
    by (change (1 <? 0) with false; cbv iota; lia).
  replace (Z.max 0 (Z.min (Z.of_nat (S (n + 1)))
             (if -1 <? 0 then -1 + Z.of_nat (S (n + 1)) else -1)))
    with (Z.of_nat (S n))
    by (change (-1 <? 0) with true; cbv iota; lia).
  replace (1 <? Z.of_nat (S n)) with true by (symmetry; apply Z.ltb_lt; lia).
  replace (Z.to_nat (Z.of_nat (S n) - 1)) with n by lia.
  change (Z.to_nat 1) with 1%nat. cbn [substring].
  apply substring_prefix.
Qed.

(** A bare key stays as it is. *)
Lemma clean_agent_key_bare (z : Z) : clean_agent_key (str_of_Z z) = str_of_Z z.
Proof. detach.
  unfold clean_agent_key. rewrite str_strip_str_of_Z.
  destruct (str_of_Z_chars z) as (c & s & E & Hc & _). rewrite E.
  cbn [startswith_char].
  replace (Ascii.eqb c double_quote) with false; [reflexivity|].
  symmetry. apply Ascii.eqb_neq. intros ->. destruct Hc as [Hc|Hc]; discriminate.
Qed.

(** [str] and [int] on alias keys: [int(str(z))] is [z], also through
    [clean_agent_key], and also when the key comes between a pair of
    double quotes inside the JSON string. *)
Theorem alias_text_round_trip :
  forall z : Z,
    int_of_str (str_of_Z z) = Some z
    /\ int_of_str (clean_agent_key (str_of_Z z)) = Some z
    /\ int_of_str (clean_agent_key (dq ++ str_of_Z z ++ dq)) = Some z.
Proof. detach.
  intros z. split; [apply int_of_str_of_Z|]. split.
  - rewrite clean_agent_key_bare. apply int_of_str_of_Z.
  - rewrite clean_agent_key_quoted. apply int_of_str_of_Z.
Qed.

(** ** The aliases of the prompt and of the parser *)

Lemma alias_members_lookup (l : list Agent) :
  forall (s : Z) (mapping : list (Z * Z)) (lines : list string) (k : Z),
    dict_get Z.eqb k (fst (alias_members (enumerate_from s l) mapping lines))
    = if ((s <? k) && (k <=? s + Z.of_nat (List.length l)))%bool
      then option_map agent_id (nth_error l (Z.to_nat (k - s - 1)))
      else dict_get Z.eqb k mapping.
Proof. detach.
  induction l as [|x l IH]; intros s mapping lines k.
  - cbn. replace ((s <? k) && (k <=? s + 0))%bool with false; [reflexivity|].
    symmetry. apply andb_false_iff.
    destruct (Z.ltb_spec s k); [right; apply Z.leb_gt; lia | now left].
  - cbn [enumerate_from alias_members]. rewrite IH. cbn [List.length].
    destruct (Z.ltb_spec (s + 1) k) as [H1|H1];
      destruct (Z.leb_spec k (s + 1 + Z.of_nat (List.length l))) as [H2|H2];
      cbn [andb].
    + replace ((s <? k) && (k <=? s + Z.of_nat (S (List.length l))))%bool with true
        by (symmetry; apply andb_true_iff; split;
            [apply Z.ltb_lt | apply Z.leb_le]; lia).
      replace (Z.to_nat (k - s - 1)) with (S (Z.to_nat (k - (s + 1) - 1))) by lia.
      reflexivity.
    + replace ((s <? k) && (k <=? s + Z.of_nat (S (List.length l))))%bool with false
        by (symmetry; apply andb_false_iff; right; apply Z.leb_gt; lia).
      apply dict_get_set_other. lia.
    + destruct (Z.eq_dec k (s + 1)) as [->|Hne].
      * replace ((s <? s + 1) && (s + 1 <=? s + Z.of_nat (S (List.length l))))%bool
          with true
          by (symmetry; apply andb_true_iff; split;
              [apply Z.ltb_lt | apply Z.leb_le]; lia).
        replace (Z.to_nat (s + 1 - s - 1)) with O by lia.
        rewrite dict_get_set_same. reflexivity.
      * replace ((s <? k) && (k <=? s + Z.of_nat (S (List.length l))))%bool with false
          by (symmetry; apply andb_false_iff; left; apply Z.ltb_ge; lia).
        apply dict_get_set_other. exact Hne.
    + lia.
Qed.

(** The alias mapping that [construct_punishment_prompt] stores in the
    agent and the table that [parse_punishment_response] builds from the
    same snapshot agree: alias [k], for [k] from 1 to the number of listed
    members, is the [k]-th member in both, and the mapping has no other
    alias.  So an entry of the reply whose key is the text of [k], bare or
    between double quotes, is recorded under the identity that the mapping
    gives [k]. *)
Theorem alias_mapping_matches_table :
  forall (self self' : Agent) (group_state : GroupState) (prompt : string),
    construct_punishment_prompt self group_state = Some (prompt, self') ->
    let n := Z.of_nat (List.length (gs_members group_state)) in
    let table := anonymized_number_to_agent (gs_members group_state) in
    (forall k, 1 <= k <= n ->
       exists m,
         nth_error (gs_members group_state) (Z.to_nat (k - 1)) = Some m
         /\ dict_get Z.eqb k (anonymized_id_mapping self') = Some (agent_id m)
         /\ dict_get String.eqb (str_of_Z k) table = Some m
         /\ forall key tokens t rest allocations remaining,
              key = str_of_Z k \/ key = dq ++ str_of_Z k ++ dq ->
              py_int tokens = Some t ->
              process_allocations n table ((key, tokens) :: rest) allocations remaining
              = let clamped := Z.max 0 (Z.min t remaining) in
                let allocations' := dict_set Z.eqb (agent_id m) clamped allocations in
                if remaining - clamped <=? 0
                then Some (allocations', remaining - clamped)
                else process_allocations n table rest allocations' (remaining - clamped))
    /\ (forall k, ~ (1 <= k <= n) ->
          dict_get Z.eqb k (anonymized_id_mapping self') = None).
Proof.
  intros self self' gs prompt H n table.
  assert (Hm : anonymized_id_mapping self'
               = fst (alias_members (enumerate_from 0 (gs_members gs)) [] [])).
  { unfold construct_punishment_prompt in H.
    destruct (get_past_actions_string self); cbn [obind] in H; [|discriminate].
    destruct (alias_members _ _ _) as [mapping lines].
    destruct (anonymous_history_section _ _); cbn [obind] in H; [|discriminate].
    injection H as _ <-. reflexivity. }
  split.
  - intros k Hk.
    destruct (nth_error (gs_members gs) (Z.to_nat (k - 1))) as [m|] eqn:En.
    2:{ apply nth_error_None in En. unfold n in Hk. lia. }
    assert (Ht : dict_get String.eqb (str_of_Z k) table = Some m).
    { unfold table. rewrite anonymized_number_lookup by (fold n; lia). exact En. }
    exists m. split; [reflexivity|]. split; [|split; [exact Ht|]].
    + rewrite Hm, alias_members_lookup.
      replace ((0 <? k) && (k <=? 0 + Z.of_nat (List.length (gs_members gs))))%bool
        with true
        by (symmetry; apply andb_true_iff; split;
            [apply Z.ltb_lt | apply Z.leb_le]; fold n; lia).
      replace (k - 0 - 1) with (k - 1) by lia. now rewrite En.
    + intros key tokens t rest a r Hkey Ht'.
      assert (Hi : int_of_str (clean_agent_key key) = Some k).
      { destruct Hkey as [-> | ->].
        - rewrite clean_agent_key_bare. apply int_of_str_of_Z.
        - rewrite clean_agent_key_quoted. apply int_of_str_of_Z. }
      exact (process_allocations_step n table key tokens rest a r k t m Hi Hk Ht' Ht).
  - intros k Hk. rewrite Hm, alias_members_lookup.
    replace ((0 <? k) && (k <=? 0 + Z.of_nat (List.length (gs_members gs))))%bool
      with false; [reflexivity|].
    symmetry. fold n. apply andb_false_iff.
    destruct (Z.ltb_spec 0 k); [right; apply Z.leb_gt; lia | now left].
Qed.

(** ** The JSON text of a reply *)

Lemma str_find_range (c : ascii) (s : string) :
  -1 <= str_find c s < Z.of_nat (String.length s) \/ (str_find c s = -1 /\ s = "").
Proof. detach.
  induction s as [|d s IH]; [right; auto|]. left. cbn [str_find String.length].
  destruct (Ascii.eqb d c); [lia|].
  destruct (str_find c s <? 0) eqn:E; [lia|]. apply Z.ltb_ge in E.
  destruct IH as [IH|[IH _]]; lia.
Qed.

Lemma str_find_absent_cons (c d : ascii) (s : string) :
  str_find c (String d s) = -1 -> Ascii.eqb d c = false /\ str_find c s = -1.
Proof. detach.
  cbn [str_find]. destruct (Ascii.eqb d c); [discriminate|]. intros H.
  split; [reflexivity|].
  destruct (str_find c s <? 0) eqn:E; [|apply Z.ltb_ge in E; lia].
  apply Z.ltb_lt in E. destruct (str_find_range c s) as [R|[R _]]; lia.
Qed.

(** The first occurrence comes after a prefix that has none. *)
Lemma str_find_app (c : ascii) (s t : string) :
  str_find c s = -1 -> str_find c (s ++ String c t) = Z.of_nat (String.length s).
Proof. detach.
  induction s as [|d s IH]; intros H.
  - cbn. now rewrite Ascii.eqb_refl.
  - apply str_find_absent_cons in H. destruct H as [Hd Hs].
    cbn [append str_find String.length]. rewrite Hd, (IH Hs).
    replace (Z.of_nat (String.length s) <? 0) with false
      by (symmetry; apply Z.ltb_ge; lia).
    lia.
Qed.

(** The last occurrence comes before a suffix that has none. *)
Lemma str_rfind_app (c : ascii) (s t : string) :
  str_rfind c t = -1 -> str_rfind c (s ++ String c t) = Z.of_nat (String.length s).
Proof. detach.
  intros H. induction s as [|d s IH].
  - cbn [append str_rfind String.length]. rewrite H. cbn. now rewrite Ascii.eqb_refl.
  - cbn [append str_rfind String.length]. rewrite IH.
    replace (0 <=? Z.of_nat (String.length s)) with true
      by (symmetry; apply Z.leb_le; lia).
    lia.
Qed.

Lemma substring_skip (s t : string) (n : nat) :
  substring (String.length s) n (s ++ t) = substring 0 n t.
Proof. detach. induction s as [|c s IH]; cbn; [reflexivity | exact IH]. Qed.

Lemma str_rfind_lower (c : ascii) (s : string) : -1 <= str_rfind c s.
Proof. detach.
  induction s as [|d s IH]; cbn [str_rfind]; [lia|].
  destruct (0 <=? str_rfind c s); [lia|]. destruct (Ascii.eqb d c); lia.
Qed.

(** [extract_json] isolates a JSON object from the text around it: when
    no opening brace comes before the object and no closing brace after it,
    the result is the object text, braces included.  A reply without a
    closing brace, or whose last closing brace comes before its first
    opening brace, gives the empty text, which [json.loads] rejects. *)
Theorem extract_json_isolates_object :
  (forall pre body post : string,
      str_find "{" pre = -1 ->
      str_rfind "}" post = -1 ->
      extract_json (pre ++ "{" ++ body ++ "}" ++ post) = "{" ++ body ++ "}")
  /\ (forall response : string,
         0 <= str_find "{" response ->
         str_rfind "}" response < str_find "{" response ->
         extract_json response = "")
  /\ (forall response : string,
         str_rfind "}" response = -1 -> extract_json response = "").
Proof. detach.
  split; [|split].
  - intros pre body post Hpre Hpost. unfold extract_json.
    change (pre ++ "{" ++ body ++ "}" ++ post)
      with (pre ++ String "{" (body ++ String "}" post)).
    rewrite (str_find_app "{" pre _ Hpre).
    assert (Hr : str_rfind "}" (pre ++ String "{" (body ++ String "}" post))
                 = Z.of_nat (String.length pre + 1 + String.length body)).
    { replace (pre ++ String "{" (body ++ String "}" post))
        with ((pre ++ String "{" body) ++ String "}" post).
      - rewrite (str_rfind_app "}" _ _ Hpost), length_append. cbn [String.length].
        f_equal. lia.
      - clear. induction pre as [|c pre IH]; cbn; [reflexivity | now rewrite IH]. }
    rewrite Hr. unfold str_slice, slice_bound.
    rewrite length_append. cbn [String.length]. rewrite length_append.
    cbn [String.length].
    set (a := String.length pre). set (b := String.length body).
    set (c := String.length post).
    replace (Z.of_nat a <? 0) with false by (symmetry; apply Z.ltb_ge; lia).
    replace (Z.of_nat (a + 1 + b) + 1 <? 0) with false
      by (symmetry; apply Z.ltb_ge; lia).
    replace (Z.max 0 (Z.min (Z.of_nat (a + S (b + S c))) (Z.of_nat a)))
      with (Z.of_nat a) by lia.
    replace (Z.max 0 (Z.min (Z.of_nat (a + S (b + S c))) (Z.of_nat (a + 1 + b) + 1)))
      with (Z.of_nat (a + b + 2)) by lia.
    replace (Z.of_nat a <? Z.of_nat (a + b + 2)) with true
      by (symmetry; apply Z.ltb_lt; lia).
    replace (Z.to_nat (Z.of_nat (a + b + 2) - Z.of_nat a)) with (S (b + 1)) by lia.
    rewrite Nat2Z.id. unfold a. rewrite substring_skip.
    cbn [substring]. f_equal.
    replace (b + 1)%nat with (String.length (body ++ "}"))
      by (rewrite length_append; reflexivity).
    replace (body ++ String "}" post) with ((body ++ "}") ++ post).
    + rewrite substring_prefix. reflexivity.
    + clear. induction body as [|c body IH]; cbn; [reflexivity | now rewrite IH].
  - intros response Hf Hlt. unfold extract_json, str_slice, slice_bound.
    pose proof (str_rfind_lower "}" response) as Hl.
    destruct (str_find_range "{" response) as [R|[R _]]; [|lia].
    set (len := Z.of_nat (String.length response)) in *.
    set (i := str_find "{" response) in *. set (j := str_rfind "}" response) in *.
    replace (i <? 0) with false by (symmetry; apply Z.ltb_ge; lia).
    destruct (j + 1 <? 0) eqn:E; [apply Z.ltb_lt in E; lia|].
    replace (Z.max 0 (Z.min len i) <? Z.max 0 (Z.min len (j + 1))) with false;
      [reflexivity|].
    symmetry. apply Z.ltb_ge. lia.
  - intros response Hr. unfold extract_json, str_slice, slice_bound. rewrite Hr.
    change (-1 + 1 <? 0) with false. cbv iota.
    set (len := Z.of_nat (String.length response)).
    replace (Z.max 0 (Z.min len (-1 + 1))) with 0 by lia.
    match goal with |- (if ?b then _ else _) = _ => replace b with false end;
      [reflexivity|].
    symmetry. apply Z.ltb_ge. lia.
Qed.

(** ** The phases of a round *)

(** A round that returns went through its phases in this order, each
    starting from the state that the one before left. *)
Lemma run_round_phases (env env' : Environment) (heap heap' : Heap) (w w' : World) :
  run_round env heap w = (Some (env', heap'), w') ->
  exists env1 heap1 w1 si1 heap2 w2 sfi1 heap3 w3 si2 heap4,
    choose_institutions (agents env) (reset_institutions env) heap w
      = (Some (env1, heap1), w1)
    /\ collect_contributions (si env1) heap1 w1 = (Some (si1, heap2), w2)
    /\ collect_contributions (sfi env1) heap2 w2 = (Some (sfi1, heap3), w3)
    /\ handle_punishments_and_rewards (distribute_public_goods si1 heap3) heap3 w3
       = (Some (si2, heap4), w')
    /\ record_round_history
         (settled_environment env1 si1 sfi1 si2 heap3)
         (calculate_payoffs (settled_environment env1 si1 sfi1 si2 heap3)
            (apply_punishments_and_rewards si2 heap4))
       = Some (env', heap').
Proof.
  intros H. unfold run_round in H. cbv zeta in H.
  apply bind_Some in H. destruct H as ([env1 heap1] & w1 & E1 & H).
  apply bind_Some in H. destruct H as ([si1 heap2] & w2 & E2 & H).
  apply bind_Some in H. destruct H as ([sfi1 heap3] & w3 & E3 & H).
  apply bind_Some in H. destruct H as ([si2 heap4] & w4 & E4 & H).
  cbn [si sfi set_si set_sfi agents] in E1, E4, H.
  unfold lift in H.
  destruct (record_round_history _ _) as [[env2 heap5]|] eqn:E5; [|discriminate].
  injection H as <- <- <-.
  exists env1, heap1, w1, si1, heap2, w2, sfi1, heap3, w3, si2, heap4.
  split; [exact E1|]. split; [exact E2|]. split; [exact E3|]. split; [exact E4|].
  exact E5.
Qed.

Lemma choose_institution_frame (self a : Agent) (rn : Z) (w w' : World) :
  choose_institution self rn w = (Some a, w') ->
  same_but_choice a self
  /\ (institution_choice a = Some SI \/ institution_choice a = Some SFI)
  /\ round_number a = rn.
Proof.
  unfold choose_institution, bind, lift, ret, raise.
  destruct (construct_institution_choice_prompt _ rn) as [prompt|];
    [|discriminate].
  destruct (send_request prompt w) as [[response|] w1]; [|discriminate].
  intros [= <- <-]. unfold parse_institution_choice_response.
  destruct (try_parse_institution_choice response) as [[c r]|]; cbn;
    (split; [reflexivity|]); (split; [|reflexivity]).
  - destruct c; auto.
  - auto.
Qed.

(** ** What each phase may change in an agent *)

Lemma collect_contributions_loop_same (rs : list nat) :
  forall (inst inst' : Institution) (heap heap' : Heap) (w w' : World),
    collect_contributions_loop rs inst heap w = (Some (inst', heap'), w') ->
    forall r, same_but_contribution (heap' r) (heap r).
Proof.
  induction rs as [|r0 rs IH]; intros inst inst' heap heap' w w' H r.
  - cbn in H. injection H as <- <- <-. apply same_but_contribution_refl.
  - cbn [collect_contributions_loop] in H. unfold bind at 1 in H.
    destruct (decide_contribution _ _ w) as [[a|] w1] eqn:Ed; [|discriminate].
    apply decide_contribution_Some in Ed. destruct Ed as [Hs _].
    eapply same_but_contribution_trans; [exact (IH _ _ _ _ _ _ H r)|].
    destruct (Nat.eq_dec r r0) as [->|Hne].
    + rewrite upd_same. exact Hs.
    + rewrite upd_other by assumption. apply same_but_contribution_refl.
Qed.

Lemma collect_contributions_same (inst inst' : Institution) (heap heap' : Heap)
    (w w' : World) :
  collect_contributions inst heap w = (Some (inst', heap'), w') ->
  forall r, same_but_contribution (heap' r) (heap r).
Proof. unfold collect_contributions. apply collect_contributions_loop_same. Qed.

Lemma handle_loop_same (rs : list nat) :
  forall (inst inst' : Institution) (heap heap' : Heap) (w w' : World),
    handle_punishments_and_rewards_loop rs inst heap w = (Some (inst', heap'), w') ->
    forall r, same_but_sanction_decision (heap' r) (heap r).
Proof.
  induction rs as [|r0 rs IH]; intros inst inst' heap heap' w w' H r.
  - cbn in H. injection H as <- <- <-. reflexivity.
  - cbn [handle_punishments_and_rewards_loop] in H. unfold bind at 1 in H.
    destruct (assign_punishment _ _ w) as [[[[p q] a]|] w1] eqn:Ea; [|discriminate].
    apply assign_punishment_frame in Ea. destruct Ea as (Hs & _).
    unfold same_but_sanction_decision in *.
    rewrite (IH _ _ _ _ _ _ H r).
    destruct (Nat.eq_dec r r0) as [->|Hne].
    + rewrite upd_same. exact Hs.
    + now rewrite upd_other.
Qed.

Lemma handle_same (inst inst' : Institution) (heap heap' : Heap) (w w' : World) :
  handle_punishments_and_rewards inst heap w = (Some (inst', heap'), w') ->
  forall r, same_but_sanction_decision (heap' r) (heap r).
Proof.
  unfold handle_punishments_and_rewards. destruct (kind inst).
  - apply handle_loop_same.
  - intros H r. cbn in H. injection H as <- <- <-. reflexivity.
Qed.

Lemma apply_same (inst : Institution) (heap : Heap) (r : nat) :
  same_but_received (apply_punishments_and_rewards inst heap r) (heap r).
Proof. detach.
  unfold apply_punishments_and_rewards. destruct (kind inst); [|reflexivity].
  generalize (members inst) as rs. intros rs. revert heap.
  induction rs as [|r0 rs IH]; intros heap; [reflexivity|].
  cbn [fold_left]. unfold same_but_received in *. rewrite IH.
  unfold apply_to_member. destruct (Nat.eq_dec r r0) as [->|Hne].
  - rewrite upd_same. reflexivity.
  - now rewrite upd_other.
Qed.

Lemma fold_upd_same_but_payoff (f : Heap -> nat -> pynum) (rs : list nat) :
  forall heap r,
    same_but_payoff
      (fold_left (fun h r => upd h r (update_payoff (f h r) (h r))) rs heap r) (heap r).
Proof. detach.
  induction rs as [|r0 rs IH]; intros heap r; [reflexivity|].
  cbn [fold_left]. unfold same_but_payoff in *. rewrite IH.
  destruct (Nat.eq_dec r r0) as [->|Hne].
  - rewrite upd_same. reflexivity.
  - now rewrite upd_other.
Qed.

Lemma calculate_payoffs_same (env : Environment) (heap : Heap) (r : nat) :
  same_but_payoff (calculate_payoffs env heap r) (heap r).
Proof. detach.
  unfold calculate_payoffs, same_but_payoff.
  rewrite (fold_upd_same_but_payoff
             (fun h r => num_add (dict_get_default Z.eqb (agent_id (h r)) (NInt 0)
                                    (stage1_payoffs (sfi env)))
                                 (NInt ENDOWMENT_STAGE_2))).
  apply (fold_upd_same_but_payoff
           (fun h r => num_add (dict_get_default Z.eqb (agent_id (h r)) (NInt 0)
                                  (stage1_payoffs (si env)))
                               (NInt (get_stage2_payoff (h r))))).
Qed.

Lemma record_agents_same (env : Environment) (ranks : list (Z * Z)) (n : Z)
    (rs : list nat) :
  forall (ra ra' : list (Z * StrDict)) (h h' : Heap),
    record_agents env ranks n rs ra h = Some (ra', h') ->
    forall r, same_but_record (h' r) (h r).
Proof. detach.
  induction rs as [|r0 rs IH]; intros ra ra' h h' H r.
  - cbn in H. injection H as <- <-. reflexivity.
  - cbn [record_agents] in H.
    destruct (dict_get Z.eqb (agent_id (h r0)) ranks) as [rank|]; cbn [obind] in H;
      [|discriminate].
    unfold same_but_record in *. rewrite (IH _ _ _ _ H r).
    destruct (Nat.eq_dec r r0) as [->|Hne].
    + rewrite upd_same. reflexivity.
    + now rewrite upd_other.
Qed.

Lemma stage_anonymous_data_same (env : Environment) (ra : list (Z * StrDict))
    (rs : list nat) :
  forall (h h' : Heap),
    stage_anonymous_data env ra rs h = Some h' ->
    forall r, same_but_record (h' r) (h r).
Proof. detach.
  induction rs as [|r0 rs IH]; intros h h' H r.
  - cbn in H. injection H as <-. reflexivity.
  - cbn [stage_anonymous_data] in H.
    destruct (anonymous_data_list ra h (agent_id (h r0)) (agents env)) as [batch|];
      cbn [obind] in H; [|discriminate].
    unfold same_but_record in *. rewrite (IH _ _ H r).
    destruct (Nat.eq_dec r r0) as [->|Hne].
    + rewrite upd_same. reflexivity.
    + now rewrite upd_other.
Qed.

(** What [record_round_history] returns: the environment with one more
    record, the same in its history and in its results, and the agents with
    a longer history and a staged batch. *)
Lemma record_round_history_inv (env env' : Environment) (heap heap' : Heap) :
  record_round_history env heap = Some (env', heap') ->
  (exists round_data,
      env' = set_results (app (results env) [round_data])
               (set_env_history (app (env_history env) [round_data]) env)
      /\ rd_round_number round_data = current_round env
      /\ rd_si_members round_data = map (fun r => agent_id (heap r)) (members (si env))
      /\ rd_sfi_members round_data = map (fun r => agent_id (heap r)) (members (sfi env))
      /\ rd_si_total_contribution round_data = total_contribution (si env)
      /\ rd_sfi_total_contribution round_data = total_contribution (sfi env))
  /\ (forall r, same_but_record (heap' r) (heap r)).
Proof. detach.
  unfold record_round_history. intros H.
  destruct (record_agents _ _ _ _ _ _) as [[ra heap1]|] eqn:E1; cbn [obind] in H;
    [|discriminate].
  destruct (stage_anonymous_data _ _ _ _) as [heap2|] eqn:E2; cbn [obind] in H;
    [|discriminate].
  injection H as <- <-. split.
  - eexists. split; [reflexivity|]. cbn. auto.
  - intros r. unfold same_but_record.
    rewrite (stage_anonymous_data_same _ _ _ _ _ E2 r).
    exact (record_agents_same _ _ _ _ _ _ _ _ E1 r).
Qed.

(** A projection of the agent that no phase after the enrolment writes is
    the same at the end of the round. *)
Lemma settled_phases_keep {X : Type} (f : Agent -> X)
    (env1 env' : Environment) (si1 sfi1 si2 : Institution)
    (heap1 heap2 heap3 heap4 heap' : Heap) (w1 w2 w3 w' : World) :
  (forall a b, same_but_contribution a b -> f a = f b) ->
  (forall a b, same_but_sanction_decision a b -> f a = f b) ->
  (forall a b, same_but_received a b -> f a = f b) ->
  (forall a b, same_but_payoff a b -> f a = f b) ->
  (forall a b, same_but_record a b -> f a = f b) ->
  collect_contributions (si env1) heap1 w1 = (Some (si1, heap2), w2) ->
  collect_contributions (sfi env1) heap2 w2 = (Some (sfi1, heap3), w3) ->
  handle_punishments_and_rewards (distribute_public_goods si1 heap3) heap3 w3
    = (Some (si2, heap4), w') ->
  record_round_history
    (settled_environment env1 si1 sfi1 si2 heap3)
    (calculate_payoffs (settled_environment env1 si1 sfi1 si2 heap3)
       (apply_punishments_and_rewards si2 heap4))
    = Some (env', heap') ->
  forall r, f (heap' r) = f (heap1 r).
Proof.
  intros Fc Fs Fr Fp Fh E2 E3 E4 E5 r.
  apply record_round_history_inv in E5. destruct E5 as [_ E5].
  rewrite (Fh _ _ (E5 r)).
  rewrite (Fp _ _ (calculate_payoffs_same _ _ r)).
  rewrite (Fr _ _ (apply_same _ _ r)).
  rewrite (Fs _ _ (handle_same _ _ _ _ _ _ E4 r)).
  rewrite (Fc _ _ (collect_contributions_same _ _ _ _ _ _ E3 r)).
  exact (Fc _ _ (collect_contributions_same _ _ _ _ _ _ E2 r)).
Qed.

(** ** Enrolment *)

Lemma filter_partition_perm {A : Type} (p : A -> bool) (l : list A) :
  Permutation (app (filter p l) (filter (fun x => negb (p x)) l)) l.
Proof. detach.
  induction l as [|x l IH]; cbn; [constructor|].
  destruct (p x); cbn.
  - now constructor.
  - apply Permutation_sym, Permutation_cons_app, Permutation_sym, IH.
Qed.

Lemma filter_ext_in_heap (p : Agent -> bool) (h h' : Heap) (rs : list nat) :
  (forall r, In r rs -> h' r = h r) ->
  filter (fun r => p (h' r)) rs = filter (fun r => p (h r)) rs.
Proof. detach.
  intros H. apply filter_ext_in. intros r Hr. now rewrite H.
Qed.

Lemma set_current_group_None_id (x : Agent) :
  current_group x = None -> set_current_group None x = x.
Proof. detach. destruct x. cbn. intros ->. reflexivity. Qed.

Lemma same_but_choice_enrolled (a b : Agent) :
  same_but_choice a b -> current_group b = None ->
  same_but_choice (set_current_group None a) b.
Proof. detach.
  unfold same_but_choice. intros H Hb.
  assert (Hs : forall x,
             set_institution_choice None
               (set_institution_reasoning (JStr "")
                  (set_round_number 0 (set_current_group None x)))
             = set_current_group None
                 (set_institution_choice None
                    (set_institution_reasoning (JStr "") (set_round_number 0 x))))
    by (intros x; destruct x; reflexivity).
  rewrite Hs, H. apply set_current_group_None_id. exact Hb.
Qed.

Lemma reset_for_new_round_current_group (self : Agent) :
  current_group (reset_for_new_round self) = None.
Proof. detach.
  unfold reset_for_new_round.
  destruct (current_round_anonymous_data self); reflexivity.
Qed.

(** The loop of [run_round] in which the agents choose: every agent of
    the loop is reset, chooses, and is appended to the members of the
    institution it chose. *)
Lemma choose_institutions_enrol (rs : list nat) :
  forall (env env' : Environment) (heap heap' : Heap) (w w' : World),
    NoDup rs ->
    choose_institutions rs env heap w = (Some (env', heap'), w') ->
    members (si env')
      = app (members (si env)) (filter (fun r => chose_SI (heap' r)) rs)
    /\ members (sfi env')
       = app (members (sfi env)) (filter (fun r => negb (chose_SI (heap' r))) rs)
    /\ set_members [] (si env') = set_members [] (si env)
    /\ set_members [] (sfi env') = set_members [] (sfi env)
    /\ agents env' = agents env
    /\ current_round env' = current_round env
    /\ (forall r, ~ In r rs -> heap' r = heap r)
    /\ (forall r, In r rs ->
          same_but_choice (set_current_group None (heap' r))
                          (reset_for_new_round (heap r))
          /\ (institution_choice (heap' r) = Some SI
              \/ institution_choice (heap' r) = Some SFI)
          /\ current_group (heap' r) = institution_choice (heap' r)
          /\ round_number (heap' r) = current_round env).
Proof.
  induction rs as [|r0 rs IH]; intros env env' heap heap' w w' Hnd H.
  - cbn in H. injection H as <- <- <-. cbn. rewrite !app_nil_r.
    do 6 (split; [reflexivity|]). split; [reflexivity|]. intros r [].
  - rewrite choose_institutions_cons in H. apply bind_Some in H.
    destruct H as (a & w1 & Ec & H).
    apply choose_institution_frame in Ec. destruct Ec as (Es & Ech & Ern).
    inversion Hnd as [|? ? Hnotin Hnd']; subst.
    destruct (enroll r0 a env) as [env1 a1] eqn:Ee.
    apply IH in H; [|exact Hnd'].
    destruct H as (H1 & H2 & H3 & H4 & H5 & H6 & H7 & H8).
    assert (H0 : heap' r0 = a1) by (rewrite H7 by exact Hnotin; apply upd_same).
    assert (Hin : forall r, In r rs -> r <> r0) by (intros r Hr ->; contradiction).
    unfold enroll in Ee. cbn [filter]. rewrite H0.
    assert (Hc : chose_SI a1 = chose_SI a).
    { destruct Ech as [Ech|Ech]; rewrite Ech in Ee; injection Ee as _ <-;
        reflexivity. }
    assert (Hg : current_group a1 = institution_choice a1
                 /\ set_current_group None a1 = set_current_group None a
                 /\ institution_choice a1 = institution_choice a
                 /\ round_number a1 = round_number a).
    { destruct Ech as [Ech|Ech]; rewrite Ech in Ee; injection Ee as _ <-; cbn;
        rewrite Ech; auto. }
    destruct Hg as (Hg1 & Hg2 & Hg3 & Hg4).
    assert (He : agents env1 = agents env /\ current_round env1 = current_round env
                 /\ set_members [] (si env1) = set_members [] (si env)
                 /\ set_members [] (sfi env1) = set_members [] (sfi env)
                 /\ members (si env1)
                    = app (members (si env)) (if chose_SI a then [r0] else [])
                 /\ members (sfi env1)
                    = app (members (sfi env)) (if negb (chose_SI a) then [r0] else [])).
    { unfold chose_SI.
      destruct Ech as [Ech|Ech]; rewrite Ech in Ee |- *; injection Ee as <- _; cbn;
        rewrite ?app_nil_r; auto 10. }
    destruct He as (He1 & He2 & He3 & He4 & He5 & He6).
    rewrite Hc.
    split; [rewrite H1, He5, <- app_assoc; destruct (chose_SI a); reflexivity|].
    split; [rewrite H2, He6, <- app_assoc; destruct (chose_SI a); reflexivity|].
    split; [congruence|]. split; [congruence|]. split; [congruence|].
    split; [congruence|]. split.
    + intros r Hn. cbn in Hn. rewrite H7 by tauto. apply upd_other.
      intros ->. apply Hn. now left.
    + intros r [<-|Hr].
      * rewrite H0, Hg1, Hg2, Hg3, Hg4. split; [|split; [exact Ech|]].
        { apply same_but_choice_enrolled; [exact Es|].
          apply reset_for_new_round_current_group. }
        split; [reflexivity | exact Ern].
      * destruct (H8 r Hr) as (A & B & C & D).
        rewrite upd_other in A by (now apply Hin). rewrite He2 in D. auto.
Qed.

Lemma reset_institution_fields (round_number : Z) (inst : Institution) :
  members (reset_institution round_number inst) = []
  /\ kind (reset_institution round_number inst) = kind inst
  /\ total_contribution (reset_institution round_number inst) = 0
  /\ stage1_payoffs (reset_institution round_number inst) = []
  /\ anonymized_contributions (reset_institution round_number inst) = []
  /\ inst_round_number (reset_institution round_number inst) = round_number
  /\ (kind inst = SI ->
      punishment_matrix (reset_institution round_number inst) = []
      /\ reward_matrix (reset_institution round_number inst) = []).
Proof. detach.
  unfold reset_institution. cbn.
  destruct (kind inst) eqn:K; cbn; rewrite ?K; do 6 (split; [reflexivity|]);
    intros Hk; [split; reflexivity | discriminate].
Qed.

Lemma reset_institutions_fields (env : Environment) :
  si (reset_institutions env) = reset_institution (current_round env) (si env)
  /\ sfi (reset_institutions env) = reset_institution (current_round env) (sfi env)
  /\ agents (reset_institutions env) = agents env
  /\ current_round (reset_institutions env) = current_round env
  /\ env_history (reset_institutions env) = env_history env
  /\ results (reset_institutions env) = results env.
Proof. detach. repeat split. Qed.

(** The members of the two institutions at the end of a round are those
    of the enrolment. *)
Lemma settled_members (env1 env' : Environment) (si1 sfi1 si2 : Institution)
    (heap1 heap2 heap3 heap4 heap' : Heap) (w1 w2 w3 w' : World) :
  collect_contributions (si env1) heap1 w1 = (Some (si1, heap2), w2) ->
  collect_contributions (sfi env1) heap2 w2 = (Some (sfi1, heap3), w3) ->
  handle_punishments_and_rewards (distribute_public_goods si1 heap3) heap3 w3
    = (Some (si2, heap4), w') ->
  record_round_history
    (settled_environment env1 si1 sfi1 si2 heap3)
    (calculate_payoffs (settled_environment env1 si1 sfi1 si2 heap3)
       (apply_punishments_and_rewards si2 heap4))
    = Some (env', heap') ->
  si env' = si2
  /\ sfi env' = distribute_public_goods sfi1 heap3
  /\ members (si env') = members (si env1)
  /\ members (sfi env') = members (sfi env1)
  /\ agents env' = agents env1
  /\ current_round env' = current_round env1.
Proof.
  intros E2 E3 E4 E5.
  apply record_round_history_inv in E5. destruct E5 as [(rd & -> & _) _].
  apply collect_contributions_frame in E2. destruct E2 as (M2 & _ & _).
  apply collect_contributions_frame in E3. destruct E3 as (M3 & _ & _).
  apply handle_frame in E4. destruct E4 as (M4 & _ & _).
  destruct (distribute_public_goods_frame si1 heap3) as [M5 _].
  destruct (distribute_public_goods_frame sfi1 heap3) as [M6 _].
  unfold settled_environment. cbn. repeat split; congruence.
Qed.

(** At the end of a round that returns, every agent of the population has
    chosen one of the two institutions, and the member lists of the two
    institutions are the agents that chose them, in population order: the
    two lists together are a permutation of the population, and no agent is
    in both or in none. *)
Theorem enrolment_partitions_population :
  forall (env env' : Environment) (heap heap' : Heap) (w w' : World),
    NoDup (agents env) ->
    run_round env heap w = (Some (env', heap'), w') ->
    members (si env') = filter (fun r => chose_SI (heap' r)) (agents env)
    /\ members (sfi env') = filter (fun r => negb (chose_SI (heap' r))) (agents env)
    /\ Permutation (app (members (si env')) (members (sfi env'))) (agents env)
    /\ (forall r, In r (agents env) ->
          (institution_choice (heap' r) = Some SI <-> In r (members (si env')))
          /\ (institution_choice (heap' r) = Some SFI <-> In r (members (sfi env')))
          /\ (In r (members (si env')) -> ~ In r (members (sfi env')))
          /\ current_group (heap' r) = institution_choice (heap' r)
          /\ round_number (heap' r) = current_round env).
Proof.
  intros env env' heap heap' w w' Hnd H.
  apply run_round_phases in H.
  destruct H as (env1 & heap1 & w1 & si1 & heap2 & w2 & sfi1 & heap3 & w3 & si2
                 & heap4 & E1 & E2 & E3 & E4 & E5).
  apply choose_institutions_enrol in E1; [|exact Hnd].
  destruct E1 as (M1 & M2 & _ & _ & _ & _ & _ & Hag).
  destruct (reset_institution_fields (current_round env) (si env)) as (R1 & _).
  destruct (reset_institution_fields (current_round env) (sfi env)) as (R2 & _).
  destruct (reset_institutions_fields env) as (Q1 & Q2 & _ & Q4 & _).
  rewrite Q1, R1 in M1. rewrite Q2, R2 in M2. cbn [app] in M1, M2.
  destruct (settled_members _ _ _ _ _ _ _ _ _ _ _ _ _ _ E2 E3 E4 E5)
    as (_ & _ & S1 & S2 & _ & _).
  assert (Kc : forall r, institution_choice (heap' r) = institution_choice (heap1 r)).
  { apply (settled_phases_keep institution_choice env1 env' si1 sfi1 si2
             heap1 heap2 heap3 heap4 heap' w1 w2 w3 w'); try assumption;
      intros a b Hab; exact (f_equal institution_choice Hab). }
  assert (Kg : forall r, current_group (heap' r) = current_group (heap1 r)).
  { apply (settled_phases_keep current_group env1 env' si1 sfi1 si2
             heap1 heap2 heap3 heap4 heap' w1 w2 w3 w'); try assumption;
      intros a b Hab; exact (f_equal current_group Hab). }
  assert (Kr : forall r, round_number (heap' r) = round_number (heap1 r)).
  { apply (settled_phases_keep round_number env1 env' si1 sfi1 si2
             heap1 heap2 heap3 heap4 heap' w1 w2 w3 w'); try assumption;
      intros a b Hab; exact (f_equal round_number Hab). }
  assert (Ks : forall r, chose_SI (heap' r) = chose_SI (heap1 r))
    by (intros r; unfold chose_SI; now rewrite Kc).
  assert (F1 : members (si env') = filter (fun r => chose_SI (heap' r)) (agents env)).
  { rewrite S1, M1. apply filter_ext. intros r. now rewrite Ks. }
  assert (F2 : members (sfi env')
               = filter (fun r => negb (chose_SI (heap' r))) (agents env)).
  { rewrite S2, M2. apply filter_ext. intros r. now rewrite Ks. }
  split; [exact F1|]. split; [exact F2|]. split.
  { rewrite F1, F2. apply filter_partition_perm. }
  intros r Hr. destruct (Hag r Hr) as (_ & Hch & Hcg & Hrn).
  rewrite F1, F2, !filter_In. unfold chose_SI.
  rewrite Kg, Kr, Kc. rewrite Q4 in Hrn.
  split; [|split; [|split; [|split; [exact Hcg | exact Hrn]]]].
  - destruct Hch as [Hch|Hch]; rewrite Hch; cbn;
      (split; [intros E; first [discriminate E | split; [exact Hr | reflexivity]]
              | intros [_ Hf]; first [discriminate Hf | reflexivity]]).
  - destruct Hch as [Hch|Hch]; rewrite Hch; cbn;
      (split; [intros E; first [discriminate E | split; [exact Hr | reflexivity]]
              | intros [_ Hf]; first [discriminate Hf | reflexivity]]).
  - intros [_ H1] [_ H2]. destruct (institution_choice (heap1 r)) as [[|]|];
      discriminate.
Qed.

(** ** The contribution stage *)

Lemma collect_contributions_loop_totals (rs : list nat) :
  forall (inst inst' : Institution) (heap heap' : Heap) (w w' : World),
    NoDup rs ->
    collect_contributions_loop rs inst heap w = (Some (inst', heap'), w') ->
    total_contribution inst' = total_contribution inst + sum_contributions heap' rs
    /\ anonymized_contributions inst'
       = app (anonymized_contributions inst) (map (fun r => contribution (heap' r)) rs)
    /\ group_size inst' = group_size inst
    /\ (forall r, In r rs ->
          MIN_CONTRIBUTION <= contribution (heap' r) <= MAX_CONTRIBUTION)
    /\ (forall r, ~ In r rs -> heap' r = heap r).
Proof.
  induction rs as [|r0 rs IH]; intros inst inst' heap heap' w w' Hnd H.
  - cbn in H. injection H as <- <- <-. unfold sum_contributions. cbn.
    rewrite app_nil_r. split; [lia|]. split; [reflexivity|]. split; [reflexivity|].
    split; [intros r []|reflexivity].
  - cbn [collect_contributions_loop] in H. unfold bind at 1 in H.
    destruct (decide_contribution _ _ w) as [[a|] w1] eqn:Ed; [|discriminate].
    apply decide_contribution_Some in Ed. destruct Ed as [_ Hrange].
    inversion Hnd as [|? ? Hnotin Hnd']; subst.
    apply IH in H; [|assumption].
    destruct H as (Ht & Ha & Hg & Hb & Hf).
    cbn [total_contribution anonymized_contributions group_size
         set_total_contribution set_anonymized_contributions] in Ht, Ha, Hg.
    rewrite upd_same in Ht, Ha.
    assert (H0 : heap' r0 = a) by (rewrite Hf by exact Hnotin; apply upd_same).
    split; [|split; [|split; [exact Hg|split]]].
    + rewrite Ht. unfold sum_contributions. cbn [map fold_right]. rewrite H0. lia.
    + rewrite Ha, <- app_assoc. cbn [map app]. now rewrite H0.
    + intros r [<-|Hr]; [now rewrite H0 | now apply Hb].
    + intros r Hn. cbn in Hn. rewrite Hf by tauto. apply upd_other.
      intros ->. apply Hn. now left.
Qed.

Lemma sum_contributions_bounds (heap : Heap) (rs : list nat) :
  (forall r, In r rs -> MIN_CONTRIBUTION <= contribution (heap r) <= MAX_CONTRIBUTION) ->
  0 <= sum_contributions heap rs <= MAX_CONTRIBUTION * Z.of_nat (List.length rs).
Proof. detach.
  unfold sum_contributions, MIN_CONTRIBUTION, MAX_CONTRIBUTION, ENDOWMENT_STAGE_1.
  induction rs as [|r rs IH]; intros H; cbn [map fold_right List.length]; [lia|].
  assert (H1 := H r (or_introl eq_refl)).
  assert (H2 : 0 <= fold_right Z.add 0 (map (fun r0 => contribution (heap r0)) rs)
               <= 20 * Z.of_nat (List.length rs))
    by (apply IH; intros r' Hr'; apply H; now right).
  lia.
Qed.

(** [collect_contributions] over members listed once: the institution's
    total is the sum of the contributions that the members have when the
    stage ends, its anonymized list holds these contributions in member
    order, its group size is the number of members, every contribution is
    within the allowed range, so the total is between 0 and
    [MAX_CONTRIBUTION] times the group size; and no agent outside the
    institution is touched. *)
Theorem contributions_collected :
  forall (inst inst' : Institution) (heap heap' : Heap) (w w' : World),
    NoDup (members inst) ->
    collect_contributions inst heap w = (Some (inst', heap'), w') ->
    total_contribution inst' = sum_contributions heap' (members inst)
    /\ anonymized_contributions inst'
       = map (fun r => contribution (heap' r)) (members inst)
    /\ group_size inst' = Z.of_nat (List.length (members inst))
    /\ members inst' = members inst
    /\ (forall r, In r (members inst) ->
          MIN_CONTRIBUTION <= contribution (heap' r) <= MAX_CONTRIBUTION)
    /\ 0 <= total_contribution inst' <= MAX_CONTRIBUTION * group_size inst'
    /\ (forall r, ~ In r (members inst) -> heap' r = heap r).
Proof.
  intros inst inst' heap heap' w w'.
  intros Hnd H.
  pose proof (collect_contributions_frame _ _ _ _ _ _ H) as (Hm & _ & _).
  unfold collect_contributions in H.
  apply collect_contributions_loop_totals in H; [|exact Hnd].
  cbn [total_contribution anonymized_contributions group_size members
       set_total_contribution set_anonymized_contributions set_group_size] in H.
  destruct H as (Ht & Ha & Hg & Hb & Hf).
  split; [exact Ht|]. split; [exact Ha|]. split; [exact Hg|]. split; [exact Hm|].
  split; [exact Hb|]. split; [|exact Hf].
  rewrite Ht, Hg. cbn [Z.add]. now apply sum_contributions_bounds.
Qed.

(** ** Payoffs *)

Lemma distribute_fold_spec (heap : Heap) (rs : list nat) :
  forall inst : Institution,
    let inst' :=
      fold_left
        (fun (self : Institution) (r : nat) =>
           set_stage1_payoffs
             (dict_set Z.eqb (agent_id (heap r))
                (get_stage1_payoff (heap r) (group_size self) (total_contribution self))
                (stage1_payoffs self)) self)
        rs inst in
    set_stage1_payoffs [] inst' = set_stage1_payoffs [] inst
    /\ (forall id, ~ In id (map (fun r => agent_id (heap r)) rs) ->
          dict_get Z.eqb id (stage1_payoffs inst') = dict_get Z.eqb id (stage1_payoffs inst))
    /\ (NoDup (map (fun r => agent_id (heap r)) rs) ->
        forall r, In r rs ->
          dict_get Z.eqb (agent_id (heap r)) (stage1_payoffs inst')
          = Some (get_stage1_payoff (heap r) (group_size inst) (total_contribution inst))).
Proof. detach.
  induction rs as [|r0 rs IH]; intros inst; cbn [fold_left].
  - cbn. split; [reflexivity|]. split; [reflexivity|]. intros _ r [].
  - set (inst1 := set_stage1_payoffs _ inst).
    destruct (IH inst1) as (I1 & I2 & I3). cbv zeta in I1, I2, I3 |- *.
    split; [rewrite I1; reflexivity|]. split.
    + intros id Hn. cbn [map] in Hn. rewrite I2 by (intros Hin; apply Hn; now right).
      unfold inst1. cbn [stage1_payoffs set_stage1_payoffs].
      apply dict_get_set_other. intros ->. apply Hn. now left.
    + intros Hnd r Hr. cbn [map] in Hnd.
      inversion Hnd as [|? ? Hnotin Hnd']; subst.
      destruct Hr as [<-|Hr].
      * rewrite I2 by exact Hnotin. unfold inst1.
        cbn [stage1_payoffs set_stage1_payoffs]. apply dict_get_set_same.
      * rewrite (I3 Hnd' r Hr). reflexivity.
Qed.

(** [distribute_public_goods] writes the stage-one payoff of every member
    under its identity and nothing else. *)
Lemma distribute_public_goods_spec (inst : Institution) (heap : Heap) :
  set_stage1_payoffs [] (distribute_public_goods inst heap) = set_stage1_payoffs [] inst
  /\ (forall id, ~ In id (map (fun r => agent_id (heap r)) (members inst)) ->
        dict_get Z.eqb id (stage1_payoffs (distribute_public_goods inst heap))
        = dict_get Z.eqb id (stage1_payoffs inst))
  /\ (NoDup (map (fun r => agent_id (heap r)) (members inst)) ->
      forall r, In r (members inst) ->
        dict_get Z.eqb (agent_id (heap r))
          (stage1_payoffs (distribute_public_goods inst heap))
        = Some (get_stage1_payoff (heap r) (group_size inst) (total_contribution inst))).
Proof. detach. unfold distribute_public_goods. apply distribute_fold_spec. Qed.

Lemma fold_upd_payoff_spec (f : Agent -> pynum) (rs : list nat) :
  forall heap : Heap,
    let heap' := fold_left (fun h r => upd h r (update_payoff (f (h r)) (h r))) rs heap in
    (forall r, ~ In r rs -> heap' r = heap r)
    /\ (NoDup rs -> forall r, In r rs -> heap' r = update_payoff (f (heap r)) (heap r)).
Proof. detach.
  induction rs as [|r0 rs IH]; intros heap; cbn [fold_left].
  - split; [reflexivity|]. intros _ r [].
  - destruct (IH (upd heap r0 (update_payoff (f (heap r0)) (heap r0)))) as [I1 I2].
    cbv zeta in I1, I2 |- *. split.
    + intros r Hn. cbn in Hn. rewrite I1 by tauto. apply upd_other.
      intros ->. apply Hn. now left.
    + intros Hnd r Hr. inversion Hnd as [|? ? Hnotin Hnd']; subst.
      destruct Hr as [<-|Hr].
      * rewrite I1 by exact Hnotin. apply upd_same.
      * rewrite (I2 Hnd' r Hr). rewrite upd_other; [reflexivity|].
        intros ->. contradiction.
Qed.

Lemma NoDup_app_disjoint {A : Type} (l1 l2 : list A) (a : A) :
  NoDup (app l1 l2) -> In a l1 -> In a l2 -> False.
Proof. detach.
  induction l1 as [|x l1 IH]; cbn; intros Hnd H1 H2; [contradiction|].
  inversion Hnd as [|? ? Hnotin Hnd']; subst. destruct H1 as [->|H1].
  - apply Hnotin, in_or_app. now right.
  - now apply IH.
Qed.

(** [calculate_payoffs] over agents that are listed once in the two
    institutions: a member of the sanctioning institution is paid its
    stage-one payoff plus [get_stage2_payoff], a member of the sanction-free
    institution its stage-one payoff plus [ENDOWMENT_STAGE_2], and an agent
    in neither is not touched. *)
Lemma calculate_payoffs_spec (env : Environment) (heap : Heap) :
  NoDup (app (members (si env)) (members (sfi env))) ->
  (forall r, In r (members (si env)) ->
     calculate_payoffs env heap r
     = update_payoff
         (num_add (dict_get_default Z.eqb (agent_id (heap r)) (NInt 0)
                     (stage1_payoffs (si env)))
                  (NInt (get_stage2_payoff (heap r)))) (heap r))
  /\ (forall r, In r (members (sfi env)) ->
        calculate_payoffs env heap r
        = update_payoff
            (num_add (dict_get_default Z.eqb (agent_id (heap r)) (NInt 0)
                        (stage1_payoffs (sfi env)))
                     (NInt ENDOWMENT_STAGE_2)) (heap r))
  /\ (forall r, ~ In r (members (si env)) -> ~ In r (members (sfi env)) ->
        calculate_payoffs env heap r = heap r).
Proof. detach.
  intros Hnd. unfold calculate_payoffs.
  pose proof (NoDup_app_remove_l _ _ Hnd) as Hsfi.
  pose proof (NoDup_app_remove_r _ _ Hnd) as Hsi.
  set (fsi := fun a : Agent =>
                num_add (dict_get_default Z.eqb (agent_id a) (NInt 0)
                           (stage1_payoffs (si env)))
                        (NInt (get_stage2_payoff a))).
  set (fsfi := fun a : Agent =>
                 num_add (dict_get_default Z.eqb (agent_id a) (NInt 0)
                            (stage1_payoffs (sfi env)))
                         (NInt ENDOWMENT_STAGE_2)).
  destruct (fold_upd_payoff_spec fsi (members (si env)) heap) as [A1 A2].
  cbv zeta in A1, A2.
  set (heap1 := fold_left (fun h r => upd h r (update_payoff (fsi (h r)) (h r)))
                          (members (si env)) heap) in *.
  destruct (fold_upd_payoff_spec fsfi (members (sfi env)) heap1) as [B1 B2].
  cbv zeta in B1, B2.
  change (fold_left
            (fun heap0 r =>
               upd heap0 r
                 (update_payoff
                    (num_add (dict_get_default Z.eqb (agent_id (heap0 r)) (NInt 0)
                                (stage1_payoffs (sfi env))) (NInt ENDOWMENT_STAGE_2))
                    (heap0 r)))
            (members (sfi env))
            (fold_left
               (fun heap0 r =>
                  upd heap0 r
                    (update_payoff
                       (num_add (dict_get_default Z.eqb (agent_id (heap0 r)) (NInt 0)
                                   (stage1_payoffs (si env)))
                                (NInt (get_stage2_payoff (heap0 r))))
                       (heap0 r)))
               (members (si env)) heap))
    with (fold_left (fun h r => upd h r (update_payoff (fsfi (h r)) (h r)))
                    (members (sfi env)) heap1).
  split; [|split].
  - intros r Hr. rewrite B1.
    + now apply A2.
    + intros Hin. exact (NoDup_app_disjoint _ _ r Hnd Hr Hin).
  - intros r Hr. rewrite (B2 Hsfi r Hr). rewrite A1; [reflexivity|].
    intros Hin. exact (NoDup_app_disjoint _ _ r Hnd Hin Hr).
  - intros r H1 H2. rewrite B1 by exact H2. now apply A1.
Qed.

Lemma reset_for_new_round_keeps (self : Agent) :
  agent_id (reset_for_new_round self) = agent_id self
  /\ cumulative_payoff (reset_for_new_round self) = cumulative_payoff self
  /\ history (reset_for_new_round self) = history self
  /\ strategy (reset_for_new_round self) = strategy self.
Proof. detach.
  unfold reset_for_new_round.
  destruct (current_round_anonymous_data self); cbn; auto.
Qed.

Lemma get_stage1_payoff_contribution (a b : Agent) (size total : Z) :
  contribution a = contribution b ->
  get_stage1_payoff a size total = get_stage1_payoff b size total.
Proof. detach. unfold get_stage1_payoff. now intros ->. Qed.

Lemma get_stage2_payoff_fields (a b : Agent) :
  assigned_punishments a = assigned_punishments b ->
  assigned_rewards a = assigned_rewards b ->
  received_punishments a = received_punishments b ->
  received_rewards a = received_rewards b ->
  get_stage2_payoff a = get_stage2_payoff b.
Proof. detach. unfold get_stage2_payoff. now intros -> -> -> ->. Qed.

(** The decide phase writes the two matrices of the institution and
    nothing else of it. *)
Lemma handle_institution_frame (inst inst' : Institution) (heap heap' : Heap)
    (w w' : World) :
  handle_punishments_and_rewards inst heap w = (Some (inst', heap'), w') ->
  set_punishment_matrix [] (set_reward_matrix [] inst')
  = set_punishment_matrix [] (set_reward_matrix [] inst).
Proof.
  unfold handle_punishments_and_rewards. destruct (kind inst).
  - generalize (members inst) as rs. intros rs. revert inst inst' heap heap' w w'.
    induction rs as [|r0 rs IH]; intros inst inst' heap heap' w w' H.
    + cbn in H. injection H as <- <- <-. reflexivity.
    + cbn [handle_punishments_and_rewards_loop] in H. unfold bind at 1 in H.
      destruct (assign_punishment _ _ w) as [[[[p q] a]|] w1]; [|discriminate].
      apply IH in H. rewrite H. reflexivity.
  - intros H. cbn in H. injection H as <- <- <-. reflexivity.
Qed.

(** The enrolment of a population of distinct agents, as the later phases
    find it. *)
Lemma enrolled_population (env env1 : Environment) (heap heap1 : Heap) (w w1 : World) :
  NoDup (population_ids env heap) ->
  choose_institutions (agents env) (reset_institutions env) heap w
    = (Some (env1, heap1), w1) ->
  NoDup (app (members (si env1)) (members (sfi env1)))
  /\ Permutation (app (members (si env1)) (members (sfi env1))) (agents env)
  /\ NoDup (map (fun r => agent_id (heap r)) (members (si env1)))
  /\ NoDup (map (fun r => agent_id (heap r)) (members (sfi env1)))
  /\ (forall r, agent_id (heap1 r) = agent_id (heap r))
  /\ (forall r, In r (agents env) ->
        cumulative_payoff (heap1 r) = cumulative_payoff (heap r)
        /\ history (heap1 r) = history (heap r)).
Proof.
  intros Hids E1.
  assert (Hnd : NoDup (agents env)) by (eapply NoDup_map_inv; exact Hids).
  apply choose_institutions_enrol in E1; [|exact Hnd].
  destruct E1 as (M1 & M2 & _ & _ & _ & _ & Hout & Hag).
  destruct (reset_institution_fields (current_round env) (si env)) as (R1 & _).
  destruct (reset_institution_fields (current_round env) (sfi env)) as (R2 & _).
  destruct (reset_institutions_fields env) as (Q1 & Q2 & _).
  rewrite Q1, R1 in M1. rewrite Q2, R2 in M2. cbn [app] in M1, M2.
  assert (Hperm : Permutation (app (members (si env1)) (members (sfi env1)))
                              (agents env))
    by (rewrite M1, M2; apply filter_partition_perm).
  assert (Hnd12 : NoDup (app (members (si env1)) (members (sfi env1))))
    by (eapply Permutation_NoDup; [apply Permutation_sym; exact Hperm | exact Hnd]).
  assert (Hids12 : NoDup (app (map (fun r => agent_id (heap r)) (members (si env1)))
                              (map (fun r => agent_id (heap r)) (members (sfi env1))))).
  { rewrite <- map_app.
    eapply Permutation_NoDup; [|exact Hids].
    apply Permutation_sym, Permutation_map. exact Hperm. }
  split; [exact Hnd12|]. split; [exact Hperm|].
  split; [exact (NoDup_app_remove_r _ _ Hids12)|].
  split; [exact (NoDup_app_remove_l _ _ Hids12)|].
  split.
  - intros r. destruct (in_dec Nat.eq_dec r (agents env)) as [Hi|Hn].
    + destruct (Hag r Hi) as (Hs & _).
      pose proof (f_equal agent_id Hs) as E. cbn in E. rewrite E.
      apply reset_for_new_round_keeps.
    + now rewrite Hout.
  - intros r Hi. destruct (Hag r Hi) as (Hs & _).
    destruct (reset_for_new_round_keeps (heap r)) as (_ & K1 & K2 & _).
    split.
    + pose proof (f_equal cumulative_payoff Hs) as E. cbn in E. now rewrite E.
    + pose proof (f_equal history Hs) as E. cbn in E. now rewrite E.
Qed.

(** The payoffs of a round, for a population of distinct identities.  At
    the end of a round that returns, the cumulative payoff of every agent is
    what it was plus the payoff of the round.  For a member of the
    sanctioning institution the round payoff is its stage-one payoff (from
    its contribution and the institution's total and size) plus
    [get_stage2_payoff], the tokens kept plus the rewards received minus the
    punishments received; for a member of the sanction-free institution it
    is its stage-one payoff plus the flat [ENDOWMENT_STAGE_2].  The lookup
    of the stage-one payoff never falls back on its default 0. *)
Theorem round_payoffs_settled :
  forall (env env' : Environment) (heap heap' : Heap) (w w' : World),
    NoDup (population_ids env heap) ->
    run_round env heap w = (Some (env', heap'), w') ->
    forall r, In r (agents env) ->
      cumulative_payoff (heap' r)
      = num_add (cumulative_payoff (heap r)) (round_payoff (heap' r))
      /\ (In r (members (si env')) \/ In r (members (sfi env')))
      /\ (In r (members (si env')) ->
          dict_get Z.eqb (agent_id (heap' r)) (stage1_payoffs (si env'))
          = Some (get_stage1_payoff (heap' r) (group_size (si env'))
                    (total_contribution (si env')))
          /\ round_payoff (heap' r)
             = num_add (get_stage1_payoff (heap' r) (group_size (si env'))
                          (total_contribution (si env')))
                       (NInt (get_stage2_payoff (heap' r)))
          /\ get_stage2_payoff (heap' r)
             = tokens_kept (heap' r) + received_rewards (heap' r)
               - received_punishments (heap' r))
      /\ (In r (members (sfi env')) ->
          dict_get Z.eqb (agent_id (heap' r)) (stage1_payoffs (sfi env'))
          = Some (get_stage1_payoff (heap' r) (group_size (sfi env'))
                    (total_contribution (sfi env')))
          /\ round_payoff (heap' r)
             = num_add (get_stage1_payoff (heap' r) (group_size (sfi env'))
                          (total_contribution (sfi env')))
                       (NInt ENDOWMENT_STAGE_2)).
Proof.
  intros env env' heap heap' w w' Hids H r Hr.
  apply run_round_phases in H.
  destruct H as (env1 & heap1 & w1 & si1 & heap2 & w2 & sfi1 & heap3 & w3 & si2
                 & heap4 & E1 & E2 & E3 & E4 & E5).
  destruct (settled_members _ _ _ _ _ _ _ _ _ _ _ _ _ _ E2 E3 E4 E5)
    as (S1 & S2 & S3 & S4 & _ & _).
  destruct (enrolled_population _ _ _ _ _ _ Hids E1)
    as (Hnd12 & Hperm & Nsi & Nsfi & I1 & K1).
  destruct (K1 r Hr) as [K1c _].
  pose proof (collect_contributions_same _ _ _ _ _ _ E2 r) as C2.
  pose proof (collect_contributions_same _ _ _ _ _ _ E3 r) as C3.
  pose proof (handle_same _ _ _ _ _ _ E4 r) as C4.
  pose proof (apply_same si2 heap4 r) as C5.
  set (env4 := settled_environment env1 si1 sfi1 si2 heap3) in *.
  set (heap5 := apply_punishments_and_rewards si2 heap4) in *.
  pose proof (calculate_payoffs_same env4 heap5 r) as C6.
  pose proof (proj2 (record_round_history_inv _ _ _ _ E5) r) as C7.
  pose proof (collect_contributions_frame _ _ _ _ _ _ E2) as (Msi1 & _ & _).
  pose proof (collect_contributions_frame _ _ _ _ _ _ E3) as (Msfi1 & _ & _).
  pose proof (handle_institution_frame _ _ _ _ _ _ E4) as F4.
  destruct (distribute_public_goods_spec si1 heap3) as (D1 & _ & D3).
  destruct (distribute_public_goods_spec sfi1 heap3) as (D4 & _ & D6).
  (* what the agent keeps from the phases *)
  assert (Iid3 : forall r0, agent_id (heap3 r0) = agent_id (heap r0)).
  { intros r0. rewrite <- I1.
    transitivity (agent_id (heap2 r0)).
    - exact (f_equal agent_id (collect_contributions_same _ _ _ _ _ _ E3 r0)).
    - exact (f_equal agent_id (collect_contributions_same _ _ _ _ _ _ E2 r0)). }
  assert (Iid5 : agent_id (heap5 r) = agent_id (heap3 r)).
  { transitivity (agent_id (heap4 r));
      [exact (f_equal agent_id C5) | exact (f_equal agent_id C4)]. }
  assert (Ic5 : contribution (heap5 r) = contribution (heap3 r)).
  { transitivity (contribution (heap4 r));
      [exact (f_equal contribution C5) | exact (f_equal contribution C4)]. }
  assert (Icum5 : cumulative_payoff (heap5 r) = cumulative_payoff (heap r)).
  { rewrite <- K1c.
    transitivity (cumulative_payoff (heap4 r));
      [exact (f_equal cumulative_payoff C5)|].
    transitivity (cumulative_payoff (heap3 r));
      [exact (f_equal cumulative_payoff C4)|].
    transitivity (cumulative_payoff (heap2 r));
      [exact (f_equal cumulative_payoff C3) | exact (f_equal cumulative_payoff C2)]. }
  set (heap6 := calculate_payoffs env4 heap5) in *.
  assert (I7 : agent_id (heap' r) = agent_id (heap5 r)
               /\ contribution (heap' r) = contribution (heap5 r)
               /\ get_stage2_payoff (heap' r) = get_stage2_payoff (heap5 r)
               /\ cumulative_payoff (heap' r) = cumulative_payoff (heap6 r)
               /\ round_payoff (heap' r) = round_payoff (heap6 r)).
  { split; [|split; [|split; [|split]]].
    - transitivity (agent_id (heap6 r));
        [exact (f_equal agent_id C7) | exact (f_equal agent_id C6)].
    - transitivity (contribution (heap6 r));
        [exact (f_equal contribution C7) | exact (f_equal contribution C6)].
    - transitivity (get_stage2_payoff (heap6 r)).
      + apply get_stage2_payoff_fields.
        * exact (f_equal assigned_punishments C7).
        * exact (f_equal assigned_rewards C7).
        * exact (f_equal received_punishments C7).
        * exact (f_equal received_rewards C7).
      + apply get_stage2_payoff_fields.
        * exact (f_equal assigned_punishments C6).
        * exact (f_equal assigned_rewards C6).
        * exact (f_equal received_punishments C6).
        * exact (f_equal received_rewards C6).
    - exact (f_equal cumulative_payoff C7).
    - exact (f_equal round_payoff C7). }
  destruct I7 as (I7a & I7b & I7c & I7d & I7e).
  (* the institutions at the end *)
  assert (Esi : si env4 = si2) by reflexivity.
  assert (Esfi : sfi env4 = distribute_public_goods sfi1 heap3) by reflexivity.
  assert (Gsi : group_size si2 = group_size si1
                /\ total_contribution si2 = total_contribution si1
                /\ stage1_payoffs si2
                   = stage1_payoffs (distribute_public_goods si1 heap3)).
  { split; [|split].
    - transitivity (group_size (distribute_public_goods si1 heap3));
        [exact (f_equal group_size F4) | exact (f_equal group_size D1)].
    - transitivity (total_contribution (distribute_public_goods si1 heap3));
        [exact (f_equal total_contribution F4)
        | exact (f_equal total_contribution D1)].
    - exact (f_equal stage1_payoffs F4). }
  destruct Gsi as (Gg & Gt & Gp).
  assert (Gsfi : group_size (distribute_public_goods sfi1 heap3) = group_size sfi1
                 /\ total_contribution (distribute_public_goods sfi1 heap3)
                    = total_contribution sfi1)
    by (split; [exact (f_equal group_size D4) | exact (f_equal total_contribution D4)]).
  destruct Gsfi as (Hg & Ht).
  assert (Nsi3 : NoDup (map (fun r0 => agent_id (heap3 r0)) (members si1))).
  { rewrite Msi1. erewrite map_ext by (intros r0; apply Iid3). exact Nsi. }
  assert (Nsfi3 : NoDup (map (fun r0 => agent_id (heap3 r0)) (members sfi1))).
  { rewrite Msfi1. erewrite map_ext by (intros r0; apply Iid3). exact Nsfi. }
  assert (Hnd4 : NoDup (app (members (si env4)) (members (sfi env4)))).
  { rewrite Esi, Esfi. rewrite <- S1, <- S2, S3, S4. exact Hnd12. }
  destruct (calculate_payoffs_spec env4 heap5 Hnd4) as (P1 & P2 & _).
  assert (Hin : In r (members (si env')) \/ In r (members (sfi env'))).
  { rewrite S3, S4. apply in_app_or.
    eapply Permutation_in; [apply Permutation_sym; exact Hperm | exact Hr]. }
  assert (Psi : In r (members (si env')) ->
                dict_get Z.eqb (agent_id (heap' r)) (stage1_payoffs (si env'))
                = Some (get_stage1_payoff (heap' r) (group_size (si env'))
                          (total_contribution (si env')))).
  { intros Hsi. rewrite S1, Gp, Gg, Gt, I7a, Iid5.
    rewrite (D3 Nsi3 r) by (rewrite Msi1, <- S3; exact Hsi).
    f_equal. apply get_stage1_payoff_contribution. now rewrite I7b, Ic5. }
  assert (Psfi : In r (members (sfi env')) ->
                 dict_get Z.eqb (agent_id (heap' r)) (stage1_payoffs (sfi env'))
                 = Some (get_stage1_payoff (heap' r) (group_size (sfi env'))
                           (total_contribution (sfi env')))).
  { intros Hsfi. rewrite S2, Hg, Ht, I7a, Iid5.
    rewrite (D6 Nsfi3 r) by (rewrite Msfi1, <- S4; exact Hsfi).
    f_equal. apply get_stage1_payoff_contribution. now rewrite I7b, Ic5. }
  assert (Hsi6 : In r (members (si env')) ->
                 heap6 r
                 = update_payoff
                     (num_add (get_stage1_payoff (heap' r) (group_size (si env'))
                                 (total_contribution (si env')))
                              (NInt (get_stage2_payoff (heap' r)))) (heap5 r)).
  { intros Hsi. unfold heap6. rewrite P1 by (rewrite Esi, <- S1; exact Hsi).
    rewrite Esi, <- S1. unfold dict_get_default.
    rewrite <- I7a, (Psi Hsi), I7c. reflexivity. }
  assert (Hsfi6 : In r (members (sfi env')) ->
                  heap6 r
                  = update_payoff
                      (num_add (get_stage1_payoff (heap' r) (group_size (sfi env'))
                                  (total_contribution (sfi env')))
                               (NInt ENDOWMENT_STAGE_2)) (heap5 r)).
  { intros Hsfi. unfold heap6. rewrite P2 by (rewrite Esfi, <- S2; exact Hsfi).
    rewrite Esfi, <- S2. unfold dict_get_default.
    rewrite <- I7a, (Psfi Hsfi). reflexivity. }
  split; [|split; [exact Hin|split]].
  - rewrite I7d, I7e, <- Icum5.
    destruct Hin as [Hi|Hi]; [rewrite (Hsi6 Hi) | rewrite (Hsfi6 Hi)]; reflexivity.
  - intros Hsi. split; [exact (Psi Hsi)|]. split; [|reflexivity].
    rewrite I7e, (Hsi6 Hsi). reflexivity.
  - intros Hsfi. split; [exact (Psfi Hsfi)|].
    rewrite I7e, (Hsfi6 Hsfi). reflexivity.
Qed.

(** ** The records of the rounds *)

Lemma round_numbers_succ (first : Z) (count : nat) :
  round_numbers first (S count) = first :: round_numbers (first + 1) count.
Proof. detach.
  unfold round_numbers. cbn [seq map]. f_equal; [apply Z.add_0_r|].
  rewrite <- seq_shift, map_map. apply map_ext. intros k. lia.
Qed.

(** The feedback entry keeps the round number, and the agent's
    contribution and cumulative payoff. *)
Lemma make_feedback_keys (env : Environment) (heap : Heap) (agent : Agent)
    (rank n : Z) :
  let feedback := make_feedback env heap agent (make_agent_data env agent rank n) in
  entry_round_number feedback = Some (VJson (JInt (current_round env)))
  /\ dict_get String.eqb "contribution" feedback
     = Some (VJson (JInt (contribution agent)))
  /\ dict_get String.eqb "cumulative_payoff" feedback
     = Some (of_num (cumulative_payoff agent)).
Proof. detach.
  unfold entry_round_number, make_feedback, make_agent_data.
  destruct (stage_payoffs env agent) as [s1 s2]. cbv zeta.
  repeat split.
Qed.

Lemma record_agents_history (env : Environment) (ranks : list (Z * Z)) (n : Z)
    (rs : list nat) :
  forall (ra ra' : list (Z * StrDict)) (h h' : Heap),
    NoDup rs ->
    record_agents env ranks n rs ra h = Some (ra', h') ->
    (forall r, ~ In r rs -> h' r = h r)
    /\ (forall r, In r rs ->
          exists feedback,
            history (h' r) = app (history (h r)) [feedback]
            /\ entry_round_number feedback = Some (VJson (JInt (current_round env)))
            /\ dict_get String.eqb "contribution" feedback
               = Some (VJson (JInt (contribution (h r))))
            /\ dict_get String.eqb "cumulative_payoff" feedback
               = Some (of_num (cumulative_payoff (h r)))).
Proof. detach.
  induction rs as [|r0 rs IH]; intros ra ra' h h' Hnd H.
  - cbn in H. injection H as <- <-. split; [reflexivity | intros r []].
  - cbn [record_agents] in H.
    destruct (dict_get Z.eqb (agent_id (h r0)) ranks) as [rank|]; cbn [obind] in H;
      [|discriminate].
    inversion Hnd as [|? ? Hnotin Hnd']; subst.
    destruct (IH _ _ _ _ Hnd' H) as [Hout Hin]. split.
    + intros r Hn. cbn in Hn. rewrite Hout by tauto.
      apply upd_other. intros ->. tauto.
    + intros r [<-|Hr].
      * rewrite (Hout r0 Hnotin), upd_same.
        eexists. split; [reflexivity|]. apply make_feedback_keys.
      * destruct (Hin r Hr) as (fb & Hh & Hk).
        assert (Hne : r <> r0) by (intros ->; contradiction).
        rewrite upd_other in Hh, Hk by exact Hne.
        exists fb. split; [exact Hh | exact Hk].
Qed.

Lemma stage_anonymous_data_history (env : Environment) (ra : list (Z * StrDict))
    (rs : list nat) :
  forall (h h' : Heap),
    stage_anonymous_data env ra rs h = Some h' ->
    forall r, history (h' r) = history (h r).
Proof. detach.
  induction rs as [|r0 rs IH]; intros h h' H r.
  - cbn in H. now injection H as <-.
  - cbn [stage_anonymous_data] in H.
    destruct (anonymous_data_list ra h (agent_id (h r0)) (agents env)) as [batch|];
      cbn [obind] in H; [|discriminate].
    rewrite (IH _ _ H r).
    destruct (Nat.eq_dec r r0) as [->|Hne].
    + rewrite upd_same. reflexivity.
    + now rewrite upd_other.
Qed.

Lemma record_round_history_entries (env env' : Environment) (heap heap' : Heap) :
  NoDup (agents env) ->
  record_round_history env heap = Some (env', heap') ->
  forall r, In r (agents env) ->
    exists feedback,
      history (heap' r) = app (history (heap r)) [feedback]
      /\ entry_round_number feedback = Some (VJson (JInt (current_round env)))
      /\ dict_get String.eqb "contribution" feedback
         = Some (VJson (JInt (contribution (heap r))))
      /\ dict_get String.eqb "cumulative_payoff" feedback
         = Some (of_num (cumulative_payoff (heap r))).
Proof. detach.
  unfold record_round_history. intros Hnd H r Hr.
  destruct (record_agents _ _ _ _ _ _) as [[ra heap1]|] eqn:E1; cbn [obind] in H;
    [|discriminate].
  destruct (stage_anonymous_data _ _ _ _) as [heap2|] eqn:E2; cbn [obind] in H;
    [|discriminate].
  injection H as <- <-.
  rewrite (stage_anonymous_data_history _ _ _ _ _ E2 r).
  exact (proj2 (record_agents_history _ _ _ _ _ _ _ _ Hnd E1) r Hr).
Qed.

Lemma choose_institutions_records (rs : list nat) :
  forall (env env' : Environment) (heap heap' : Heap) (w w' : World),
    choose_institutions rs env heap w = (Some (env', heap'), w') ->
    env_history env' = env_history env /\ results env' = results env.
Proof.
  induction rs as [|r0 rs IH]; intros env env' heap heap' w w' H.
  - cbn in H. injection H as <- <- <-. split; reflexivity.
  - rewrite choose_institutions_cons in H. apply bind_Some in H.
    destruct H as (a & w1 & _ & H).
    destruct (enroll r0 a env) as [env1 a1] eqn:Ee.
    apply IH in H. destruct H as [H1 H2].
    assert (He : env_history env1 = env_history env /\ results env1 = results env).
    { unfold enroll in Ee.
      destruct (institution_choice a) as [[|]|]; injection Ee as <- _;
        split; reflexivity. }
    destruct He as [He1 He2]. split; congruence.
Qed.

(** One round: what it adds to the records and to the agents' histories. *)
Lemma run_round_log (env env' : Environment) (heap heap' : Heap) (w w' : World) :
  NoDup (population_ids env heap) ->
  run_round env heap w = (Some (env', heap'), w') ->
  (exists round_data,
      results env' = app (results env) [round_data]
      /\ env_history env' = app (env_history env) [round_data]
      /\ rd_round_number round_data = current_round env
      /\ Permutation (app (rd_si_members round_data) (rd_sfi_members round_data))
                     (population_ids env heap))
  /\ agents env' = agents env
  /\ (forall r, agent_id (heap' r) = agent_id (heap r))
  /\ (forall r, In r (agents env) ->
        exists feedback,
          history (heap' r) = app (history (heap r)) [feedback]
          /\ entry_round_number feedback = Some (VJson (JInt (current_round env)))
          /\ dict_get String.eqb "contribution" feedback
             = Some (VJson (JInt (contribution (heap' r))))
          /\ dict_get String.eqb "cumulative_payoff" feedback
             = Some (of_num (cumulative_payoff (heap' r)))).
Proof.
  intros Hids H.
  assert (Hnd : NoDup (agents env)) by (eapply NoDup_map_inv; exact Hids).
  apply run_round_phases in H.
  destruct H as (env1 & heap1 & w1 & si1 & heap2 & w2 & sfi1 & heap3 & w3 & si2
                 & heap4 & E1 & E2 & E3 & E4 & E5).
  destruct (settled_members _ _ _ _ _ _ _ _ _ _ _ _ _ _ E2 E3 E4 E5)
    as (_ & _ & S3 & S4 & S5 & S6).
  destruct (enrolled_population _ _ _ _ _ _ Hids E1)
    as (_ & Hperm & _ & _ & I1 & K1).
  pose proof (choose_institutions_enrol _ _ _ _ _ _ _ Hnd E1)
    as (_ & _ & _ & _ & Ag1 & Cr1 & _ & _).
  destruct (reset_institutions_fields env) as (_ & _ & Ag0 & Cr0 & Eh0 & Rs0).
  rewrite Ag0 in Ag1. rewrite Cr0 in Cr1.
  assert (Hid : forall r, agent_id (heap' r) = agent_id (heap r)).
  { intros r. rewrite <- I1.
    eapply (settled_phases_keep agent_id);
      [ | | | | | exact E2 | exact E3 | exact E4 | exact E5];
      intros a b Hab; exact (f_equal agent_id Hab). }
  set (env4 := settled_environment env1 si1 sfi1 si2 heap3) in *.
  set (heap5 := calculate_payoffs env4 (apply_punishments_and_rewards si2 heap4)) in *.
  assert (Eh4 : env_history env4 = env_history env
                /\ results env4 = results env
                /\ agents env4 = agents env
                /\ current_round env4 = current_round env).
  { unfold env4, settled_environment. cbn.
    split; [|split; [|split; [exact Ag1 | exact Cr1]]].
    - transitivity (env_history (reset_institutions env)); [|exact Eh0].
      exact (proj1 (choose_institutions_records _ _ _ _ _ _ _ E1)).
    - transitivity (results (reset_institutions env)); [|exact Rs0].
      exact (proj2 (choose_institutions_records _ _ _ _ _ _ _ E1)). }
  destruct Eh4 as (Eh4 & Rs4 & Ag4 & Cr4).
  assert (Hid5 : forall r, agent_id (heap5 r) = agent_id (heap r)).
  { intros r. rewrite <- Hid.
    symmetry. exact (f_equal agent_id (proj2 (record_round_history_inv _ _ _ _ E5) r)). }
  pose proof (record_round_history_inv _ _ _ _ E5) as [(rd & Eenv & Rn & Rsi & Rsfi & _) Hrec].
  split; [|split; [|split; [exact Hid|]]].
  - assert (Er : results env' = app (results env4) [rd]
                  /\ env_history env' = app (env_history env4) [rd]
                  /\ si env' = si env4 /\ sfi env' = sfi env4)
      by (rewrite Eenv; repeat split).
    destruct Er as (Er1 & Er2 & Er3 & Er4).
    exists rd. rewrite Er1, Er2, Eh4, Rs4, Rn, Cr4.
    split; [reflexivity|]. split; [reflexivity|]. split; [reflexivity|].
    rewrite Rsi, Rsfi, <- map_app, <- Er3, <- Er4, S3, S4.
    unfold population_ids.
    erewrite map_ext by (intros r; apply Hid5).
    apply Permutation_map. exact Hperm.
  - rewrite S5. exact Ag1.
  - intros r Hr.
    assert (Hnd4 : NoDup (agents env4)) by (rewrite Ag4; exact Hnd).
    destruct (record_round_history_entries _ _ _ _ Hnd4 E5 r)
      as (fb & Hh & Hn & Hc & Hp); [rewrite Ag4; exact Hr|].
    exists fb. rewrite Cr4 in Hn.
    assert (H5 : history (heap5 r) = history (heap r)).
    { destruct (K1 r Hr) as [_ <-].
      unfold heap5.
      etransitivity; [exact (f_equal history (calculate_payoffs_same env4 _ r))|].
      etransitivity; [exact (f_equal history (apply_same si2 heap4 r))|].
      etransitivity; [exact (f_equal history (handle_same _ _ _ _ _ _ E4 r))|].
      etransitivity;
        [exact (f_equal history (collect_contributions_same _ _ _ _ _ _ E3 r))|].
      exact (f_equal history (collect_contributions_same _ _ _ _ _ _ E2 r)). }
    rewrite H5 in Hh.
    assert (Hc5 : contribution (heap' r) = contribution (heap5 r))
      by exact (f_equal contribution (Hrec r)).
    assert (Hp5 : cumulative_payoff (heap' r) = cumulative_payoff (heap5 r))
      by exact (f_equal cumulative_payoff (Hrec r)).
    rewrite <- Hc5 in Hc. rewrite <- Hp5 in Hp.
    split; [exact Hh|]. split; [exact Hn|]. split; [exact Hc | exact Hp].
Qed.

(** The records of a simulation.  When [count] rounds numbered from
    [first] return, for a population of distinct identities, the
    environment has [count] more records, the same ones at the end of
    [results] and of its history, numbered [first], [first + 1], ... in this
    order; in each record the member identities of the two institutions
    together are a permutation of the identities of the population; and the
    history of every agent has [count] more entries, which carry the same
    round numbers in the same order. *)
Theorem rounds_recorded :
  forall (count : nat) (first : Z) (env env' : Environment) (heap heap' : Heap)
         (w w' : World),
    NoDup (population_ids env heap) ->
    run_rounds count first env heap w = (Some (env', heap'), w') ->
    (exists records,
        results env' = app (results env) records
        /\ env_history env' = app (env_history env) records
        /\ map rd_round_number records = round_numbers first count
        /\ Forall (fun round_data =>
                     Permutation (app (rd_si_members round_data)
                                      (rd_sfi_members round_data))
                                 (population_ids env heap)) records)
    /\ (forall r, In r (agents env) ->
          exists entries,
            history (heap' r) = app (history (heap r)) entries
            /\ map entry_round_number entries
               = map (fun n => Some (VJson (JInt n))) (round_numbers first count)).
Proof.
  induction count as [|count IH]; intros first env env' heap heap' w w' Hids H.
  - cbn in H. injection H as <- <- <-. split.
    + exists []. rewrite !app_nil_r. repeat split. constructor.
    + intros r _. exists []. rewrite app_nil_r. split; reflexivity.
  - rewrite run_rounds_succ in H. apply bind_Some in H.
    destruct H as ([env1 heap1] & w1 & E & H).
    assert (Hids0 : NoDup (population_ids (set_current_round first env) heap))
      by exact Hids.
    destruct (run_round_log _ _ _ _ _ _ Hids0 E)
      as ((rd & R1 & R2 & R3 & R4) & Ag & Id & Hh).
    assert (Hpop : population_ids env1 heap1 = population_ids env heap).
    { unfold population_ids. rewrite Ag. apply map_ext. exact Id. }
    assert (Hids1 : NoDup (population_ids env1 heap1)) by (rewrite Hpop; exact Hids).
    destruct (IH _ _ _ _ _ _ _ Hids1 H) as ((recs & S1 & S2 & S3 & S4) & Hh').
    rewrite round_numbers_succ. split.
    + exists (rd :: recs).
      split; [rewrite S1, R1, <- app_assoc; reflexivity|].
      split; [rewrite S2, R2, <- app_assoc; reflexivity|].
      split; [cbn [map]; rewrite R3, S3; reflexivity|].
      constructor; [exact R4|]. rewrite <- Hpop. exact S4.
    + intros r Hr.
      destruct (Hh r Hr) as (fb & F1 & F2 & _).
      destruct (Hh' r) as (entries & G1 & G2); [rewrite Ag; exact Hr|].
      exists (fb :: entries).
      split; [rewrite G1, F1, <- app_assoc; reflexivity|].
      cbn [map]. rewrite F2, G2. reflexivity.
Qed.

(** ** Conservation of the sanction tokens *)

Lemma dict_set_keys_NoDup {V : Type} (k : Z) (v : V) (d : list (Z * V)) :
  NoDup (dict_keys d) -> NoDup (dict_keys (dict_set Z.eqb k v d)).
Proof. detach.
  induction d as [|[k' v'] d IH]; intros H.
  - cbn. constructor; [intros [] | constructor].
  - inversion H as [|? ? Hn Hd]; subst. cbn [dict_set].
    destruct (k =? k') eqn:E.
    + exact H.
    + change (NoDup (k' :: dict_keys (dict_set Z.eqb k v d))).
      constructor; [|auto]. intros Hin. apply dict_keys_set in Hin.
      apply Z.eqb_neq in E. destruct Hin as [->|Hin]; [congruence | contradiction].
Qed.

Lemma process_allocations_NoDup (n : Z) (table : list (string * Agent))
    (items : list (string * json)) :
  forall allocations remaining allocations' remaining',
    NoDup (dict_keys allocations) ->
    process_allocations n table items allocations remaining
      = Some (allocations', remaining') ->
    NoDup (dict_keys allocations').
Proof. detach.
  induction items as [|[key tokens] items IH]; cbn [process_allocations];
    intros a r a' r' Hnd H.
  - injection H as <- <-. exact Hnd.
  - destruct (int_of_str (clean_agent_key key)) as [num|]; [|eauto].
    destruct ((1 <=? num) && (num <=? n))%bool; [|eauto].
    destruct (py_int tokens) as [t|]; cbn [obind] in H; [|discriminate].
    destruct (dict_get String.eqb (str_of_Z num) table) as [agent|];
      cbn [obind] in H; [|discriminate].
    pose proof (dict_set_keys_NoDup (agent_id agent) (Z.max 0 (Z.min t r)) a Hnd)
      as Hnd1.
    destruct (r - Z.max 0 (Z.min t r) <=? 0).
    + injection H as <- <-. exact Hnd1.
    + exact (IH _ _ _ _ Hnd1 H).
Qed.

Lemma assign_punishment_keys (self self' : Agent) (gs : GroupState) (w w' : World)
    (p r : list (Z * Z)) :
  assign_punishment self gs w = (Some (p, r, self'), w') ->
  NoDup (dict_keys p) /\ NoDup (dict_keys r).
Proof.
  unfold assign_punishment, bind, lift, ret, raise. intros H.
  destruct (construct_punishment_prompt self gs) as [[prompt self1]|]; [|discriminate].
  destruct (send_request prompt w) as [[resp|] w1]; [|discriminate].
  destruct (dump_info (agent_id self1) prompt resp w1) as [[u|] w2]; [|discriminate].
  assert (Hd : let '((p', r', _), _) := parse_punishment_response self1 resp gs w2 in
               NoDup (dict_keys p') /\ NoDup (dict_keys r')).
  { unfold parse_punishment_response.
    destruct (try_parse_punishment self1 resp gs w2) as [[[[p' r'] self2]|] w3] eqn:E.
    - apply try_parse_punishment_Some in E.
      destruct E as (data & pitems & ritems & rem & rem' & _ & _ & _ & Hp & Hr).
      split; eapply process_allocations_NoDup; try eassumption; constructor.
    - split; constructor. }
  destruct (parse_punishment_response self1 resp gs w2) as [[[p' r'] self2] w3].
  injection H as <- <- <- <-. exact Hd.
Qed.

Lemma record_allocations_cons (actor target tokens : Z) (allocations : list (Z * Z))
    (matrix : list (Z * list (Z * Z))) :
  record_allocations actor ((target, tokens) :: allocations) matrix
  = record_allocations actor allocations
      (dict_set Z.eqb target
         (dict_set Z.eqb actor tokens
            (dict_get_default Z.eqb target []
               (if dict_mem Z.eqb target matrix then matrix
                else dict_set Z.eqb target [] matrix)))
         (if dict_mem Z.eqb target matrix then matrix
          else dict_set Z.eqb target [] matrix)).
Proof. detach. reflexivity. Qed.

(** The row of a target after one agent's allocations are recorded. *)
Lemma record_allocations_row (actor : Z) (allocations : list (Z * Z)) :
  forall (matrix : list (Z * list (Z * Z))) (t : Z),
    NoDup (dict_keys allocations) ->
    dict_get Z.eqb t (record_allocations actor allocations matrix)
    = match dict_get Z.eqb t allocations with
      | Some tokens =>
          Some (dict_set Z.eqb actor tokens (dict_get_default Z.eqb t [] matrix))
      | None => dict_get Z.eqb t matrix
      end.
Proof. detach.
  induction allocations as [|[k v] d IH]; intros M t Hnd; [reflexivity|].
  inversion Hnd as [|? ? Hn Hd]; subst.
  rewrite record_allocations_cons, IH by exact Hd.
  set (M0 := if dict_mem Z.eqb k M then M else dict_set Z.eqb k [] M).
  assert (Hk : dict_get_default Z.eqb k [] M0 = dict_get_default Z.eqb k [] M).
  { unfold M0, dict_mem, dict_get_default.
    destruct (dict_get Z.eqb k M) as [row|] eqn:E; [now rewrite E|].
    now rewrite dict_get_set_same. }
  assert (Ho : forall t0, t0 <> k -> dict_get Z.eqb t0 M0 = dict_get Z.eqb t0 M).
  { intros t0 Hne. unfold M0. destruct (dict_mem Z.eqb k M); [reflexivity|].
    now apply dict_get_set_other. }
  cbn [dict_get]. destruct (t =? k) eqn:E.
  - apply Z.eqb_eq in E. subst t.
    apply dict_get_None in Hn. rewrite Hn, dict_get_set_same, Hk. reflexivity.
  - apply Z.eqb_neq in E.
    unfold dict_get_default. rewrite dict_get_set_other, Ho by exact E. reflexivity.
Qed.

Lemma sum_values_app (d1 d2 : list (Z * Z)) :
  sum_values (app d1 d2) = sum_values d1 + sum_values d2.
Proof. detach.
  unfold sum_values, dict_values. induction d1 as [|[k v] d1 IH]; cbn; [reflexivity|].
  cbn in IH. rewrite IH. lia.
Qed.

(** Recording the allocations of an actor that has no entry yet adds to
    the tokens directed at a target what the actor gives to it. *)
Lemma tokens_directed_at_record (actor : Z) (allocations : list (Z * Z))
    (matrix : list (Z * list (Z * Z))) (t : Z) :
  NoDup (dict_keys allocations) ->
  (forall row, dict_get Z.eqb t matrix = Some row -> ~ In actor (dict_keys row)) ->
  tokens_directed_at t (record_allocations actor allocations matrix)
  = tokens_directed_at t matrix + tokens_assigned_to t allocations.
Proof. detach.
  intros Hnd Hrow. unfold tokens_directed_at, tokens_assigned_to.
  rewrite record_allocations_row by exact Hnd. unfold dict_get_default.
  destruct (dict_get Z.eqb t allocations) as [v|]; [|lia].
  destruct (dict_get Z.eqb t matrix) as [row|] eqn:E.
  - rewrite dict_set_fresh by (apply Hrow; first [exact E | reflexivity]).
    rewrite sum_values_app. unfold sum_values. cbn. lia.
  - unfold sum_values. cbn. lia.
Qed.

Lemma record_allocations_actors (actor : Z) (allocations : list (Z * Z))
    (matrix : list (Z * list (Z * Z))) (ids : list Z) :
  NoDup (dict_keys allocations) ->
  ~ In actor ids ->
  actors_outside ids matrix ->
  actors_outside ids (record_allocations actor allocations matrix).
Proof. detach.
  intros Hnd Ha Hm t row a Hrow Hin.
  rewrite record_allocations_row in Hrow by exact Hnd.
  destruct (dict_get Z.eqb t allocations) as [v|].
  - injection Hrow as <-. apply dict_keys_set in Hin.
    destruct Hin as [->|Hin]; [exact Ha|].
    unfold dict_get_default in Hin.
    destruct (dict_get Z.eqb t matrix) as [row0|] eqn:E; [|destruct Hin].
    exact (Hm t row0 a E Hin).
  - exact (Hm t row a Hrow Hin).
Qed.

Lemma actors_outside_tail (id : Z) (ids : list Z) (matrix : list (Z * list (Z * Z))) :
  actors_outside (id :: ids) matrix -> actors_outside ids matrix.
Proof. detach.
  intros H t row a Hrow Hin Hi. apply (H t row a Hrow Hin). now right.
Qed.

(** The decide loop: the tokens directed at a target grow by what the
    deciding members assign to it. *)
Lemma handle_loop_tokens (rs : list nat) :
  forall (inst inst' : Institution) (heap heap' : Heap) (w w' : World),
    NoDup (map (fun r => agent_id (heap r)) rs) ->
    actors_outside (map (fun r => agent_id (heap r)) rs) (punishment_matrix inst) ->
    actors_outside (map (fun r => agent_id (heap r)) rs) (reward_matrix inst) ->
    handle_punishments_and_rewards_loop rs inst heap w = (Some (inst', heap'), w') ->
    (forall t,
        tokens_directed_at t (punishment_matrix inst')
        = tokens_directed_at t (punishment_matrix inst)
          + tokens_assigned_by assigned_punishments heap' rs t)
    /\ (forall t,
          tokens_directed_at t (reward_matrix inst')
          = tokens_directed_at t (reward_matrix inst)
            + tokens_assigned_by assigned_rewards heap' rs t)
    /\ (forall r, ~ In r rs -> heap' r = heap r).
Proof.
  induction rs as [|r0 rs IH]; intros inst inst' heap heap' w w' Hnd Hp Hr H.
  - cbn in H. injection H as <- <- <-. unfold tokens_assigned_by. cbn.
    split; [intros t; lia|]. split; [intros t; lia | reflexivity].
  - cbn [handle_punishments_and_rewards_loop] in H. unfold bind at 1 in H.
    destruct (assign_punishment _ _ w) as [[[[p q] a]|] w1] eqn:Ea; [|discriminate].
    pose proof (assign_punishment_keys _ _ _ _ _ _ _ Ea) as [Kp Kq].
    apply assign_punishment_frame in Ea. destruct Ea as (Hs & Ap & Aq & _).
    assert (Hid : agent_id a = agent_id (heap r0)) by exact (f_equal agent_id Hs).
    cbn [map] in Hnd, Hp, Hr. inversion Hnd as [|? ? Hn0 Hnd']; subst.
    assert (Hr0 : ~ In r0 rs).
    { intros Hin. apply Hn0. apply in_map_iff. now exists r0. }
    assert (Hids : map (fun r => agent_id (upd heap r0 a r)) rs
                   = map (fun r => agent_id (heap r)) rs).
    { apply map_ext_in. intros r Hin. rewrite upd_other; [reflexivity|].
      intros ->. contradiction. }
    rewrite Hid in H.
    apply IH in H.
    + destruct H as (Tp & Tr & Ho).
      cbn [punishment_matrix reward_matrix set_punishment_matrix set_reward_matrix]
        in Tp, Tr.
      assert (H0 : heap' r0 = a) by (rewrite (Ho r0 Hr0); apply upd_same).
      unfold tokens_assigned_by in *. cbn [map fold_right]. rewrite H0.
      split; [|split].
      * intros t. rewrite Tp, tokens_directed_at_record; [lia | exact Kp |].
        intros row Hrow Hin. apply (Hp t row _ Hrow Hin). now left.
      * intros t. rewrite Tr, tokens_directed_at_record; [lia | exact Kq |].
        intros row Hrow Hin. apply (Hr t row _ Hrow Hin). now left.
      * intros r Hn. cbn in Hn. rewrite Ho by tauto. apply upd_other.
        intros ->. tauto.
    + rewrite Hids. exact Hnd'.
    + rewrite Hids.
      cbn [punishment_matrix reward_matrix set_punishment_matrix set_reward_matrix].
      apply record_allocations_actors; [exact Kp | exact Hn0 |].
      eapply actors_outside_tail; exact Hp.
    + rewrite Hids.
      cbn [punishment_matrix reward_matrix set_punishment_matrix set_reward_matrix].
      apply record_allocations_actors; [exact Kq | exact Hn0 |].
      eapply actors_outside_tail; exact Hr.
Qed.

Lemma collect_contributions_matrices (inst inst' : Institution) (heap heap' : Heap)
    (w w' : World) :
  collect_contributions inst heap w = (Some (inst', heap'), w') ->
  punishment_matrix inst' = punishment_matrix inst
  /\ reward_matrix inst' = reward_matrix inst.
Proof.
  unfold collect_contributions. cbv zeta.
  set (inst0 := set_anonymized_contributions [] _).
  change (punishment_matrix inst) with (punishment_matrix inst0).
  change (reward_matrix inst) with (reward_matrix inst0).
  generalize (members inst0) at 1 as rs. intros rs. generalize inst0 as i. clear inst0.
  revert inst' heap heap' w w'.
  induction rs as [|r0 rs IH]; intros inst' heap heap' w w' i H.
  - cbn in H. injection H as <- <- <-. split; reflexivity.
  - cbn [collect_contributions_loop] in H. unfold bind at 1 in H.
    destruct (decide_contribution _ _ w) as [[a|] w1]; [|discriminate].
    apply IH in H. exact H.
Qed.

Lemma members_cleared_matrices (a b : Institution) :
  set_members [] a = set_members [] b ->
  punishment_matrix a = punishment_matrix b /\ reward_matrix a = reward_matrix b.
Proof. detach.
  intros H. split; [exact (f_equal punishment_matrix H) | exact (f_equal reward_matrix H)].
Qed.

Lemma payoffs_cleared_matrices (a b : Institution) :
  set_stage1_payoffs [] a = set_stage1_payoffs [] b ->
  punishment_matrix a = punishment_matrix b /\ reward_matrix a = reward_matrix b.
Proof. detach.
  intros H. split; [exact (f_equal punishment_matrix H) | exact (f_equal reward_matrix H)].
Qed.

(** The sanction tokens of a round are conserved.  At the end of a round
    that returns, for a population of distinct identities, the tokens that
    the matrices of the sanctioning institution direct at an identity are
    the sum, over the members, of the tokens that each member's own
    [assigned_punishments] (or [assigned_rewards]) gives to this identity;
    and what a member has received is this sum times [PUNISHMENT_EFFECT]
    (or [REWARD_EFFECT]): no token is lost, doubled or moved to another
    target between the decisions and the credit. *)
Theorem sanction_tokens_conserved :
  forall (env env' : Environment) (heap heap' : Heap) (w w' : World),
    well_formed env ->
    NoDup (population_ids env heap) ->
    run_round env heap w = (Some (env', heap'), w') ->
    (forall t,
        tokens_directed_at t (punishment_matrix (si env'))
        = tokens_assigned_by assigned_punishments heap' (members (si env')) t
        /\ tokens_directed_at t (reward_matrix (si env'))
           = tokens_assigned_by assigned_rewards heap' (members (si env')) t)
    /\ (forall r, In r (members (si env')) ->
          received_punishments (heap' r)
          = PUNISHMENT_EFFECT
            * tokens_assigned_by assigned_punishments heap' (members (si env'))
                (agent_id (heap' r))
          /\ received_rewards (heap' r)
             = REWARD_EFFECT
               * tokens_assigned_by assigned_rewards heap' (members (si env'))
                   (agent_id (heap' r))).
Proof.
  intros env env' heap heap' w w' Hwf Hids H.
  assert (Hnd : NoDup (agents env)) by (eapply NoDup_map_inv; exact Hids).
  destruct (run_round_totals _ _ _ _ _ _ Hwf Hnd H) as (_ & _ & _ & Htot & _).
  apply run_round_phases in H.
  destruct H as (env1 & heap1 & w1 & si1 & heap2 & w2 & sfi1 & heap3 & w3 & si2
                 & heap4 & E1 & E2 & E3 & E4 & E5).
  destruct (settled_members _ _ _ _ _ _ _ _ _ _ _ _ _ _ E2 E3 E4 E5)
    as (S1 & _ & S3 & _ & _ & _).
  destruct (enrolled_population _ _ _ _ _ _ Hids E1)
    as (_ & _ & Nsi & _ & I1 & _).
  pose proof (choose_institutions_enrol _ _ _ _ _ _ _ Hnd E1)
    as (_ & _ & Fsi & _).
  pose proof (choose_institutions_spec _ _ _ _ _ _ _ E1) as (_ & Ksi & _).
  destruct (reset_institutions_fields env) as (Rsi & _).
  rewrite Rsi in Fsi, Ksi.
  destruct Hwf as [Wsi _].
  destruct (reset_institution_fields (current_round env) (si env))
    as (_ & Rk & _ & _ & _ & _ & Rm).
  destruct (Rm Wsi) as [Rp Rr]. rewrite Rk, Wsi in Ksi.
  assert (M1 : punishment_matrix (si env1) = [] /\ reward_matrix (si env1) = []).
  { destruct (members_cleared_matrices _ _ Fsi) as [Fp Fr].
    split; [rewrite Fp; exact Rp | rewrite Fr; exact Rr]. }
  destruct M1 as [M1p M1r].
  destruct (collect_contributions_matrices _ _ _ _ _ _ E2) as [M2p M2r].
  destruct (collect_contributions_frame _ _ _ _ _ _ E2) as (Mm2 & K2 & _).
  destruct (distribute_public_goods_spec si1 heap3) as (D1 & _ & _).
  destruct (distribute_public_goods_frame si1 heap3) as [Mm3 K3].
  set (si3 := distribute_public_goods si1 heap3) in *.
  assert (M3 : punishment_matrix si3 = [] /\ reward_matrix si3 = []).
  { destruct (payoffs_cleared_matrices _ _ D1) as [Dp Dr].
    split; [rewrite Dp, M2p; exact M1p | rewrite Dr, M2r; exact M1r]. }
  destruct M3 as [M3p M3r].
  assert (K : kind si3 = SI) by congruence.
  assert (Mm : members si3 = members (si env1)) by congruence.
  assert (Iid3 : forall r0, agent_id (heap3 r0) = agent_id (heap r0)).
  { intros r0. rewrite <- I1.
    transitivity (agent_id (heap2 r0)).
    - exact (f_equal agent_id (collect_contributions_same _ _ _ _ _ _ E3 r0)).
    - exact (f_equal agent_id (collect_contributions_same _ _ _ _ _ _ E2 r0)). }
  assert (Hempty : forall ids, actors_outside ids []).
  { intros ids t row a Hrow. discriminate Hrow. }
  unfold handle_punishments_and_rewards in E4. rewrite K in E4.
  apply handle_loop_tokens in E4.
  2:{ rewrite Mm. erewrite map_ext by (intros r0; apply Iid3). exact Nsi. }
  2:{ rewrite M3p. apply Hempty. }
  2:{ rewrite M3r. apply Hempty. }
  destruct E4 as (Tp & Tr & _).
  rewrite M3p in Tp. rewrite M3r in Tr.
  pose proof (record_round_history_inv _ _ _ _ E5) as [_ Hrec].
  set (env4 := settled_environment env1 si1 sfi1 si2 heap3) in *.
  assert (Hp : forall m, assigned_punishments (heap' m) = assigned_punishments (heap4 m)).
  { intros m.
    etransitivity; [exact (f_equal assigned_punishments (Hrec m))|].
    etransitivity;
      [exact (f_equal assigned_punishments (calculate_payoffs_same env4 _ m))|].
    exact (f_equal assigned_punishments (apply_same si2 heap4 m)). }
  assert (Hr : forall m, assigned_rewards (heap' m) = assigned_rewards (heap4 m)).
  { intros m.
    etransitivity; [exact (f_equal assigned_rewards (Hrec m))|].
    etransitivity;
      [exact (f_equal assigned_rewards (calculate_payoffs_same env4 _ m))|].
    exact (f_equal assigned_rewards (apply_same si2 heap4 m)). }
  assert (Hall : forall t,
             tokens_directed_at t (punishment_matrix (si env'))
             = tokens_assigned_by assigned_punishments heap' (members (si env')) t
             /\ tokens_directed_at t (reward_matrix (si env'))
                = tokens_assigned_by assigned_rewards heap' (members (si env')) t).
  { intros t. rewrite S3, <- Mm, S1, Tp, Tr. unfold tokens_assigned_by.
    split.
    - change (tokens_directed_at t []) with 0. rewrite Z.add_0_l. f_equal.
      apply map_ext. intros m. now rewrite Hp.
    - change (tokens_directed_at t []) with 0. rewrite Z.add_0_l. f_equal.
      apply map_ext. intros m. now rewrite Hr. }
  split; [exact Hall|].
  intros r Hin. destruct (Htot r Hin) as (_ & Rp' & Rr').
  destruct (Hall (agent_id (heap' r))) as [Ap Ar].
  rewrite Rp', Rr', Ap, Ar. split; apply Z.mul_comm.
Qed.

(** ** The window of anonymized rounds *)












End Simulation.

(* ===================================================================== *)
(** * The properties on sample data *)
(* ===================================================================== *)

(** Scenario C on a snapshot of four other members; the reply carries a
    third punishment entry and a second reward entry, which are dropped. *)
Lemma scenario_C_budget_truncation_witness :
  let gs := mkGroupState [new_agent 1; new_agent 2; new_agent 3; new_agent 4]
                         [] 5 1 in
  let self := set_anonymized_id_mapping [(1, 1); (2, 2); (3, 3); (4, 4)] (new_agent 0) in
  let '((punishments, rewards, _), _) :=
    parse_punishment_response (list string) sample_send_request sample_json_loads
      sample_py_str self "Here it is: {C} Thanks." gs ["rewritten"] in
  punishments = [(1, 15); (2, 5)] /\ rewards = [(3, 0)].
Proof.
  intros gs self.
  pose proof (scenario_C_budget_truncation (list string) sample_send_request
                sample_json_loads sample_py_str) as (_ & _ & Hscenario & _ & _).
  destruct (Hscenario self "Here it is: {C} Thanks." gs ["rewritten"]
              (new_agent 1) (new_agent 2) (new_agent 3) [new_agent 4]
              [("reasoning", JStr "free riders");
               ("punishments", JDict [("1", JInt 15); ("2", JInt 10); ("3", JInt 4)]);
               ("rewards", JDict [("3", JInt 5); ("1", JInt 2)])]
              [("3", JInt 4)] [("1", JInt 2)]) as (_ & _ & H).
  - reflexivity.
  - cbn. discriminate.
  - vm_compute. reflexivity.
  - vm_compute. reflexivity.
  - vm_compute. reflexivity.
  - vm_compute. discriminate.
  - exact H.
Defined.

(** The statement without the proviso fails when the summary model cannot
    be reached: the reply is that of Scenario C, the agent holds the alias
    mapping of its four peers, and both dicts come back empty. *)
Lemma scenario_C_lost_when_rewriting_raises :
  sample_json_loads (extract_json "Here it is: {C} Thanks.")
  = Some (JDict [("reasoning", JStr "free riders");
                 ("punishments", JDict [("1", JInt 15); ("2", JInt 10); ("3", JInt 4)]);
                 ("rewards", JDict [("3", JInt 5); ("1", JInt 2)])])
  /\ fst (parse_punishment_response (list string) sample_failing_request
            sample_json_loads sample_py_str
            (set_anonymized_id_mapping [(1, 1); (2, 2); (3, 3); (4, 4)] (new_agent 0))
            "Here it is: {C} Thanks."
            (mkGroupState [new_agent 1; new_agent 2; new_agent 3; new_agent 4] [] 5 1)
            [])
     = ([], [],
        set_deanonymized_punishment_reasoning (JStr "")
          (set_punishment_reasoning (JStr "")
             (set_anonymized_id_mapping [(1, 1); (2, 2); (3, 3); (4, 4)] (new_agent 0))))
  /\ ~ (let '((punishments, rewards, _), _) :=
          parse_punishment_response (list string) sample_failing_request
            sample_json_loads sample_py_str
            (set_anonymized_id_mapping [(1, 1); (2, 2); (3, 3); (4, 4)] (new_agent 0))
            "Here it is: {C} Thanks."
            (mkGroupState [new_agent 1; new_agent 2; new_agent 3; new_agent 4] [] 5 1)
            [] in
        punishments = [(1, 15); (2, 5)] /\ rewards = [(3, 0)]).
Proof.
  split; [vm_compute; reflexivity|]. split; [vm_compute; reflexivity|].
  vm_compute. intros [H _]. discriminate H.
Qed.

(** Scenario B on the matrices: agent 0 gave 5 punishment tokens to agent
    1; the apply phase credits agent 1 with the effect 15; a decide phase
    of two members leaves the received totals at 0.  Then the first round
    of a population of three: agents 0 and 1 choose the sanctioning
    institution and give each other 15 punishment tokens and 2 reward
    tokens, agent 2 falls back on the sanction-free institution. *)
Lemma decide_phase_then_apply_phase_witness :
  let inst := mkInstitution SI [0%nat; 1%nat] 0 2 1 [] [] [] [(1, [(0, 5)])] [] in
  received_punishments (apply_punishments_and_rewards inst initial_heap 1%nat) = 15
  /\ received_rewards (apply_punishments_and_rewards inst initial_heap 1%nat) = 0
  /\ apply_punishments_and_rewards inst initial_heap 2%nat = initial_heap 2%nat
  /\ (exists inst' heap' w',
        handle_punishments_and_rewards (list string) sample_send_request
          sample_send_request sample_dump_info sample_json_loads sample_py_str
          sample_py_fmt2f (sample_institution SI [0%nat; 1%nat]) initial_heap
          ["{C}"; "first"; "{C}"; "second"] = (Some (inst', heap'), w')
        /\ received_punishments (heap' 1%nat) = 0
        /\ punishment_matrix inst' = [(1, [(0, 15)]); (0, [(1, 15)])])
  /\ (exists env' heap' w',
        run_round (list string) sample_send_request sample_send_request
          sample_dump_info sample_json_loads sample_py_str sample_py_fmt2f
          (initial_environment 3) initial_heap
          ["{SI}"; "{SI}"; "nonsense"; "{10}"; "{20}"; "{10}";
           "{C}"; "first"; "{C}"; "second"] = (Some (env', heap'), w')
        /\ members (si env') = [0%nat; 1%nat]
        /\ punishment_matrix (si env') = [(1, [(0, 15)]); (0, [(1, 15)])]
        /\ reward_matrix (si env') = [(1, [(0, 2)]); (0, [(1, 2)])]
        /\ received_punishments (heap' 0%nat) = 45
        /\ received_rewards (heap' 0%nat) = 2
        /\ received_punishments (heap' 2%nat) = 0).
Proof.
  intros inst.
  pose proof (decide_phase_then_apply_phase (list string) sample_send_request
                sample_send_request sample_dump_info sample_json_loads sample_py_str
                sample_py_fmt2f) as (Hdecide & Happly & Hother & Hround).
  assert (Hnd : NoDup (members inst)) by (repeat constructor; cbn; intuition discriminate).
  destruct (Happly inst initial_heap eq_refl Hnd 1%nat (or_intror (or_introl eq_refl)))
    as [Hp Hr].
  split; [exact Hp|]. split; [exact Hr|]. split; [|split].
  - apply Hother. cbn. intuition discriminate.
  - assert (Hrun : exists inst' heap' w',
               handle_punishments_and_rewards (list string) sample_send_request
                 sample_send_request sample_dump_info sample_json_loads sample_py_str
                 sample_py_fmt2f (sample_institution SI [0%nat; 1%nat]) initial_heap
                 ["{C}"; "first"; "{C}"; "second"] = (Some (inst', heap'), w')
               /\ punishment_matrix inst' = [(1, [(0, 15)]); (0, [(1, 15)])]).
    { eexists _, _, _. split; vm_compute; reflexivity. }
    destruct Hrun as (inst' & heap' & w' & Hrun & Hm).
    exists inst', heap', w'. split; [exact Hrun|]. split; [|exact Hm].
    exact (proj1 (Hdecide _ _ _ _ _ _ Hrun 1%nat)).
  - assert (Hrun : exists env' heap' w',
               run_round (list string) sample_send_request sample_send_request
                 sample_dump_info sample_json_loads sample_py_str sample_py_fmt2f
                 (initial_environment 3) initial_heap
                 ["{SI}"; "{SI}"; "nonsense"; "{10}"; "{20}"; "{10}";
                  "{C}"; "first"; "{C}"; "second"] = (Some (env', heap'), w')
               /\ members (si env') = [0%nat; 1%nat]
               /\ punishment_matrix (si env') = [(1, [(0, 15)]); (0, [(1, 15)])]
               /\ reward_matrix (si env') = [(1, [(0, 2)]); (0, [(1, 2)])]
               /\ agent_id (heap' 0%nat) = 0).
    { eexists _, _, _. repeat split; vm_compute; reflexivity. }
    destruct Hrun as (env' & heap' & w' & Hrun & Hmem & Hpm & Hrm & Hid).
    assert (Hwf : well_formed (initial_environment 3)) by (split; reflexivity).
    assert (Hpop : NoDup (agents (initial_environment 3))) by apply seq_NoDup.
    destruct (Hround _ _ _ _ _ _ Hwf Hpop Hrun) as [Hm Ho].
    exists env', heap', w'. split; [exact Hrun|]. split; [exact Hmem|].
    split; [exact Hpm|]. split; [exact Hrm|].
    assert (H0 : In 0%nat (members (si env'))) by (rewrite Hmem; now left).
    destruct (Hm 0%nat H0) as [A B]. rewrite Hid, Hpm in A. rewrite Hid, Hrm in B.
    split; [exact A|]. split; [exact B|].
    apply Ho; [cbn; tauto|]. rewrite Hmem. cbn. intuition discriminate.
Defined.

(** Scenario A run from the replies of the oracle: the first member
    answers 10, the second 20.5, which [int] truncates to 20. *)
Lemma scenario_A_sanction_free_witness :
  exists sfi1 heap1 w1,
    collect_contributions (list string) sample_send_request sample_json_loads
      sample_py_str sample_py_fmt2f (sfi (sample_env [] [0%nat; 1%nat])) initial_heap
      ["I give {10}"; "{20}"] = (Some (sfi1, heap1), w1)
    /\ let sfi2 := distribute_public_goods sfi1 heap1 in
       let heap2 := calculate_payoffs (set_sfi sfi2 (sample_env [] [0%nat; 1%nat])) heap1 in
       total_contribution sfi1 = 30
       /\ dict_get Z.eqb 0 (stage1_payoffs sfi2) = Some (NFloat 34)
       /\ dict_get Z.eqb 1 (stage1_payoffs sfi2) = Some (NFloat 24)
       /\ round_payoff (heap2 0%nat) = NFloat 54
       /\ round_payoff (heap2 1%nat) = NFloat 44.
Proof.
  assert (Hrun : exists sfi1 heap1 w1,
             collect_contributions (list string) sample_send_request sample_json_loads
               sample_py_str sample_py_fmt2f (sfi (sample_env [] [0%nat; 1%nat]))
               initial_heap ["I give {10}"; "{20}"] = (Some (sfi1, heap1), w1)
             /\ contribution (heap1 0%nat) = 10 /\ contribution (heap1 1%nat) = 20).
  { eexists _, _, _. split; [vm_compute; reflexivity|]. split; reflexivity. }
  destruct Hrun as (sfi1 & heap1 & w1 & Hrun & H10 & H20).
  exists sfi1, heap1, w1. split; [exact Hrun|].
  destruct (proj2 (scenario_A_sanction_free (list string) sample_send_request
                     sample_json_loads sample_py_str sample_py_fmt2f)
              (sample_env [] [0%nat; 1%nat]) initial_heap heap1
              ["I give {10}"; "{20}"] w1 sfi1 0%nat 1%nat
              eq_refl eq_refl ltac:(discriminate) ltac:(cbn; discriminate)
              Hrun H10 H20)
    as (H1 & H2 & H3 & H4 & H5 & H6 & _).
  cbv zeta. repeat split; assumption.
Defined.

(** Three agents with the cumulative payoffs 1034.0, 1054.0 and 1034.0:
    the second agent is first, and the two others, which are level, keep
    their population order. *)
Lemma ranks_dense_descending_stable_witness :
  let env := sample_env [] [0%nat; 1%nat; 2%nat] in
  map (rank_of env sample_ranked_heap) (agents env) = [2; 1; 3]
  /\ rank_of env sample_ranked_heap 0%nat < rank_of env sample_ranked_heap 2%nat
  /\ num_ltb (cumulative_payoff (sample_ranked_heap 1%nat))
             (cumulative_payoff (sample_ranked_heap 0%nat)) = false
  /\ Permutation (map (rank_of env sample_ranked_heap) (agents env)) [1; 2; 3].
Proof.
  intros env.
  assert (Hnd : NoDup (population_ids env sample_ranked_heap))
    by (repeat constructor; cbn; intuition discriminate).
  destruct (ranks_dense_descending_stable env sample_ranked_heap Hnd)
    as (Hperm & Hdesc & Hstable & _).
  split; [reflexivity|]. split; [|split].
  - apply Hstable; [|reflexivity]. now exists [], [1%nat], [].
  - apply Hdesc; [reflexivity | cbn; auto | cbn; auto |]. vm_compute. reflexivity.
  - exact Hperm.
Defined.

(** An agent with a staged batch and an empty anonymized history: the
    reset moves the batch into the history. *)
Lemma reset_for_new_round_effect_witness :
  contribution (reset_for_new_round sample_staged_agent) = 0
  /\ history (reset_for_new_round sample_staged_agent) = history sample_staged_agent
  /\ anonymous_data_history (reset_for_new_round sample_staged_agent)
     = [mkAnonymousRound 1 [[("contribution", VJson (JInt 7))]]]
  /\ anonymous_data_history (reset_for_new_round (new_agent 0)) = []
  /\ Z.of_nat (List.length (anonymous_data_history
                              (reset_for_new_round sample_staged_agent))) <= 5.
Proof.
  destruct (reset_for_new_round_effect sample_staged_agent)
    as (H1 & _ & _ & _ & _ & _ & H7 & _ & _ & H10 & H11).
  destruct (reset_for_new_round_effect (new_agent 0))
    as (_ & _ & _ & _ & _ & _ & _ & _ & H9 & _).
  split; [exact H1|]. split; [exact H7|]. split; [|split].
  - exact (H10 _ eq_refl).
  - exact (H9 eq_refl).
  - apply H11. cbn. discriminate.
Defined.

(** The statement that both histories are unchanged fails on that agent:
    its anonymized history is not what it was at the end of the previous
    round. *)
Lemma reset_changes_anonymized_history :
  ~ (contribution (reset_for_new_round sample_staged_agent) = 0
     /\ received_punishments (reset_for_new_round sample_staged_agent) = 0
     /\ received_rewards (reset_for_new_round sample_staged_agent) = 0
     /\ assigned_punishments (reset_for_new_round sample_staged_agent) = []
     /\ assigned_rewards (reset_for_new_round sample_staged_agent) = []
     /\ cumulative_payoff (reset_for_new_round sample_staged_agent)
        = cumulative_payoff sample_staged_agent
     /\ history (reset_for_new_round sample_staged_agent) = history sample_staged_agent
     /\ anonymous_data_history (reset_for_new_round sample_staged_agent)
        = anonymous_data_history sample_staged_agent).
Proof.
  intros (_ & _ & _ & _ & _ & _ & _ & H). cbn in H. discriminate.
Qed.


(** A reply without JSON text gives the default contribution 10; a reply
    with a contribution of 20.5 gives 20. *)
Lemma contribution_clamped_or_default_witness :
  fst (parse_contribution_response sample_json_loads (new_agent 0) "no idea") = 10
  /\ contribution_reasoning
       (snd (parse_contribution_response sample_json_loads (new_agent 0) "no idea"))
     = JStr ""
  /\ fst (parse_contribution_response sample_json_loads (new_agent 0) "{20}") = 20.
Proof.
  destruct (contribution_clamped_or_default sample_json_loads (new_agent 0) "no idea")
    as (_ & Hdefault & Hcause).
  destruct (Hdefault (Hcause (or_introl eq_refl))) as (H1 & H2 & H3).
  split; [now rewrite H1|]. split; [exact H3|]. reflexivity.
Defined.

(** Two members of the sanction-free institution: collecting their
    contributions equals collecting them from the prompts built before the
    stage. *)
Lemma contribution_prompt_independent_of_peers_witness :
  collect_contributions (list string) sample_send_request sample_json_loads
    sample_py_str sample_py_fmt2f (sample_institution SFI [0%nat; 1%nat]) initial_heap
    ["{10}"; "{20}"]
  = collect_contributions_frozen (list string) sample_send_request sample_json_loads
      sample_py_str sample_py_fmt2f (sample_institution SFI [0%nat; 1%nat]) initial_heap
      ["{10}"; "{20}"].
Proof.
  apply (contribution_prompt_independent_of_peers (list string) sample_send_request
           sample_json_loads sample_py_str sample_py_fmt2f).
  repeat constructor; cbn; intuition discriminate.
Defined.

(** A reply whose first punishment entry is fine and whose second has the
    tokens "lots": the whole reply is discarded.  A key that is no integer
    is skipped. *)
Lemma unconvertible_tokens_discard_reply_witness :
  let gs := mkGroupState [new_agent 1; new_agent 2] [] 3 1 in
  fst (parse_punishment_response (list string) sample_send_request sample_json_loads
         sample_py_str (new_agent 0) "{bad}" gs [])
  = ([], [], new_agent 0)
  /\ process_allocations 2 (anonymized_number_to_agent (gs_members gs))
       [("first", JStr "lots"); ("2", JInt 3)] [] 20
     = Some ([(2, 3)], 17)
  /\ process_allocations 2 (anonymized_number_to_agent (gs_members gs))
       [("1", JInt 5); ("2", JStr "lots")] [] 20 = None.
Proof.
  intros gs.
  destruct (unconvertible_tokens_discard_reply (list string) sample_send_request
              sample_json_loads sample_py_str) as (Hskip & Hraise & Hparse).
  split; [|split].
  - refine (proj1 (Hparse (new_agent 0) "{bad}" gs [] _ _ _ eq_refl eq_refl eq_refl
                     (or_introl _))).
    vm_compute. reflexivity.
  - rewrite (Hskip 2 _ "first" (JStr "lots") [("2", JInt 3)] [] 20 eq_refl).
    reflexivity.
  - refine (Hraise 2 _ [("1", JInt 5)] [] "2" (JStr "lots") [] [(1, 5)] 20 15 2
              _ _ eq_refl _ eq_refl).
    + reflexivity.
    + lia.
    + lia.
Defined.

(** The reply "{SI}" asks for "si": the agent joins the sanctioning
    institution; a reply without JSON text falls back on the sanction-free
    institution; the round number of the agent is kept. *)
Lemma institution_choice_parsed_witness :
  institution_choice (parse_institution_choice_response sample_json_loads
                        (new_agent 0) "I choose {SI}") = Some SI
  /\ institution_reasoning (parse_institution_choice_response sample_json_loads
                              (new_agent 0) "I choose {SI}") = JStr "order"
  /\ institution_choice (parse_institution_choice_response sample_json_loads
                           (new_agent 0) "nonsense") = Some SFI
  /\ round_number (parse_institution_choice_response sample_json_loads
                     (set_round_number 3 (new_agent 0)) "I choose {SI}") = 3.
Proof.
  destruct (institution_choice_parsed sample_json_loads (new_agent 0) "I choose {SI}")
    as (_ & Hsi & Hreason & _ & _).
  destruct (institution_choice_parsed sample_json_loads (new_agent 0) "nonsense")
    as (_ & _ & _ & Hfail & _).
  destruct (institution_choice_parsed sample_json_loads
              (set_round_number 3 (new_agent 0)) "I choose {SI}")
    as (_ & _ & _ & _ & Hframe).
  split; [|split; [|split]].
  - apply Hsi. eexists _, "si". split; [vm_compute; reflexivity|].
    split; reflexivity.
  - rewrite (Hreason _ "si" ltac:(vm_compute; reflexivity) eq_refl). reflexivity.
  - apply Hfail. intros d s H. vm_compute in H. discriminate.
  - exact (f_equal round_number Hframe).
Defined.

(** Agent 0 decides in a sanctioning institution of the agents 0, 1 and 2:
    the reply "{C}" names the aliases 1, 2 and 3; the stored dicts name the
    agents 1 and 2 and never agent 0. *)
Lemma allocations_name_other_members_witness :
  exists punishments rewards self' w',
    assign_punishment (list string) sample_send_request sample_send_request
      sample_dump_info sample_json_loads sample_py_str sample_py_fmt2f
      (initial_heap 0%nat)
      (get_group_state (sample_institution SI [0%nat; 1%nat; 2%nat]) initial_heap
         (initial_heap 0%nat))
      ["{C}"; "rewritten"] = (Some (punishments, rewards, self'), w')
    /\ punishments = [(1, 15); (2, 5)]
    /\ assigned_punishments self' = punishments
    /\ dict_get Z.eqb 0 punishments = None
    /\ dict_get Z.eqb 0 rewards = None.
Proof.
  assert (Hrun : exists punishments rewards self' w',
             assign_punishment (list string) sample_send_request sample_send_request
               sample_dump_info sample_json_loads sample_py_str sample_py_fmt2f
               (initial_heap 0%nat)
               (get_group_state (sample_institution SI [0%nat; 1%nat; 2%nat])
                  initial_heap (initial_heap 0%nat))
               ["{C}"; "rewritten"] = (Some (punishments, rewards, self'), w')
             /\ punishments = [(1, 15); (2, 5)]).
  { eexists _, _, _, _. split; vm_compute; reflexivity. }
  destruct Hrun as (p & q & self' & w' & Hrun & Hp).
  destruct (proj2 (allocations_name_other_members (list string) sample_send_request
                     sample_send_request sample_dump_info sample_json_loads
                     sample_py_str sample_py_fmt2f)
              (sample_institution SI [0%nat; 1%nat; 2%nat]) initial_heap 0%nat
              _ _ _ _ _ eq_refl Hrun) as (A & _ & B & C & _).
  exists p, q, self', w'. split; [exact Hrun|]. split; [exact Hp|].
  split; [exact A|]. split; [exact B | exact C].
Defined.

(** The prompt of agent 0 for the snapshot of the agents 1 and 2: alias 2
    is agent 2 in the mapping and in the table, and alias 3 does not
    exist. *)
Lemma alias_mapping_matches_table_witness :
  let gs := mkGroupState [new_agent 1; new_agent 2] [] 3 1 in
  exists prompt self',
    construct_punishment_prompt sample_py_str sample_py_fmt2f (new_agent 0) gs
      = Some (prompt, self')
    /\ dict_get Z.eqb 2 (anonymized_id_mapping self') = Some 2
    /\ dict_get String.eqb "2" (anonymized_number_to_agent (gs_members gs))
       = Some (new_agent 2)
    /\ dict_get Z.eqb 3 (anonymized_id_mapping self') = None.
Proof.
  intros gs.
  assert (Hrun : exists prompt self',
             construct_punishment_prompt sample_py_str sample_py_fmt2f (new_agent 0) gs
             = Some (prompt, self')).
  { eexists _, _. vm_compute. reflexivity. }
  destruct Hrun as (prompt & self' & Hrun). exists prompt, self'.
  split; [exact Hrun|].
  destruct (alias_mapping_matches_table sample_py_str sample_py_fmt2f
              (new_agent 0) self' gs prompt Hrun) as [Hin Hout].
  destruct (Hin 2 ltac:(cbn; lia)) as (m & Hn & Hmap & Htab & _).
  cbn in Hn. injection Hn as <-.
  split; [exact Hmap|]. split; [exact Htab|].
  apply Hout. cbn. lia.
Defined.

(** A reply that wraps the object in a sentence. *)
Lemma extract_json_isolates_object_witness :
  extract_json "Here it is: {C} Thanks." = "{C}"
  /\ extract_json "} no object {" = ""
  /\ extract_json "no object" = "".
Proof.
  destruct extract_json_isolates_object as (Hobj & Hrev & Hnone).
  split; [|split].
  - exact (Hobj "Here it is: " "C" " Thanks." eq_refl eq_refl).
  - apply Hrev; vm_compute; [discriminate | reflexivity].
  - apply Hnone. reflexivity.
Defined.

(** The first round of three agents: the first two ask for SI, the third
    gives no JSON text and falls back on SFI. *)
Lemma enrolment_partitions_population_witness :
  exists env' heap' w',
    run_round (list string) sample_send_request sample_send_request
      sample_dump_info sample_json_loads sample_py_str sample_py_fmt2f
      (initial_environment 3) initial_heap
      ["{SI}"; "{SI}"; "nonsense"; "{10}"; "{20}"; "{10}";
       "{C}"; "first"; "{C}"; "second"] = (Some (env', heap'), w')
    /\ members (si env') = [0%nat; 1%nat]
    /\ members (sfi env') = [2%nat]
    /\ institution_choice (heap' 2%nat) = Some SFI
    /\ current_group (heap' 2%nat) = Some SFI.
Proof.
  assert (Hrun : exists env' heap' w',
             run_round (list string) sample_send_request sample_send_request
               sample_dump_info sample_json_loads sample_py_str sample_py_fmt2f
               (initial_environment 3) initial_heap
               ["{SI}"; "{SI}"; "nonsense"; "{10}"; "{20}"; "{10}";
                "{C}"; "first"; "{C}"; "second"] = (Some (env', heap'), w')
             /\ members (si env') = [0%nat; 1%nat]
             /\ members (sfi env') = [2%nat]).
  { eexists _, _, _. repeat split; vm_compute; reflexivity. }
  destruct Hrun as (env' & heap' & w' & Hrun & Hsi & Hsfi).
  exists env', heap', w'. split; [exact Hrun|]. split; [exact Hsi|].
  split; [exact Hsfi|].
  destruct (enrolment_partitions_population (list string) sample_send_request
              sample_send_request sample_dump_info sample_json_loads sample_py_str
              sample_py_fmt2f (initial_environment 3) _ _ _ _ _ (seq_NoDup 3 0) Hrun)
    as (_ & _ & _ & Hall).
  destruct (Hall 2%nat ltac:(cbn; tauto)) as (_ & Hc & _ & Hg & _).
  assert (Hin : In 2%nat (members (sfi env'))) by (rewrite Hsfi; now left).
  apply Hc in Hin. split; [exact Hin|]. now rewrite Hg.
Defined.

(** Two members of the sanction-free institution answer 10 and 20.5. *)
Lemma contributions_collected_witness :
  exists inst' heap' w',
    collect_contributions (list string) sample_send_request sample_json_loads
      sample_py_str sample_py_fmt2f (sample_institution SFI [0%nat; 1%nat]) initial_heap
      ["{10}"; "{20}"] = (Some (inst', heap'), w')
    /\ total_contribution inst' = 30
    /\ anonymized_contributions inst' = [10; 20]
    /\ group_size inst' = 2
    /\ initial_heap 2%nat = heap' 2%nat.
Proof.
  assert (Hrun : exists inst' heap' w',
             collect_contributions (list string) sample_send_request sample_json_loads
               sample_py_str sample_py_fmt2f (sample_institution SFI [0%nat; 1%nat])
               initial_heap ["{10}"; "{20}"] = (Some (inst', heap'), w')
             /\ contribution (heap' 0%nat) = 10 /\ contribution (heap' 1%nat) = 20).
  { eexists _, _, _. split; [vm_compute; reflexivity|]. split; reflexivity. }
  destruct Hrun as (inst' & heap' & w' & Hrun & H0 & H1).
  exists inst', heap', w'. split; [exact Hrun|].
  assert (Hnd : NoDup (members (sample_institution SFI [0%nat; 1%nat])))
    by (repeat constructor; cbn; intuition discriminate).
  destruct (contributions_collected (list string) sample_send_request
              sample_json_loads sample_py_str sample_py_fmt2f
              _ _ _ _ _ _ Hnd Hrun) as (Ht & Ha & Hg & _ & _ & _ & Hf).
  split; [rewrite Ht; unfold sum_contributions; cbn; rewrite H0, H1; reflexivity|].
  split; [rewrite Ha; cbn; rewrite H0, H1; reflexivity|].
  split; [exact Hg|]. symmetry. apply Hf. cbn. intuition discriminate.
Defined.

(** The first round of three agents: agent 0 of the sanctioning institution
    is punished by 45, earns -6.0 in the round and goes from 1000 to 994.0;
    agent 2 of the sanction-free institution earns 46.0. *)
Lemma round_payoffs_settled_witness :
  exists env' heap' w',
    run_round (list string) sample_send_request sample_send_request
      sample_dump_info sample_json_loads sample_py_str sample_py_fmt2f
      (initial_environment 3) initial_heap
      ["{SI}"; "{SI}"; "nonsense"; "{10}"; "{20}"; "{10}";
       "{C}"; "first"; "{C}"; "second"] = (Some (env', heap'), w')
    /\ cumulative_payoff (heap' 0%nat) = NFloat 994%float
    /\ get_stage2_payoff (heap' 0%nat) = -40
    /\ cumulative_payoff (heap' 2%nat) = NFloat 1046%float.
Proof.
  assert (Hrun : exists env' heap' w',
             run_round (list string) sample_send_request sample_send_request
               sample_dump_info sample_json_loads sample_py_str sample_py_fmt2f
               (initial_environment 3) initial_heap
               ["{SI}"; "{SI}"; "nonsense"; "{10}"; "{20}"; "{10}";
                "{C}"; "first"; "{C}"; "second"] = (Some (env', heap'), w')
             /\ members (si env') = [0%nat; 1%nat]
             /\ members (sfi env') = [2%nat]
             /\ round_payoff (heap' 0%nat) = NFloat (-0x1.8p+2)%float
             /\ round_payoff (heap' 2%nat) = NFloat (0x1.7p+5)%float
             /\ tokens_kept (heap' 0%nat) = 3
             /\ received_rewards (heap' 0%nat) = 2
             /\ received_punishments (heap' 0%nat) = 45).
  { eexists _, _, _. repeat split; vm_compute; reflexivity. }
  destruct Hrun as (env' & heap' & w' & Hrun & Hsi & Hsfi & R0 & R2 & T0 & Rr & Rp).
  exists env', heap', w'. split; [exact Hrun|].
  pose proof (round_payoffs_settled (list string) sample_send_request
                sample_send_request sample_dump_info sample_json_loads sample_py_str
                sample_py_fmt2f (initial_environment 3) _ _ _ _ _
                (proj1 (population_ids_initial 3)) Hrun) as Hall.
  destruct (Hall 0%nat ltac:(cbn; tauto)) as (C0 & _ & S0 & _).
  destruct (Hall 2%nat ltac:(cbn; tauto)) as (C2 & _ & _ & _).
  assert (Hin : In 0%nat (members (si env'))) by (rewrite Hsi; now left).
  destruct (S0 Hin) as (_ & _ & K0).
  split; [rewrite C0, R0; vm_compute; reflexivity|].
  split; [rewrite K0, T0, Rr, Rp; reflexivity|].
  rewrite C2, R2. vm_compute. reflexivity.
Defined.

(** Two rounds of three agents: agents 0 and 1 form the sanctioning
    institution in round 1, agent 0 alone in round 2. *)
Lemma rounds_recorded_witness :
  exists env' heap' w',
    run_rounds (list string) sample_send_request sample_send_request
      sample_dump_info sample_json_loads sample_py_str sample_py_fmt2f 2 1
      (initial_environment 3) initial_heap
      ["{SI}"; "{SI}"; "nonsense"; "{10}"; "{20}"; "{10}";
       "{C}"; "first"; "{C}"; "second";
       "{SI}"; "nonsense"; "nonsense"; "{10}"; "{20}"; "{10}"; "{C}"]
    = (Some (env', heap'), w')
    /\ map rd_round_number (results env') = [1; 2]
    /\ map rd_si_members (results env') = [[0; 1]; [0]]
    /\ map entry_round_number (history (heap' 2%nat))
       = [Some (VJson (JInt 1)); Some (VJson (JInt 2))].
Proof.
  assert (Hrun : exists env' heap' w',
             run_rounds (list string) sample_send_request sample_send_request
               sample_dump_info sample_json_loads sample_py_str sample_py_fmt2f 2 1
               (initial_environment 3) initial_heap
               ["{SI}"; "{SI}"; "nonsense"; "{10}"; "{20}"; "{10}";
                "{C}"; "first"; "{C}"; "second";
                "{SI}"; "nonsense"; "nonsense"; "{10}"; "{20}"; "{10}"; "{C}"]
             = (Some (env', heap'), w')
             /\ map rd_si_members (results env') = [[0; 1]; [0]]).
  { eexists _, _, _. split; vm_compute; reflexivity. }
  destruct Hrun as (env' & heap' & w' & Hrun & Hsi).
  exists env', heap', w'. split; [exact Hrun|].
  destruct (rounds_recorded (list string) sample_send_request sample_send_request
              sample_dump_info sample_json_loads sample_py_str sample_py_fmt2f
              2 1 (initial_environment 3) _ _ _ _ _
              (proj1 (population_ids_initial 3)) Hrun)
    as ((records & Hres & _ & Hnum & _) & Hhist).
  destruct (Hhist 2%nat ltac:(cbn; tauto)) as (entries & Hh & Hn).
  split; [rewrite Hres; cbn [results initial_environment new_environment app];
          exact Hnum|].
  split; [exact Hsi|].
  rewrite Hh. cbn [history initial_heap new_agent app]. exact Hn.
Defined.

(** The first round of three agents: agents 0 and 1 give each other 15
    punishment tokens and 2 reward tokens, so agent 0 receives 45 and 2. *)
Lemma sanction_tokens_conserved_witness :
  exists env' heap' w',
    run_round (list string) sample_send_request sample_send_request
      sample_dump_info sample_json_loads sample_py_str sample_py_fmt2f
      (initial_environment 3) initial_heap
      ["{SI}"; "{SI}"; "nonsense"; "{10}"; "{20}"; "{10}";
       "{C}"; "first"; "{C}"; "second"] = (Some (env', heap'), w')
    /\ assigned_punishments (heap' 1%nat) = [(0, 15)]
    /\ tokens_directed_at 0 (punishment_matrix (si env')) = 15
    /\ received_punishments (heap' 0%nat) = 45
    /\ received_rewards (heap' 0%nat) = 2.
Proof.
  assert (Hrun : exists env' heap' w',
             run_round (list string) sample_send_request sample_send_request
               sample_dump_info sample_json_loads sample_py_str sample_py_fmt2f
               (initial_environment 3) initial_heap
               ["{SI}"; "{SI}"; "nonsense"; "{10}"; "{20}"; "{10}";
                "{C}"; "first"; "{C}"; "second"] = (Some (env', heap'), w')
             /\ members (si env') = [0%nat; 1%nat]
             /\ agent_id (heap' 0%nat) = 0
             /\ assigned_punishments (heap' 0%nat) = [(1, 15)]
             /\ assigned_punishments (heap' 1%nat) = [(0, 15)]
             /\ assigned_rewards (heap' 0%nat) = [(1, 2)]
             /\ assigned_rewards (heap' 1%nat) = [(0, 2)]).
  { eexists _, _, _. repeat split; vm_compute; reflexivity. }
  destruct Hrun as (env' & heap' & w' & Hrun & Hm & Hid & P0 & P1 & R0 & R1).
  exists env', heap', w'. split; [exact Hrun|]. split; [exact P1|].
  destruct (population_ids_initial 3) as (Hids & _ & Hwf).
  destruct (sanction_tokens_conserved (list string) sample_send_request
              sample_send_request sample_dump_info sample_json_loads sample_py_str
              sample_py_fmt2f (initial_environment 3) _ _ _ _ _ Hwf Hids Hrun)
    as [Hall Hrec].
  destruct (Hall 0) as [Hp _].
  destruct (Hrec 0%nat ltac:(rewrite Hm; now left)) as [Hrp Hrr].
  rewrite Hid in Hrp, Hrr.
  unfold tokens_assigned_by in Hp, Hrp, Hrr. rewrite Hm in Hp, Hrp, Hrr.
  cbn [map fold_right] in Hp, Hrp, Hrr.
  rewrite P0, P1 in Hp, Hrp. rewrite R0, R1 in Hrr.
  split; [exact Hp|]. split; [exact Hrp | exact Hrr].
Defined.

